(** * The Linux sandbox interposition layer (libDetours): a shallow embedding

    Sources embedded here:
    - [Public/Src/Sandbox/Linux/bxl_observer.hpp]: [result_t], [should_deny],
      [IsEnabled], [get_mode], [normalize_path] and the three helpers that
      the [GEN_FN_DEF] macro generates for every intercepted name
      ([fwd_NAME], [check_fwd_and_report_NAME], [fwd_and_report_NAME]);
    - [Public/Src/Sandbox/Linux/detours.cpp]: the [INTERPOSE] wrappers.

    A wrapper is a computation over the state of the guest process
    ([World]): the thread's [errno], the process environment, the
    descriptor-to-path table, the kernel and the observer's caches.  Every
    externally visible step (an access check, a call through a real-call
    handle, a report handed to the reporting channel, a reset of the
    descriptor table) is appended to a ghost [trace], which is what the
    ordering and "exactly once" statements are about.

    C values are integers: [int], [ssize_t], [size_t], [pid_t], [mode_t] and
    pointers returned by libc are all [Z] (a null pointer is [0]). *)

From Stdlib Require Import ZArith Ascii String List Bool Lia DecimalString DecimalZ DecimalPos.
From stdpp Require Import base option list gmap strings.
Import ListNotations.

Local Open Scope string_scope.
Local Open Scope list_scope.
Local Open Scope Z_scope.

(** ** Constants of the system headers (Linux, x86-64 glibc) *)

Definition EPERM : Z := 1.
Definition ENOENT : Z := 2.
Definition ENOSYS : Z := 38.

Definition O_RDONLY : Z := 0.
Definition O_WRONLY : Z := 1.
Definition O_RDWR : Z := 2.
Definition O_ACCMODE : Z := 3.
Definition O_CREAT : Z := 64.          (* 0100 *)
Definition O_TRUNC : Z := 512.         (* 01000 *)
Definition O_NOFOLLOW : Z := 131072.   (* 0400000 *)

Definition AT_FDCWD : Z := -100.
Definition AT_SYMLINK_NOFOLLOW : Z := 256.
Definition AT_REMOVEDIR : Z := 512.
Definition AT_SYMLINK_FOLLOW : Z := 1024.

Definition S_IFMT : Z := 61440.        (* 0170000 *)
Definition S_IFDIR : Z := 16384.       (* 0040000 *)
Definition S_IFREG : Z := 32768.       (* 0100000 *)
Definition S_IFLNK : Z := 40960.       (* 0120000 *)

Definition S_ISDIR (mode : Z) : bool := Z.land mode S_IFMT =? S_IFDIR.

(** [#define ERROR_RETURN_VALUE -1] *)
Definition ERROR_RETURN_VALUE : Z := -1.

(** A C integer used as a condition. *)
Definition truthy (z : Z) : bool := negb (z =? 0).

(** ** Data model *)

(** The event kinds that the wrappers of [detours.cpp] use. *)
Inductive es_event_type_t :=
| ES_EVENT_TYPE_NOTIFY_OPEN
| ES_EVENT_TYPE_NOTIFY_WRITE
| ES_EVENT_TYPE_NOTIFY_CREATE
| ES_EVENT_TYPE_NOTIFY_UNLINK
| ES_EVENT_TYPE_NOTIFY_RENAME
| ES_EVENT_TYPE_NOTIFY_LINK
| ES_EVENT_TYPE_NOTIFY_READLINK
| ES_EVENT_TYPE_NOTIFY_READDIR
| ES_EVENT_TYPE_NOTIFY_STAT
| ES_EVENT_TYPE_NOTIFY_ACCESS
| ES_EVENT_TYPE_NOTIFY_SETMODE
| ES_EVENT_TYPE_AUTH_SETOWNER
| ES_EVENT_TYPE_NOTIFY_SETTIME
| ES_EVENT_TYPE_NOTIFY_EXEC
| ES_EVENT_TYPE_NOTIFY_FORK
| ES_EVENT_TYPE_NOTIFY_EXIT.

Inductive es_action_type_t := ES_ACTION_TYPE_AUTH | ES_ACTION_TYPE_NOTIFY.

(** Modelled from the spec: the [IOEvent] class is declared in a header that
    is not part of the sources.  The fields are those of the spec's data
    model, in the order of the longest constructor call of [detours.cpp]
    ([report_child_process]); the short constructors leave the process ids
    to their defaults, written [None]. *)
Record IOEvent := mkIOEvent {
  ev_pid : option Z;
  ev_cpid : option Z;
  ev_ppid : option Z;
  ev_type : es_event_type_t;
  ev_action : es_action_type_t;
  ev_src_path : string;
  ev_dst_path : string;
  ev_executable : string;
  ev_mode : Z;
  ev_modified : bool
}.

(** [IOEvent(type, action, path, executable, mode)] *)
Definition IOEvent5 (ty : es_event_type_t) (act : es_action_type_t)
    (path exe : string) (mode : Z) : IOEvent :=
  mkIOEvent None None None ty act path "" exe mode false.

(** [IOEvent(type, action, path, executable, mode, modified, second path)] *)
Definition IOEvent7 (ty : es_event_type_t) (act : es_action_type_t)
    (path exe : string) (mode : Z) (modified : bool) (second : string) : IOEvent :=
  mkIOEvent None None None ty act path second exe mode modified.

(** Modelled from the spec: [AccessCheckResult] is declared outside the
    sources; the spec describes it as the policy's decision for one event
    (allowed, denied or warn-only) with a report level. *)
Inductive ResultAction := Allow | Deny | Warn.

Record AccessCheckResult := mkCheck {
  check_action : ResultAction;
  check_report : bool
}.

Definition ShouldDenyAccess (c : AccessCheckResult) : bool :=
  match check_action c with Deny => true | _ => false end.

(** One record of the wire format; the fields are the ones [BuildReport]
    prints. *)
Record AccessReport := mkReport {
  rep_pid : Z;
  rep_requestedAccess : Z;
  rep_status : Z;
  rep_reportExplicitly : Z;
  rep_error : Z;
  rep_operation : Z;
  rep_path : string;
  rep_isDirectory : Z
}.

Definition with_error (e : Z) (r : AccessReport) : AccessReport :=
  mkReport (rep_pid r) (rep_requestedAccess r) (rep_status r)
           (rep_reportExplicitly r) e (rep_operation r) (rep_path r)
           (rep_isDirectory r).

(** Modelled from the spec: [AccessReportGroup] (declared outside the
    sources) holds the one or two reports of an intercepted call;
    [SetErrno] stores the final errno in each of them. *)
Record AccessReportGroup := mkGroup { group_reports : list AccessReport }.

Definition SetErrno (e : Z) (g : AccessReportGroup) : AccessReportGroup :=
  mkGroup (map (with_error e) (group_reports g)).

Definition group_errno_is (e : Z) (g : AccessReportGroup) : Prop :=
  Forall (fun r => rep_error r = e) (group_reports g).

(** The five overloads of [create_access]. *)
Inductive AccessRequest :=
| ReqEvent (ev : IOEvent)
| ReqPath (ty : es_event_type_t) (pathname : option string) (mode oflags : Z)
| ReqTwoPaths (ty : es_event_type_t) (reportPath secondPath : string)
| ReqFd (ty : es_event_type_t) (fd : Z)
| ReqAt (ty : es_event_type_t) (dirfd : Z) (pathname : option string) (oflags : Z).

(** Arguments of a forwarded call. Buffers and other pointers whose
    contents the wrappers never look at are [APtr]. *)
Inductive Arg :=
| AInt (z : Z)
| AStr (s : option string)
| AVec (l : list string)
| APtr (p : Z).

(** The observable steps of a wrapper. A real call is logged with what it
    returned and the errno it left; [None] is a call that did not return
    (a successful exec, [_exit]). *)
Inductive Action :=
| ACheck (syscallName : string) (req : AccessRequest) (checkCache : bool)
         (check : AccessCheckResult) (report : AccessReportGroup)
| AReal (name : string) (args : list Arg) (returned : option (Z * Z))
| ASend (report : AccessReportGroup)
| AResetFdTable
| AResetFdEntry (fd : Z)
| AStaticallyLinked (path : string)
| APTrace (file : string) (argv envp : list string) (mq fam : string) (returned : Z * Z).

(** The fields of the observer that the wrappers read. *)
Record BxlObserver := mkObserver {
  sandbox_valid : bool;                      (* sandbox_ != NULL *)
  AllowChildProcessesToBreakAway : bool;     (* pip_->AllowChildProcessesToBreakAway() *)
  rootPid_ : Z;
  FailUnexpectedFileAccesses : bool;         (* CheckFailUnexpectedFileAccesses(pip_->GetFamFlags()) *)
  progFullPath_ : string;
  detoursLibFullPath_ : string;
  famPath_ : string;
  PTraceMqName : string                      (* getPTraceMqName() *)
}.

(** ** The platform: everything a wrapper calls that is not in the sources

    The kernel behind the real-call handles, the policy behind
    [create_access], the reporting channel and the helpers of
    [observer_utilities], [utils] and [PTraceSandbox] are collaborators of
    the two source files; a wrapper's behaviour is stated for every
    platform. *)
Class Platform := {
  (** the kernel side of the process: file system, process ids, ... *)
  KState : Type;
  (** the observer's private caches (event dedup, static-binary cache) *)
  PState : Type;
  (** the singleton returned by [BxlObserver::GetInstance()] *)
  bxl : BxlObserver;
  (** [dlsym(RTLD_NEXT, name)] returned a non-null handle *)
  resolved : string -> bool;
  (** the real implementation behind a handle: from the kernel state and
      the current errno to the result, the errno left behind and the new
      kernel state; [None] when the call does not return *)
  real_impl : string -> list Arg -> KState -> Z -> option (Z * Z * KState);
  getpid : KState -> Z;
  getppid : KState -> Z;
  (** [st_mode] of a successful [lstat] *)
  lstat_mode : KState -> string -> option Z;
  (** access check and report construction of the [create_access] family *)
  policy : string -> AccessRequest -> bool -> KState -> gmap Z string -> PState ->
           AccessCheckResult * AccessReportGroup * PState;
  Combine : AccessCheckResult -> AccessCheckResult -> AccessCheckResult;
  Invalid : AccessCheckResult;
  (** errno after a write to the reporting channel, from the errno before *)
  channel_errno : KState -> AccessReportGroup -> Z -> Z;
  normalize_path_at : KState -> gmap Z string -> Z -> option string -> Z -> string;
  fd_to_path : KState -> gmap Z string -> Z -> string;
  (** [EnumerateDirectory(root, recursive, out)]: [None] when it returns false *)
  EnumerateDirectory : KState -> string -> bool -> option (list string);
  is_statically_linked : KState -> PState -> string -> bool;
  (** [resolve_filename_with_env(file, mode, pathname)] *)
  resolve_filename_with_env : KState -> list string -> option string -> option (Z * string);
  ensureEnvs : list string -> list string;
  remove_path_from_LDPRELOAD : list string -> string -> list string;
  (** result and errno of [PTraceSandbox::ExecuteWithPTraceSandbox] *)
  ExecuteWithPTraceSandbox :
    KState -> string -> list string -> list string -> string -> string -> Z * Z;
  (** [get_variadic_argc]: [-1] when the argument list cannot be counted *)
  get_variadic_argc : list string -> Z;
  (** descriptor behind a [FILE*] or a [DIR*] *)
  fileno : KState -> Z -> Z;
  dirfd : KState -> Z -> Z
}.

Section Sandbox.
Context {P : Platform}.

(** ** The state of the guest process *)

#[projections(primitive)]
Record World := mkWorld {
  errno : Z;                    (* the calling thread's errno *)
  environ : list string;        (* the global [environ] *)
  fdTable : gmap Z string;      (* BxlObserver::fdTable_ *)
  kernel : KState;
  cache : PState;
  trace : list Action           (* ghost: observable steps, oldest first *)
}.

Definition set_errno (e : Z) (w : World) : World :=
  mkWorld e (environ w) (fdTable w) (kernel w) (cache w) (trace w).
Definition set_fdTable (t : gmap Z string) (w : World) : World :=
  mkWorld (errno w) (environ w) t (kernel w) (cache w) (trace w).
Definition set_kernel (k : KState) (w : World) : World :=
  mkWorld (errno w) (environ w) (fdTable w) k (cache w) (trace w).
Definition set_cache (c : PState) (w : World) : World :=
  mkWorld (errno w) (environ w) (fdTable w) (kernel w) c (trace w).
Definition log (a : Action) (w : World) : World :=
  mkWorld (errno w) (environ w) (fdTable w) (kernel w) (cache w) (trace w ++ [a]).

(** ** Wrappers as computations

    A wrapper either returns to the guest or stops: a call through a null
    handle is a fault, a successful exec or [_exit] never returns, and
    [back()] of an empty vector is undefined. *)
Inductive Halt :=
| NullCall (name : string)
| NoReturn (name : string)
| Undefined (what : string).

Inductive Outcome (A : Type) :=
| Ret (a : A) (w : World)
| Stop (h : Halt) (w : World).
Arguments Ret {A} a w.
Arguments Stop {A} h w.

Definition M (A : Type) : Type := World -> Outcome A.

Definition ret {A} (a : A) : M A := fun w => Ret a w.

Definition bind {A B} (m : M A) (k : A -> M B) : M B :=
  fun w => match m w with
           | Ret a w' => k a w'
           | Stop h w' => Stop h w'
           end.

Definition final {A} (o : Outcome A) : World :=
  match o with Ret _ w => w | Stop _ w => w end.

Definition returned {A} (o : Outcome A) : option A :=
  match o with Ret a _ => Some a | Stop _ _ => None end.

End Sandbox.

Arguments Ret {P A} a w.
Arguments Stop {P A} h w.

Declare Scope sandbox_scope.
Delimit Scope sandbox_scope with sandbox.
Notation "'let*' x := c 'in' k" := (bind c (fun x => k))
  (at level 10, x binder, c at level 100, k at level 200) : sandbox_scope.
Notation "'let*' ' p := c 'in' k" := (bind c (fun x => match x with p => k end))
  (at level 10, p pattern, c at level 100, k at level 200) : sandbox_scope.
Notation "c >> k" := (bind c (fun _ => k))
  (at level 62, right associativity) : sandbox_scope.
Local Open Scope sandbox_scope.

Section Model.
Context {P : Platform}.

(** ** [bxl_observer.hpp] *)

(** [template <typename T> class result_t]: the result of a call together
    with a remembered errno. *)
Record result_t := mk_result_t {
  my_errno_ : Z;
  result_ : Z
}.

(** [result_t(T result) : result_(result), my_errno_(errno)] *)
Definition result_t_of (result : Z) : M result_t :=
  fun w => Ret (mk_result_t (errno w) result) w.

(** [result_t(T result, int error)] *)
Definition result_t_with (result error : Z) : result_t :=
  mk_result_t error result.

(** [restore()]: [errno = my_errno_; return result_;] *)
Definition restore (r : result_t) : M Z :=
  fun w => Ret (result_ r) (set_errno (my_errno_ r) w).

Definition get (r : result_t) : Z := result_ r.
Definition get_errno (r : result_t) : Z := my_errno_ r.

Definition IsValid : bool := sandbox_valid bxl.

(** [IsValid() && !(pip_->AllowChildProcessesToBreakAway() && getpid() != rootPid_)] *)
Definition IsEnabled (w : World) : bool :=
  IsValid &&
  negb (AllowChildProcessesToBreakAway bxl && negb (getpid (kernel w) =? rootPid_ bxl)).

Definition IsFailingUnexpectedAccesses : bool := FailUnexpectedFileAccesses bxl.

(** [IsEnabled() && check.ShouldDenyAccess() && IsFailingUnexpectedAccesses()] *)
Definition should_deny (check : AccessCheckResult) : M bool :=
  fun w => Ret (IsEnabled w && ShouldDenyAccess check && IsFailingUnexpectedAccesses) w.

Definition GetProgramPath : string := progFullPath_ bxl.
Definition GetDetoursLibPath : string := detoursLibFullPath_ bxl.
Definition getPTraceMqName : string := PTraceMqName bxl.
Definition getFamPath : string := famPath_ bxl.

(** A call through the handle [real_NAME]. In the interposing build the
    handle is whatever [dlsym(RTLD_NEXT, "NAME")] returned when the observer
    was constructed; the call sites do not test it. *)
Definition real (name : string) (args : list Arg) : M Z :=
  fun w =>
    if resolved name then
      match real_impl name args (kernel w) (errno w) with
      | Some (r, e, k) =>
          Ret r (log (AReal name args (Some (r, e))) (set_kernel k (set_errno e w)))
      | None => Stop (NoReturn name) (log (AReal name args None) w)
      end
    else Stop (NullCall name) w.

(** [fwd_NAME]: call the real function, then capture the result together
    with the errno of that moment. ([LOG_DEBUG] expands to nothing unless
    [_DEBUG] is set.) *)
Definition fwd (name : string) (args : list Arg) : M result_t :=
  let* result := real name args in
  result_t_of result.

(** [SendReport(const AccessReportGroup&)]: hands the group to the reporting
    channel; the write may leave any errno behind. *)
Definition SendReport (report : AccessReportGroup) : M unit :=
  fun w => Ret tt (set_errno (channel_errno (kernel w) report (errno w))
                             (log (ASend report) w)).

(** [check_fwd_and_report_NAME(report, check, error_val, args...)] *)
Definition check_fwd_and_report (name : string) (report : AccessReportGroup)
    (check : AccessCheckResult) (error_val : Z) (args : list Arg) : M Z :=
  let* deny := should_deny check in
  let* return_value :=
    (if deny : bool then ret (result_t_with error_val EPERM) else fwd name args) in
  let report := SetErrno (if get return_value =? error_val
                          then get_errno return_value
                          else 0) report in
  SendReport report >>
  restore return_value.

(** [fwd_and_report_NAME(report, error_val, args...)] *)
Definition fwd_and_report (name : string) (report : AccessReportGroup)
    (error_val : Z) (args : list Arg) : M result_t :=
  let* return_value := fwd name args in
  let report := SetErrno (if get return_value =? error_val
                          then get_errno return_value
                          else 0) report in
  SendReport report >>
  ret return_value.

(** The [create_access] family: builds the report group of an access and
    checks the access against the policy, without sending anything. *)
Definition create_access (syscallName : string) (req : AccessRequest)
    (checkCache : bool) : M (AccessCheckResult * AccessReportGroup) :=
  fun w =>
    let '(check, report, c) :=
      policy syscallName req checkCache (kernel w) (fdTable w) (cache w) in
    Ret (check, report) (log (ACheck syscallName req checkCache check report) (set_cache c w)).

(** Modelled from the spec: the bodies of the [report_access] overloads are
    not in the sources; the header describes them as the [create_access]
    functions of the same shape that also send the access, with the given
    error in the report. *)
Definition report_access (syscallName : string) (req : AccessRequest)
    (error : Z) (checkCache : bool) : M unit :=
  let* '(_, report) := create_access syscallName req checkCache in
  SendReport (SetErrno error report).

(** Modelled from the spec: [report_exec] (body not in the sources) reports
    the exec of [file] by the process named [procName]. *)
Definition report_exec (syscallName : string) (procName file : option string)
    (error mode : Z) : M unit :=
  report_access syscallName (ReqPath ES_EVENT_TYPE_NOTIFY_EXEC file mode 0) error true.

(** [get_mode(const char *path)]: [lstat] through the real handle, with
    errno saved before and put back after. *)
Definition get_mode (path : string) : M Z :=
  fun w =>
    let old := errno w in
    let result := match lstat_mode (kernel w) path with
                  | Some st_mode => st_mode
                  | None => 0
                  end in
    Ret result (set_errno old w).

(** [normalize_path(pathname, oflags)] *)
Definition normalize_path (pathname : option string) (oflags : Z) : M string :=
  fun w =>
    match pathname with
    | None => Ret "" w
    | Some _ => Ret (normalize_path_at (kernel w) (fdTable w) AT_FDCWD pathname oflags) w
    end.

Definition normalize_path_at_ (dirfd : Z) (pathname : option string) (oflags : Z) : M string :=
  fun w => Ret (normalize_path_at (kernel w) (fdTable w) dirfd pathname oflags) w.

(** Modelled from the spec: [reset_fd_table] clears the whole
    descriptor-to-path table. *)
Definition reset_fd_table : M unit :=
  fun w => Ret tt (log AResetFdTable (set_fdTable ∅ w)).

(** [static const int MAX_FD = 1024] *)
Definition MAX_FD : Z := 1024.

(** Modelled from the spec: [reset_fd_table_entry] clears one entry;
    descriptors outside the table are ignored. *)
Definition reset_fd_table_entry (fd : Z) : M unit :=
  fun w =>
    if (0 <=? fd) && (fd <? MAX_FD)
    then Ret tt (log (AResetFdEntry fd) (set_fdTable (delete fd (fdTable w)) w))
    else Ret tt (log (AResetFdEntry fd) w).

End Model.

(** ** [detours.cpp] *)

Section Detours.
Context {P : Platform}.

(** Propagates errno when the result is -1. *)
Definition get_errno_from_result (result : result_t) : Z :=
  if get result =? -1 then get_errno result else 0.

(** *** Directory and metadata probes *)

Definition statx (dirfd : Z) (pathname : option string) (flags mask statxbuf : Z) : M Z :=
  let* '(check, report) :=
    create_access "statx" (ReqAt ES_EVENT_TYPE_NOTIFY_STAT dirfd pathname 0) true in
  check_fwd_and_report "statx" report check ERROR_RETURN_VALUE
    [AInt dirfd; AStr pathname; AInt flags; AInt mask; APtr statxbuf].

Definition scandir (dirp : option string) (namelist filter compar : Z) : M Z :=
  let* '(check, report) :=
    create_access "scandir" (ReqPath ES_EVENT_TYPE_NOTIFY_READDIR dirp 0 0) true in
  check_fwd_and_report "scandir" report check ERROR_RETURN_VALUE
    [AStr dirp; APtr namelist; APtr filter; APtr compar].

Definition readdir (dirp : Z) : M Z :=
  let* '(check, report) :=
    (fun w => create_access "readdir"
                (ReqFd ES_EVENT_TYPE_NOTIFY_READDIR (dirfd (kernel w) dirp)) true w) in
  check_fwd_and_report "readdir" report check 0 (* NULL *) [APtr dirp].

Definition readdir_r (dirp entry result : Z) : M Z :=
  let* '(check, report) :=
    (fun w => create_access "readdir_r"
                (ReqFd ES_EVENT_TYPE_NOTIFY_READDIR (dirfd (kernel w) dirp)) true w) in
  check_fwd_and_report "readdir_r" report check ERROR_RETURN_VALUE
    [APtr dirp; APtr entry; APtr result].

Definition access (pathname : option string) (mode : Z) : M Z :=
  let* '(check, report) :=
    create_access "access" (ReqPath ES_EVENT_TYPE_NOTIFY_ACCESS pathname 0 0) true in
  check_fwd_and_report "access" report check ERROR_RETURN_VALUE [AStr pathname; AInt mode].

Definition readlinkat (fd : Z) (path : option string) (buf bufsize : Z) : M Z :=
  let* '(check, report) :=
    create_access "readlinkat" (ReqAt ES_EVENT_TYPE_NOTIFY_READLINK fd path O_NOFOLLOW) true in
  check_fwd_and_report "readlinkat" report check ERROR_RETURN_VALUE
    [AInt fd; AStr path; APtr buf; AInt bufsize].

(** The [stat] family forwards first and reports afterwards. Builds against
    glibc before 2.33 interpose the [__xstat] names, later ones the plain
    names. *)
Definition report_access_path (syscallName : string) (eventType : es_event_type_t)
    (pathname : option string) (mode oflags error : Z) : M unit :=
  report_access syscallName (ReqPath eventType pathname mode oflags) error true.

Definition report_access_fd (syscallName : string) (eventType : es_event_type_t)
    (fd error : Z) : M unit :=
  report_access syscallName (ReqFd eventType fd) error true.

Definition report_access_at (syscallName : string) (eventType : es_event_type_t)
    (dirfd : Z) (pathname : option string) (oflags error : Z) : M unit :=
  report_access syscallName (ReqAt eventType dirfd pathname oflags) error true.

Definition __fxstat (__ver fd __stat_buf : Z) : M Z :=
  let* result := fwd "__fxstat" [AInt __ver; AInt fd; APtr __stat_buf] in
  report_access_fd "__fxstat" ES_EVENT_TYPE_NOTIFY_STAT fd (get_errno_from_result result) >>
  restore result.

Definition __fxstatat (__ver fd : Z) (pathname : option string) (__stat_buf flag : Z) : M Z :=
  let* result := fwd "__fxstatat" [AInt __ver; AInt fd; AStr pathname; APtr __stat_buf; AInt flag] in
  report_access_at "__fxstatat" ES_EVENT_TYPE_NOTIFY_STAT fd pathname 0
                   (get_errno_from_result result) >>
  restore result.

(** [report_access(__func__, STAT, pathname, /* mode */0, get_errno_from_result(result))]:
    five arguments, so the last one binds to the fifth parameter of
    [report_access(syscallName, eventType, pathname, mode, oflags, error, ...)],
    which is [oflags]; [error] keeps its default [0]. *)
Definition __xstat (__ver : Z) (pathname : option string) (buf : Z) : M Z :=
  let* result := fwd "__xstat" [AInt __ver; AStr pathname; APtr buf] in
  report_access_path "__xstat" ES_EVENT_TYPE_NOTIFY_STAT pathname 0
                     (get_errno_from_result result) 0 >>
  restore result.

Definition __xstat64 (__ver : Z) (pathname : option string) (buf : Z) : M Z :=
  let* result := fwd "__xstat64" [AInt __ver; AStr pathname; APtr buf] in
  report_access_path "__xstat64" ES_EVENT_TYPE_NOTIFY_STAT pathname 0
                     (get_errno_from_result result) 0 >>
  restore result.

Definition __lxstat (__ver : Z) (pathname : option string) (buf : Z) : M Z :=
  let* result := fwd "__lxstat" [AInt __ver; AStr pathname; APtr buf] in
  report_access_path "__lxstat" ES_EVENT_TYPE_NOTIFY_STAT pathname 0 O_NOFOLLOW
                     (get_errno_from_result result) >>
  restore result.

Definition stat (pathname : option string) (statbuf : Z) : M Z :=
  let* result := fwd "stat" [AStr pathname; APtr statbuf] in
  report_access_path "stat" ES_EVENT_TYPE_NOTIFY_STAT pathname 0 O_NOFOLLOW
                     (get_errno_from_result result) >>
  restore result.

Definition lstat (pathname : option string) (statbuf : Z) : M Z :=
  let* result := fwd "lstat" [AStr pathname; APtr statbuf] in
  report_access_path "lstat" ES_EVENT_TYPE_NOTIFY_STAT pathname 0 O_NOFOLLOW
                     (get_errno_from_result result) >>
  restore result.

Definition fstat (fd statbuf : Z) : M Z :=
  let* result := fwd "fstat" [AInt fd; APtr statbuf] in
  report_access_fd "fstat" ES_EVENT_TYPE_NOTIFY_STAT fd (get_errno_from_result result) >>
  restore result.

(** *** Streams *)

Fixpoint has_write_mode (mode : string) : bool :=
  match mode with
  | EmptyString => false
  | String c rest =>
      if (Ascii.eqb c "a"%char || Ascii.eqb c "w"%char || Ascii.eqb c "+"%char)%bool
      then true
      else has_write_mode rest
  end.

(** [while (pMode && *pMode) ...] *)
Definition get_event_from_open_mode (mode : option string) : es_event_type_t :=
  match mode with
  | Some m => if has_write_mode m
              then ES_EVENT_TYPE_NOTIFY_WRITE
              else ES_EVENT_TYPE_NOTIFY_OPEN
  | None => ES_EVENT_TYPE_NOTIFY_OPEN
  end.

Definition fdopen (fd : Z) (mode : option string) : M Z :=
  let* '(check, report) :=
    create_access "fdopen" (ReqFd (get_event_from_open_mode mode) fd) true in
  check_fwd_and_report "fdopen" report check 0 (* NULL *) [AInt fd; AStr mode].

Definition fopen (pathname mode : option string) : M Z :=
  let* '(check, report) :=
    create_access "fopen" (ReqPath (get_event_from_open_mode mode) pathname 0 0) true in
  let* f := check_fwd_and_report "fopen" report check 0 (* NULL *) [AStr pathname; AStr mode] in
  (if truthy f
   then (fun w => reset_fd_table_entry (fileno (kernel w) f) w)
   else ret tt) >>
  ret f.

Definition fread (ptr size nmemb stream : Z) : M Z :=
  let* '(check, report) :=
    (fun w => create_access "fread"
                (ReqFd ES_EVENT_TYPE_NOTIFY_OPEN (fileno (kernel w) stream)) true w) in
  check_fwd_and_report "fread" report check 0 [APtr ptr; AInt size; AInt nmemb; APtr stream].

Definition fwrite (ptr size nmemb stream : Z) : M Z :=
  let* '(check, report) :=
    (fun w => create_access "fwrite"
                (ReqFd ES_EVENT_TYPE_NOTIFY_WRITE (fileno (kernel w) stream)) true w) in
  check_fwd_and_report "fwrite" report check 0 [APtr ptr; AInt size; AInt nmemb; APtr stream].

Definition write (fd buf bufsiz : Z) : M Z :=
  let* '(check, report) := create_access "write" (ReqFd ES_EVENT_TYPE_NOTIFY_WRITE fd) true in
  check_fwd_and_report "write" report check ERROR_RETURN_VALUE [AInt fd; APtr buf; AInt bufsiz].

(** [vprintf], [vfprintf]: the check is built and dropped. *)
Definition vprintf (fmt : option string) (args : Z) : M Z :=
  let* _ := create_access "vprintf" (ReqFd ES_EVENT_TYPE_NOTIFY_WRITE 1) true in
  let* result := fwd "vprintf" [AStr fmt; APtr args] in
  restore result.

Definition vfprintf (f : Z) (fmt : option string) (args : Z) : M Z :=
  let* _ := (fun w => create_access "vfprintf"
                        (ReqFd ES_EVENT_TYPE_NOTIFY_WRITE (fileno (kernel w) f)) true w) in
  let* result := fwd "vfprintf" [APtr f; AStr fmt; APtr args] in
  restore result.

Definition vdprintf (fd : Z) (fmt : option string) (args : Z) : M Z :=
  let* '(_, report) := create_access "vdprintf" (ReqFd ES_EVENT_TYPE_NOTIFY_WRITE fd) true in
  let* result := fwd_and_report "vdprintf" report (-1) [AInt fd; AStr fmt; APtr args] in
  restore result.

(** [result_t<int> result = vprintf(fmt, args); return result.restore();] *)
Definition printf (fmt : option string) (args : Z) : M Z :=
  let* r := vprintf fmt args in
  let* result := result_t_of r in
  restore result.

Definition fprintf (f : Z) (fmt : option string) (args : Z) : M Z :=
  let* r := vfprintf f fmt args in
  let* result := result_t_of r in
  restore result.

Definition dprintf (fd : Z) (fmt : option string) (args : Z) : M Z :=
  let* r := vdprintf fd fmt args in
  let* result := result_t_of r in
  restore result.

(** *** Opening files *)

(** [ret_fd]: a descriptor that is returned leaves the descriptor table. *)
Definition ret_fd (fd : Z) : M Z :=
  reset_fd_table_entry fd >>
  ret fd.

(** The event that [CreateFileOpen] builds from the mode of the path before
    the call and the open flags. *)
Definition CreateFileOpen_event (pathMode : Z) (pathStr : string) (oflag : Z) : IOEvent :=
  let pathExists := negb (pathMode =? 0) in
  let isCreate := negb pathExists && truthy (Z.land oflag (Z.lor O_CREAT O_TRUNC)) in
  let hasWriteAccess :=
    (Z.land oflag O_ACCMODE =? O_WRONLY) || (Z.land oflag O_ACCMODE =? O_RDWR) in
  let isWrite :=
    pathExists && (truthy (Z.land oflag (Z.lor O_CREAT O_TRUNC)) && hasWriteAccess) in
  IOEvent7
    (if isCreate then ES_EVENT_TYPE_NOTIFY_CREATE
     else if isWrite then ES_EVENT_TYPE_NOTIFY_WRITE
     else ES_EVENT_TYPE_NOTIFY_OPEN)
    ES_ACTION_TYPE_NOTIFY pathStr GetProgramPath pathMode false "".

Definition CreateFileOpen (pathStr : string) (oflag : Z)
  : M (AccessCheckResult * AccessReportGroup) :=
  let* pathMode := get_mode pathStr in
  create_access "CreateFileOpen" (ReqEvent (CreateFileOpen_event pathMode pathStr oflag)) true.

Definition open (path : option string) (oflag mode : Z) : M Z :=
  let* pathStr := normalize_path path 0 in
  let* '(check, report) := CreateFileOpen pathStr oflag in
  let* fd := check_fwd_and_report "open" report check ERROR_RETURN_VALUE
               [AStr path; AInt oflag; AInt mode] in
  ret_fd fd.

Definition open64 (path : option string) (oflag mode : Z) : M Z :=
  let* pathStr := normalize_path path 0 in
  let* '(check, report) := CreateFileOpen pathStr oflag in
  let* fd := check_fwd_and_report "open64" report check ERROR_RETURN_VALUE
               [AStr path; AInt oflag; AInt mode] in
  ret_fd fd.


(** [openat64] forwards through [check_fwd_and_report_openat]. *)
Definition openat64 (dirfd : Z) (pathname : option string) (flags mode : Z) : M Z :=
  let* pathStr := normalize_path_at_ dirfd pathname 0 in
  let* '(check, report) := CreateFileOpen pathStr flags in
  let* fd := check_fwd_and_report "openat" report check ERROR_RETURN_VALUE
               [AInt dirfd; AStr pathname; AInt flags; AInt mode] in
  ret_fd fd.



Definition opendir (name : option string) : M Z :=
  let* '(check, report) :=
    create_access "opendir" (ReqPath ES_EVENT_TYPE_NOTIFY_STAT name 0 0) true in
  let* d := check_fwd_and_report "opendir" report check 0 (* NULL *) [AStr name] in
  (if truthy d
   then (fun w => reset_fd_table_entry (dirfd (kernel w) d) w)
   else ret tt) >>
  ret d.

(** *** Removing, renaming, linking *)

Definition remove (pathname : option string) : M Z :=
  let* '(check, report) :=
    create_access "remove" (ReqPath ES_EVENT_TYPE_NOTIFY_UNLINK pathname 0 O_NOFOLLOW) true in
  check_fwd_and_report "remove" report check ERROR_RETURN_VALUE [AStr pathname].

Definition truncate (path : option string) (length : Z) : M Z :=
  let* '(check, report) :=
    create_access "truncate" (ReqPath ES_EVENT_TYPE_NOTIFY_WRITE path 0 0) true in
  check_fwd_and_report "truncate" report check ERROR_RETURN_VALUE [AStr path; AInt length].

Definition truncate64 (path : option string) (length : Z) : M Z :=
  truncate path length.

(** [rmdir] does not use the dedup cache. *)
Definition rmdir (pathname : option string) : M Z :=
  let* '(check, report) :=
    create_access "rmdir" (ReqPath ES_EVENT_TYPE_NOTIFY_UNLINK pathname 0 0) false in
  check_fwd_and_report "rmdir" report check ERROR_RETURN_VALUE [AStr pathname].

Definition is_empty_path (path : option string) : bool :=
  match path with
  | Some EmptyString => true      (* path && *path == '\0' *)
  | _ => false
  end.

Definition unlink (path : option string) : M Z :=
  if is_empty_path path
  then
    let* r := fwd "unlink" [AStr path] in
    restore r
  else
    let* '(check, report) :=
      create_access "unlink" (ReqPath ES_EVENT_TYPE_NOTIFY_UNLINK path 0 O_NOFOLLOW) true in
    check_fwd_and_report "unlink" report check ERROR_RETURN_VALUE [AStr path].

Definition unlinkat (dirfd : Z) (path : option string) (flags : Z) : M Z :=
  if (dirfd =? AT_FDCWD) && is_empty_path path
  then
    let* r := fwd "unlinkat" [AInt dirfd; AStr path; AInt flags] in
    restore r
  else
    let oflags := if truthy (Z.land flags AT_REMOVEDIR) then 0 else O_NOFOLLOW in
    let* '(check, report) :=
      create_access "unlinkat" (ReqAt ES_EVENT_TYPE_NOTIFY_UNLINK dirfd path oflags) true in
    check_fwd_and_report "unlinkat" report check ERROR_RETURN_VALUE
      [AInt dirfd; AStr path; AInt flags].

Definition link (path1 path2 : option string) : M Z :=
  let* p1 := normalize_path path1 O_NOFOLLOW in
  let* p2 := normalize_path path2 O_NOFOLLOW in
  let* '(check, report) :=
    create_access "link" (ReqTwoPaths ES_EVENT_TYPE_NOTIFY_LINK p1 p2) true in
  check_fwd_and_report "link" report check ERROR_RETURN_VALUE [AStr path1; AStr path2].

Definition symlink (target linkPath : option string) : M Z :=
  let* p := normalize_path linkPath O_NOFOLLOW in
  let event := IOEvent5 ES_EVENT_TYPE_NOTIFY_CREATE ES_ACTION_TYPE_NOTIFY p GetProgramPath S_IFLNK in
  let* '(check, report) := create_access "symlink" (ReqEvent event) true in
  check_fwd_and_report "symlink" report check ERROR_RETURN_VALUE [AStr target; AStr linkPath].

(** [report_create] passes its own [__func__] to [create_access]. *)
Definition report_create (dirfd : Z) (pathname : option string) (mode : Z)
    (checkCache : bool) : M (AccessCheckResult * AccessReportGroup) :=
  let* p := normalize_path_at_ dirfd pathname 0 in
  let event := IOEvent5 ES_EVENT_TYPE_NOTIFY_CREATE ES_ACTION_TYPE_NOTIFY p GetProgramPath mode in
  create_access "report_create" (ReqEvent event) checkCache.

Definition mkdir (pathname : option string) (mode : Z) : M Z :=
  let* '(check, report) := report_create AT_FDCWD pathname S_IFDIR false in
  check_fwd_and_report "mkdir" report check ERROR_RETURN_VALUE [AStr pathname; AInt mode].

Definition chmod (pathname : option string) (mode : Z) : M Z :=
  let* '(check, report) :=
    create_access "chmod" (ReqPath ES_EVENT_TYPE_NOTIFY_SETMODE pathname 0 0) true in
  check_fwd_and_report "chmod" report check ERROR_RETURN_VALUE [AStr pathname; AInt mode].

(** *** [renameat] *)

(** [fileOrDirectory.replace(0, oldStr.length(), newStr)] *)
Definition replace_prefix (fileOrDirectory oldStr newStr : string) : string :=
  String.append newStr
    (String.substring (String.length oldStr)
       (String.length fileOrDirectory - String.length oldStr) fileOrDirectory).

(** The body of the range-for over [filesAndDirectories]; [break] leaves the
    loop with the check and the reports built so far. *)
Fixpoint renameat_loop (oldStr newStr : string) (filesAndDirectories : list string)
    (check : AccessCheckResult) (accessesToReport : list AccessReportGroup)
  : M (AccessCheckResult * list AccessReportGroup) :=
  match filesAndDirectories with
  | [] => ret (check, accessesToReport)
  | fileOrDirectory :: rest =>
      let* '(check, sourceReport) :=
        create_access "renameat"
          (ReqPath ES_EVENT_TYPE_NOTIFY_UNLINK (Some fileOrDirectory) 0 O_NOFOLLOW) true in
      let accessesToReport := accessesToReport ++ [sourceReport] in
      let fileOrDirectory := replace_prefix fileOrDirectory oldStr newStr in
      let* '(check2, targetReport) :=
        CreateFileOpen fileOrDirectory (Z.lor O_CREAT O_WRONLY) in
      let check := Combine check check2 in
      let accessesToReport := accessesToReport ++ [targetReport] in
      let* deny := should_deny check in
      if deny : bool
      then ret (check, accessesToReport)
      else renameat_loop oldStr newStr rest check accessesToReport
  end.

(** [for (auto access : accessesToReport) { access.SetErrno(e); SendReport(access); }] *)
Fixpoint send_all (e : Z) (accessesToReport : list AccessReportGroup) : M unit :=
  match accessesToReport with
  | [] => ret tt
  | access :: rest => SendReport (SetErrno e access) >> send_all e rest
  end.

Definition renameat (olddirfd : Z) (oldpath : option string)
    (newdirfd : Z) (newpath : option string) : M Z :=
  let* oldStr := normalize_path_at_ olddirfd oldpath O_NOFOLLOW in
  let* newStr := normalize_path_at_ newdirfd newpath O_NOFOLLOW in
  let* mode := get_mode oldStr in
  let* '(check, accessesToReport) :=
    (if S_ISDIR mode
     then
       fun w =>
         match EnumerateDirectory (kernel w) oldStr true with
         | Some filesAndDirectories =>
             renameat_loop oldStr newStr filesAndDirectories Invalid [] w
         | None =>
             (let event := IOEvent7 ES_EVENT_TYPE_NOTIFY_RENAME ES_ACTION_TYPE_NOTIFY
                             oldStr GetProgramPath mode false newStr in
              let* '(check, report) := create_access "renameat" (ReqEvent event) true in
              ret (check, [report])) w
         end
     else
       let* '(check, sourceReport) :=
         create_access "renameat"
           (ReqPath ES_EVENT_TYPE_NOTIFY_UNLINK (Some oldStr) 0 O_NOFOLLOW) true in
       let* '(check2, destReport) := CreateFileOpen newStr (Z.lor O_CREAT O_WRONLY) in
       ret (Combine check check2, [sourceReport; destReport])) in
  let* deny := should_deny check in
  if deny : bool
  then
    match List.last (map Some accessesToReport) None with
    | Some witness => SendReport witness >> restore (result_t_with ERROR_RETURN_VALUE EPERM)
    | None => fun w => Stop (Undefined "accessesToReport.back()") w
    end
  else
    let* result := fwd "renameat" [AInt olddirfd; AStr oldpath; AInt newdirfd; AStr newpath] in
    send_all (get_errno_from_result result) accessesToReport >>
    restore result.

Definition rename (oldpath newpath : option string) : M Z :=
  renameat AT_FDCWD oldpath AT_FDCWD newpath.

(** *** Descriptors *)

Definition close (fd : Z) : M Z :=
  reset_fd_table_entry fd >>
  let* r := fwd "close" [AInt fd] in
  restore r.

Definition dup (fd : Z) : M Z :=
  let* r := real "dup" [AInt fd] in
  ret_fd r.

Definition dup2 (oldfd newfd : Z) : M Z :=
  reset_fd_table_entry newfd >>
  real "dup2" [AInt oldfd; AInt newfd].

(** *** Process creation *)

(** Modelled from the spec: [report_access(syscallName, IOEvent&)] (body not
    in the sources) builds the report of the event and sends it; this
    overload has no error parameter. *)
Definition report_access_event (syscallName : string) (event : IOEvent) : M unit :=
  let* '(_, report) := create_access syscallName (ReqEvent event) true in
  SendReport report.

(** [IOEvent event(parentPid, childPid, 0, ES_EVENT_TYPE_NOTIFY_FORK,
    ES_ACTION_TYPE_NOTIFY, exePath, std::string(""), exePath, 0, false)] *)
Definition child_process_event (childPid parentPid : Z) : IOEvent :=
  let exePath := GetProgramPath in
  mkIOEvent (Some parentPid) (Some childPid) (Some 0)
    ES_EVENT_TYPE_NOTIFY_FORK ES_ACTION_TYPE_NOTIFY
    exePath "" exePath 0 false.

Definition report_child_process (syscall : string) (childPid parentPid : Z) : M unit :=
  report_access_event syscall (child_process_event childPid parentPid).

Definition fork : M Z :=
  let* childPid := fwd "fork" [] in
  (if get childPid =? 0
   then
     reset_fd_table >>
     (fun w => report_child_process "fork" (getpid (kernel w)) (getppid (kernel w)) w)
   else ret tt) >>
  restore childPid.

Definition clone (fn child_stack flags arg ptid newtls ctid : Z) : M Z :=
  let* result := fwd "clone" [APtr fn; APtr child_stack; AInt flags; APtr arg;
                              APtr ptid; APtr newtls; APtr ctid] in
  (if get result =? 0
   then
     reset_fd_table >>
     (fun w => report_child_process "clone" (getpid (kernel w)) (getppid (kernel w)) w)
   else ret tt) >>
  restore result.

(** *** The exec family *)

(** Modelled from the spec: [check_and_report_statically_linked_process]
    (body not in the sources) tells whether the target has to run under the
    ptrace sandbox and reports it when it does. *)
Definition check_and_report_statically_linked_process (path : string) : M bool :=
  fun w =>
    if is_statically_linked (kernel w) (cache w) path
    then Ret true (log (AStaticallyLinked path) w)
    else Ret false w.

Definition check_and_report_statically_linked_process_fd (fd : Z) : M bool :=
  fun w => check_and_report_statically_linked_process (fd_to_path (kernel w) (fdTable w) fd) w.

Definition path_of (file : option string) : string :=
  match file with Some f => f | None => "" end.

(** [RemoveLDPreloadFromEnv(envp)] *)
Definition RemoveLDPreloadFromEnv (envp : list string) : list string :=
  remove_path_from_LDPRELOAD envp GetDetoursLibPath.

Definition handle_exec_with_ptrace (file : string) (argv envp : list string) : M Z :=
  reset_fd_table >>
  let envp := RemoveLDPreloadFromEnv envp in
  let* result :=
    (fun w =>
       let '(r, e) := ExecuteWithPTraceSandbox (kernel w) file argv envp
                        getPTraceMqName getFamPath in
       Ret r (set_errno e (log (APTrace file argv envp getPTraceMqName getFamPath (r, e)) w))) in
  (fun w => report_exec "execve" (head argv) (Some file) (errno w) 0 w) >>
  ret result.

(** The descriptor overload calls the path overload and then flows off its
    end without a [return]. *)
Definition handle_exec_with_ptrace_fd (fd : Z) (argv envp : list string) : M Z :=
  let* resolvedPath := (fun w => Ret (fd_to_path (kernel w) (fdTable w) fd) w) in
  let* _ := handle_exec_with_ptrace resolvedPath argv envp in
  fun w => Stop (Undefined "handle_exec_with_ptrace(int, ...): no return value") w.

Definition fexecve (fd : Z) (argv envp : list string) : M Z :=
  let* static := check_and_report_statically_linked_process_fd fd in
  if static : bool
  then handle_exec_with_ptrace_fd fd argv (ensureEnvs envp)
  else
    let* result := fwd "fexecve" [AInt fd; AVec argv; AVec (ensureEnvs envp)] in
    report_access_fd "fexecve" ES_EVENT_TYPE_NOTIFY_EXEC fd (get_errno result) >>
    restore result.

(** The body shared by the wrappers that end in [fwd_execve]. *)
Definition exec_path (syscallName : string) (file : option string)
    (argv envp : list string) (mode : Z) : M Z :=
  let* static := check_and_report_statically_linked_process (path_of file) in
  if static : bool
  then handle_exec_with_ptrace (path_of file) argv (ensureEnvs envp)
  else
    let* result := fwd "execve" [AStr file; AVec argv; AVec (ensureEnvs envp)] in
    report_exec syscallName (head argv) file (get_errno result) mode >>
    restore result.

Definition execv (file : option string) (argv : list string) : M Z :=
  fun w => exec_path "execv" file argv (environ w) 0 w.

Definition execve (file : option string) (argv envp : list string) : M Z :=
  exec_path "execve" file argv envp 0.

Definition execvp (file : option string) (argv : list string) : M Z :=
  fun w =>
    match resolve_filename_with_env (kernel w) (environ w) file with
    | Some (mode, pathname) =>
        exec_path "execvp" (Some pathname) argv (environ w) mode w
    | None =>
        (let* result := fwd "execvpe" [AStr file; AVec argv; AVec (ensureEnvs (environ w))] in
         report_exec "execvp" (head argv) file (get_errno result) 0 >>
         restore result) w
    end.

Definition execvpe (file : option string) (argv envp : list string) : M Z :=
  fun w =>
    match resolve_filename_with_env (kernel w) (environ w) file with
    | Some (mode, pathname) =>
        exec_path "execvpe" (Some pathname) argv envp mode w
    | None =>
        (let* result := fwd "execve" [AStr file; AVec argv; AVec (ensureEnvs envp)] in
         report_exec "execvpe" (head argv) file (get_errno result) 0 >>
         restore result) w
    end.

(** The variadic wrappers: [args] are the arguments after [arg], up to the
    terminating null pointer; [parse_variadic_args] copies [arg] and them
    into [argv]. *)
Definition execl (pathname : option string) (arg : string) (args : list string) : M Z :=
  if get_variadic_argc args =? -1
  then ret (-1)
  else
    let argv := arg :: args in
    fun w => exec_path "execl" pathname argv (environ w) 0 w.

Definition execlp (file : option string) (arg : string) (args : list string) : M Z :=
  if get_variadic_argc args =? -1
  then ret (-1)
  else
    let argv := arg :: args in
    fun w =>
      match resolve_filename_with_env (kernel w) (environ w) file with
      | Some (mode, pathname) =>
          exec_path "execlp" (Some pathname) argv (environ w) mode w
      | None =>
          (let* result := fwd "execvp" [AStr file; AVec argv] in
           report_exec "execlp" (head argv) file (get_errno result) 0 >>
           restore result) w
      end.

Definition execle (pathname : option string) (arg : string) (args : list string)
    (envp : list string) : M Z :=
  if get_variadic_argc args =? -1
  then ret (-1)
  else
    let argv := arg :: args in
    exec_path "execle" pathname argv envp 0.

End Detours.

(** ** Reading a trace *)

Definition sent (tr : list Action) : list AccessReportGroup :=
  omap (fun a => match a with ASend g => Some g | _ => None end) tr.

Definition real_calls (tr : list Action) : list (string * list Arg) :=
  omap (fun a => match a with AReal n args _ => Some (n, args) | _ => None end) tr.

Definition checked (tr : list Action) : list AccessRequest :=
  omap (fun a => match a with ACheck _ req _ _ _ => Some req | _ => None end) tr.

(** The environment that the new program image gets from a forwarded exec:
    the [envp] argument where the libc function has one, the global
    [environ] where it has none. *)
Definition exec_environment (process_environ : list string) (a : Action)
  : option (list string) :=
  match a with
  | AReal name args _ =>
      if bool_decide (name = "execve" ∨ name = "execvpe" ∨ name = "fexecve")
      then match args with
           | [_; _; AVec envp] => Some envp
           | _ => None
           end
      else if bool_decide (name = "execv" ∨ name = "execvp" ∨ name = "execl" ∨ name = "execlp")
      then Some process_environ
      else None
  | _ => None
  end.

(** [LD_PRELOAD] of an environment names the library. *)
Definition occurs_in (needle hay : string) : bool :=
  match String.index 0 needle hay with Some _ => true | None => false end.

Definition LD_PRELOAD_ENV_VAR_PREFIX : string := "LD_PRELOAD=".

Definition ld_preload_contains (lib : string) (envp : list string) : bool :=
  existsb (fun entry => String.prefix LD_PRELOAD_ENV_VAR_PREFIX entry && occurs_in lib entry) envp.

(** ** The open policy as the specification words it *)

(** The open policy of the specification: [CREATE] if the path does not exist
    and [O_CREAT] or [O_TRUNC] is set; [WRITE] if the path exists and one of
    them is set with a write access mode; [OPEN] otherwise. [O_CREAT] is bit
    6 and [O_TRUNC] is bit 9 of the flags. *)
Definition open_event_kind_spec (pathExists : bool) (oflag : Z) : es_event_type_t :=
  let creat_or_trunc := Z.testbit oflag 6 || Z.testbit oflag 9 in
  let write_mode :=
    bool_decide (Z.land oflag O_ACCMODE = O_WRONLY ∨ Z.land oflag O_ACCMODE = O_RDWR) in
  if negb pathExists && creat_or_trunc then ES_EVENT_TYPE_NOTIFY_CREATE
  else if pathExists && creat_or_trunc && write_mode then ES_EVENT_TYPE_NOTIFY_WRITE
  else ES_EVENT_TYPE_NOTIFY_OPEN.

Section Statements.
Context {P : Platform}.

(** [st_mode] of a path as [get_mode] sees it: [0] when [lstat] fails, which
    is how the wrappers decide that the path does not exist. *)
Definition mode_of_path (w : World) (pathStr : string) : Z :=
  match lstat_mode (kernel w) pathStr with
  | Some st_mode => st_mode
  | None => 0
  end.

(** What [normalize_path(pathname, oflags)] returns in [w]. *)
Definition normalized_path (w : World) (pathname : option string) (oflags : Z) : string :=
  match pathname with
  | None => ""
  | Some _ => normalize_path_at (kernel w) (fdTable w) AT_FDCWD pathname oflags
  end.


(** What the policy answered for one entry of a renamed directory: the
    check and report of the source, the check and report of the
    destination. *)
Record entry_result := mk_entry_result {
  source_check : AccessCheckResult;
  sourceReport : AccessReportGroup;
  target_check : AccessCheckResult;
  targetReport : AccessReportGroup
}.

Definition entry_reports (r : entry_result) : list AccessReportGroup :=
  [sourceReport r; targetReport r].

(** The combined check of the entry is denied ([should_deny]). *)
Definition entry_denied (w : World) (r : entry_result) : bool :=
  IsEnabled w && ShouldDenyAccess (Combine (source_check r) (target_check r)) &&
  IsFailingUnexpectedAccesses.

(** The two access checks made for an entry: the unlink of the source entry,
    then the creation of the corresponding destination entry (the event
    [CreateFileOpen] builds for [O_CREAT | O_WRONLY]). *)
Definition renamed_entry_checks (w : World) (oldStr newStr : string)
    (fileOrDirectory : string) (r : entry_result) : list Action :=
  let destination := replace_prefix fileOrDirectory oldStr newStr in
  [ACheck "renameat"
          (ReqPath ES_EVENT_TYPE_NOTIFY_UNLINK (Some fileOrDirectory) 0 O_NOFOLLOW) true
          (source_check r) (sourceReport r);
   ACheck "CreateFileOpen"
          (ReqEvent (CreateFileOpen_event (mode_of_path w destination) destination
                                          (Z.lor O_CREAT O_WRONLY)))
          true (target_check r) (targetReport r)].

Definition renamed_checks (w : World) (oldStr newStr : string)
    (entries : list string) (rs : list entry_result) : list Action :=
  concat (zip_with (renamed_entry_checks w oldStr newStr) entries rs).

(** What an entry has after its first [n] characters. *)
Fixpoint below (n : nat) (entry : string) : string :=
  match n, entry with
  | O, _ => entry
  | S n, String _ rest => below n rest
  | S _, EmptyString => EmptyString
  end.

(** The destination entry that corresponds to a source entry, in the words
    of the specification: what the entry has below the old path, below the
    new path. *)
Definition destination_entry (oldStr newStr entry : string) : string :=
  String.append newStr (below (String.length oldStr) entry).

(** The kind of the report of a destination entry: a CREATE when nothing is
    at the destination ([lstat] gave no mode), a WRITE when something is. *)
Definition destination_kind (pathMode : Z) : es_event_type_t :=
  if pathMode =? 0 then ES_EVENT_TYPE_NOTIFY_CREATE else ES_EVENT_TYPE_NOTIFY_WRITE.

(** The event of a destination entry: its kind, its path, the mode found
    there, and the program as the executable. *)
Definition destination_event (w : World) (destination : string) : IOEvent :=
  mkIOEvent None None None (destination_kind (mode_of_path w destination))
            ES_ACTION_TYPE_NOTIFY destination "" GetProgramPath
            (mode_of_path w destination) false.

(** The two access checks of an entry as the specification words them: the
    unlink of the source entry, without following a final symlink, then the
    [destination_event] of the corresponding [destination_entry]. *)
Definition entry_checks (w : World) (oldStr newStr : string)
    (entry : string) (r : entry_result) : list Action :=
  [ACheck "renameat"
          (ReqPath ES_EVENT_TYPE_NOTIFY_UNLINK (Some entry) 0 O_NOFOLLOW) true
          (source_check r) (sourceReport r);
   ACheck "CreateFileOpen"
          (ReqEvent (destination_event w (destination_entry oldStr newStr entry)))
          true (target_check r) (targetReport r)].

Definition directory_checks (w : World) (oldStr newStr : string)
    (entries : list string) (rs : list entry_result) : list Action :=
  concat (zip_with (entry_checks w oldStr newStr) entries rs).

(** The reports of a list of groups, each with errno [e]. *)
Definition sends (e : Z) (groups : list AccessReportGroup) : list Action :=
  map (fun g => ASend (SetErrno e g)) groups.


(** Worlds that differ only in the observer's cache and in the trace. *)
Definition same_process (w w' : World) : Prop :=
  errno w' = errno w /\ environ w' = environ w /\ fdTable w' = fdTable w /\
  kernel w' = kernel w.

(** The end of [renameat], from [result_t<int> result(ERROR_RETURN_VALUE, EPERM)]
    on, as a function of the check and the reports gathered before it. *)
Definition renameat_finish (args : list Arg)
    (gathered : AccessCheckResult * list AccessReportGroup) : M Z :=
  let '(check, accessesToReport) := gathered in
  let* deny := should_deny check in
  if deny : bool
  then
    match List.last (map Some accessesToReport) None with
    | Some witness => SendReport witness >> restore (result_t_with ERROR_RETURN_VALUE EPERM)
    | None => fun w => Stop (Undefined "accessesToReport.back()") w
    end
  else
    let* result := fwd "renameat" args in
    send_all (get_errno_from_result result) accessesToReport >>
    restore result.

(** The event of the fallback when the enumeration fails. *)
Definition rename_event (w : World) (oldStr newStr : string) : IOEvent :=
  IOEvent7 ES_EVENT_TYPE_NOTIFY_RENAME ES_ACTION_TYPE_NOTIFY
           oldStr GetProgramPath (mode_of_path w oldStr) false newStr.

(** [call], started in [w], renames a directory whose enumeration gave
    [es]: [rs] are the policy's answers for the entries it visits, in
    order, and [directory_checks] are the checks made for them.
    - Either the last visited entry is the first one whose combined check
      is denied, and then the real call is skipped and the one report sent
      is the destination report of that entry;
    - or every entry is visited and none is denied, and then the real call
      is made once, after the checks, and every buffered report is sent
      with its errno (for an empty enumeration: provided the check that no
      entry replaced, [Invalid], is not denied; nothing is checked and
      nothing is sent);
    - or the enumeration is empty and [Invalid] is denied, and then the
      wrapper reads the last element of an empty vector. *)
Definition renames_enumerated_directory (call : M Z) (w : World)
    (oldStr newStr : string) (args : list Arg) (es : list string) : Prop :=
  exists rs : list entry_result,
    (length rs <= length es)%nat /\
    let checks := directory_checks w oldStr newStr (take (length rs) es) rs in
    ((exists rs0 l,
        rs = rs0 ++ [l] /\
        Forall (fun r => entry_denied w r = false) rs0 /\
        entry_denied w l = true /\
        exists w',
          call w = Ret ERROR_RETURN_VALUE w' /\
          errno w' = EPERM /\
          trace w' = trace w ++ checks ++ [ASend (targetReport l)]) \/
     (length rs = length es /\
      Forall (fun r => entry_denied w r = false) rs /\
      (es = [] ->
       IsEnabled w && ShouldDenyAccess Invalid && IsFailingUnexpectedAccesses = false) /\
      forall r e k,
        resolved "renameat" = true ->
        real_impl "renameat" args (kernel w) (errno w) = Some (r, e, k) ->
        exists w',
          call w = Ret r w' /\
          errno w' = e /\
          trace w' = trace w ++ checks ++
                     [AReal "renameat" args (Some (r, e))] ++
                     sends (if r =? -1 then e else 0) (flat_map entry_reports rs)) \/
     (es = [] /\
      IsEnabled w && ShouldDenyAccess Invalid && IsFailingUnexpectedAccesses = true /\
      exists w',
        call w = Stop (Undefined "accessesToReport.back()") w' /\
        trace w' = trace w)).

(** [call], started in [w], renames a directory that could not be
    enumerated: one RENAME event with the top-level paths is checked; its
    report is the only one, sent without the real call when the check is
    denied, after the real call and with its errno otherwise. *)
Definition renames_unlisted_directory (call : M Z) (w : World)
    (oldStr newStr : string) (args : list Arg) : Prop :=
  forall check report c,
    policy "renameat" (ReqEvent (rename_event w oldStr newStr)) true
           (kernel w) (fdTable w) (cache w) = (check, report, c) ->
    let the_check :=
      ACheck "renameat" (ReqEvent (rename_event w oldStr newStr)) true check report in
    ev_type (rename_event w oldStr newStr) = ES_EVENT_TYPE_NOTIFY_RENAME /\
    ev_src_path (rename_event w oldStr newStr) = oldStr /\
    ev_dst_path (rename_event w oldStr newStr) = newStr /\
    (IsEnabled w && ShouldDenyAccess check && IsFailingUnexpectedAccesses = true ->
     exists w',
       call w = Ret ERROR_RETURN_VALUE w' /\ errno w' = EPERM /\
       trace w' = trace w ++ [the_check; ASend report]) /\
    (IsEnabled w && ShouldDenyAccess check && IsFailingUnexpectedAccesses = false ->
     forall r e k,
       resolved "renameat" = true ->
       real_impl "renameat" args (kernel w) (errno w) = Some (r, e, k) ->
       exists w',
         call w = Ret r w' /\ errno w' = e /\
         trace w' = trace w ++
                    [the_check; AReal "renameat" args (Some (r, e));
                     ASend (SetErrno (if r =? -1 then e else 0) report)]).

End Statements.

(** ** Concrete platforms

    Small, fully computable platforms on which the wrappers can be run. The
    kernel state is the pid of the running process, the observer's cache
    counts the access checks made so far. *)
Module Scenario.

Record t := mk {
  observer : BxlObserver;
  handles : string -> bool;
  (** result and errno of a real call, from the errno before it *)
  kernel_call : string -> list Arg -> Z -> option (Z * Z);
  decision : AccessRequest -> ResultAction;
  modes : string -> option Z;
  listing : string -> option (list string);
  static_binaries : string -> bool;
  path_search : option string -> option (Z * string)
}.

Definition lib : string := "/opt/bxl/libDetours.so".

Definition default_observer : BxlObserver :=
  mkObserver true false 100 true "/usr/bin/tool" lib "/tmp/fam" "/bxl_mq".

Definition request_path (req : AccessRequest) : string :=
  match req with
  | ReqEvent ev => ev_src_path ev
  | ReqPath _ p _ _ => path_of p
  | ReqTwoPaths _ p _ => p
  | ReqFd _ fd => "/proc/self/fd"
  | ReqAt _ _ p _ => path_of p
  end.

Definition request_kind (req : AccessRequest) : es_event_type_t :=
  match req with
  | ReqEvent ev => ev_type ev
  | ReqPath ty _ _ _ | ReqTwoPaths ty _ _ | ReqFd ty _ | ReqAt ty _ _ _ => ty
  end.

Definition operation_code (ty : es_event_type_t) : Z :=
  match ty with
  | ES_EVENT_TYPE_NOTIFY_OPEN => 0
  | ES_EVENT_TYPE_NOTIFY_WRITE => 1
  | ES_EVENT_TYPE_NOTIFY_CREATE => 2
  | ES_EVENT_TYPE_NOTIFY_UNLINK => 3
  | ES_EVENT_TYPE_NOTIFY_RENAME => 4
  | ES_EVENT_TYPE_NOTIFY_LINK => 5
  | ES_EVENT_TYPE_NOTIFY_READLINK => 6
  | ES_EVENT_TYPE_NOTIFY_READDIR => 7
  | ES_EVENT_TYPE_NOTIFY_STAT => 8
  | ES_EVENT_TYPE_NOTIFY_ACCESS => 9
  | ES_EVENT_TYPE_NOTIFY_SETMODE => 10
  | ES_EVENT_TYPE_AUTH_SETOWNER => 11
  | ES_EVENT_TYPE_NOTIFY_SETTIME => 12
  | ES_EVENT_TYPE_NOTIFY_EXEC => 13
  | ES_EVENT_TYPE_NOTIFY_FORK => 14
  | ES_EVENT_TYPE_NOTIFY_EXIT => 15
  end.

Definition status_code (a : ResultAction) : Z :=
  match a with Allow => 0 | Deny => 1 | Warn => 2 end.

(** The report group of a request: one record, errno not yet known. *)
Definition group_of (pid : Z) (a : ResultAction) (req : AccessRequest) : AccessReportGroup :=
  mkGroup [mkReport pid 1 (status_code a) 0 0 (operation_code (request_kind req))
                    (request_path req) 0].

Definition stronger (a b : ResultAction) : ResultAction :=
  match a, b with
  | Deny, _ | _, Deny => Deny
  | Warn, _ | _, Warn => Warn
  | Allow, Allow => Allow
  end.

(** [ensureEnvs] as the specification describes it for [LD_PRELOAD]: the
    library is prepended when it is absent. *)
Definition ensure_preload (envp : list string) : list string :=
  if ld_preload_contains lib envp
  then envp
  else String.append LD_PRELOAD_ENV_VAR_PREFIX lib :: envp.

Definition is_fork (name : string) : bool :=
  bool_decide (name = "fork" ∨ name = "clone").

(** A write to the reporting channel leaves [EPIPE] in errno. *)
Definition EPIPE : Z := 32.

Definition platform (s : t) : Platform := {|
  KState := Z;
  PState := nat;
  bxl := observer s;
  resolved := handles s;
  real_impl := fun name args pid e =>
    match kernel_call s name args e with
    | Some (r, e') => Some (r, e', if is_fork name && (r =? 0) then pid + 1 else pid)
    | None => None
    end;
  getpid := fun pid => pid;
  getppid := fun pid => pid - 1;
  lstat_mode := fun _ path => modes s path;
  policy := fun _ req _ pid _ n =>
    (mkCheck (decision s req) true, group_of pid (decision s req) req, S n);
  Combine := fun a b => mkCheck (stronger (check_action a) (check_action b))
                                (check_report a || check_report b);
  Invalid := mkCheck Allow false;
  channel_errno := fun _ _ _ => EPIPE;
  normalize_path_at := fun _ _ _ pathname _ => path_of pathname;
  fd_to_path := fun _ _ _ => "/proc/self/fd";
  EnumerateDirectory := fun _ root _ => listing s root;
  is_statically_linked := fun _ _ path => static_binaries s path;
  resolve_filename_with_env := fun _ _ file => path_search s file;
  ensureEnvs := ensure_preload;
  remove_path_from_LDPRELOAD := fun envp path =>
    filter (fun entry => negb (String.prefix LD_PRELOAD_ENV_VAR_PREFIX entry && occurs_in path entry)) envp;
  ExecuteWithPTraceSandbox := fun _ _ _ _ _ _ => (0, 0);
  get_variadic_argc := fun args => Z.of_nat (length args);
  fileno := fun _ stream => stream;
  dirfd := fun _ dirp => dirp
|}.

(** The process [pid] at the start of a call, with [e] in errno. *)
Definition world (s : t) (pid e : Z) (env : list string) : @World (platform s) :=
  @mkWorld (platform s) e env ∅ pid 0%nat [].

(** Every call succeeds with result [0] and leaves errno alone. *)
Definition succeed : string -> list Arg -> Z -> option (Z * Z) :=
  fun _ _ e => Some (0, e).

(** Every call fails with [ENOENT]. *)
Definition fail_enoent : string -> list Arg -> Z -> option (Z * Z) :=
  fun _ _ _ => Some (-1, ENOENT).

Definition allow_all : AccessRequest -> ResultAction := fun _ => Allow.
Definition deny_all : AccessRequest -> ResultAction := fun _ => Deny.

Definition no_file : string -> option Z := fun _ => None.
Definition no_listing : string -> option (list string) := fun _ => None.

(** The ordinary sandboxed process: all handles resolved, calls succeed,
    everything allowed. *)
Definition plain : t :=
  mk default_observer (fun _ => true) succeed allow_all no_file no_listing
     (fun _ => false) (fun _ => None).

(** Every access is denied and the policy fails unexpected accesses. *)
Definition denying : t :=
  mk default_observer (fun _ => true) succeed deny_all no_file no_listing
     (fun _ => false) (fun _ => None).

Definition deny : AccessCheckResult := mkCheck Deny true.

Definition passwd : list Arg := [AStr (Some "/etc/passwd")].

Definition passwd_report : AccessReportGroup :=
  group_of 100 Deny (ReqPath ES_EVENT_TYPE_NOTIFY_UNLINK (Some "/etc/passwd") 0 O_NOFOLLOW).

(** A child (pid 101) of the root process (pid 100) of a pip whose children
    break away: the observer is valid but not enabled. *)
Definition breakaway_child : t :=
  mk (mkObserver true true 100 true "/usr/bin/tool" lib "/tmp/fam" "/bxl_mq")
     (fun _ => true) succeed deny_all no_file no_listing (fun _ => false) (fun _ => None).

(** The real call succeeds with descriptor 3 and leaves [ENOENT] in errno,
    as a libc function that probed a missing file on its way may. *)
Definition noisy_success : t :=
  mk default_observer (fun _ => true) (fun _ _ _ => Some (3, ENOENT)) allow_all
     no_file no_listing (fun _ => false) (fun _ => None).

(** [dlsym] found every name but [statx]. *)
Definition statx_missing : t :=
  mk default_observer (fun name => negb (String.eqb name "statx")) succeed allow_all
     no_file no_listing (fun _ => false) (fun _ => None).

(** Every real call fails with [ENOENT]. *)
Definition failing : t :=
  mk default_observer (fun _ => true) fail_enoent allow_all no_file no_listing
     (fun _ => false) (fun _ => None).

(** The user-space PATH search finds nothing, and the exec itself succeeds
    (the real call does not return). *)
Definition unresolved_exec : t :=
  mk default_observer (fun _ => true) (fun _ _ _ => None) allow_all no_file no_listing
     (fun _ => false) (fun _ => None).

Definition bare_environment : list string := ["PATH=/usr/bin"].

(** [fork] returns 0: the trace is the one of the child. *)
Definition in_child : t :=
  mk default_observer (fun _ => true) (fun _ _ e => Some (0, e)) allow_all no_file no_listing
     (fun _ => false) (fun _ => None).

(** A directory [/d1] holding [a], to be renamed to [/d2], which does not
    exist. *)
Definition tree (decide : AccessRequest -> ResultAction) : t :=
  mk default_observer (fun _ => true) succeed decide
     (fun path => if String.eqb path "/d1" then Some (S_IFDIR + 493)
                  else if String.eqb path "/d1/a" then Some (S_IFREG + 420)
                  else None)
     (fun root => if String.eqb root "/d1" then Some ["/d1"; "/d1/a"] else None)
     (fun _ => false) (fun _ => None).

(** Only the creation of [/d2/a] is denied. *)
Definition deny_d2_a (req : AccessRequest) : ResultAction :=
  if String.eqb (request_path req) "/d2/a" then Deny else Allow.

Definition d1_d2 : list Arg := [AInt AT_FDCWD; AStr (Some "/d1"); AInt AT_FDCWD; AStr (Some "/d2")].

(** The policy's answers for an entry and its destination. *)
Definition answers (decide : AccessRequest -> ResultAction) (entry destination : string)
  : @entry_result :=
  let source := ReqPath ES_EVENT_TYPE_NOTIFY_UNLINK (Some entry) 0 O_NOFOLLOW in
  let target := ReqEvent (CreateFileOpen_event (P := platform (tree decide)) 0 destination
                                               (Z.lor O_CREAT O_WRONLY)) in
  mk_entry_result (mkCheck (decide source) true) (group_of 100 (decide source) source)
                  (mkCheck (decide target) true) (group_of 100 (decide target) target).

(** The enumeration of [/d1] fails. *)
Definition unlisted : t :=
  mk default_observer (fun _ => true) succeed allow_all
     (fun path => if String.eqb path "/d1" then Some (S_IFDIR + 493) else None)
     no_listing (fun _ => false) (fun _ => None).

End Scenario.

(** ** Further wrappers of [detours.cpp] and helpers of [bxl_observer.hpp] *)

Section MoreDetours.
Context {P : Platform}.

(** [INTERPOSE_SOMETIMES(ssize_t, readlink, ...)]: the short-circuit check
    runs before [BxlObserver::GetInstance()]. *)
Definition readlink (path : option string) (buf bufsize : Z) : M Z :=
  if match path with
     | Some p => String.eqb p "/etc/malloc.conf"   (* path != NULL && strcmp(...) == 0 *)
     | None => false
     end
  then fun w => Ret (-1) (set_errno ENOENT w)
  else
    let* '(check, report) :=
      create_access "readlink" (ReqPath ES_EVENT_TYPE_NOTIFY_READLINK path 0 O_NOFOLLOW) true in
    check_fwd_and_report "readlink" report check ERROR_RETURN_VALUE
      [AStr path; APtr buf; AInt bufsize].

(** [LIBC_SO] of [gnu/lib-names.h] *)
Definition LIBC_SO : string := "libc.so.6".

(** [strncmp(filename, LIBC_SO, strlen(LIBC_SO)) == 0] *)
Definition names_libc (filename : option string) : bool :=
  match filename with
  | Some f => String.prefix LIBC_SO f
  | None => false
  end.

Definition dlopen (filename : option string) (flags : Z) : M Z :=
  if names_libc filename
  then real "dlopen" [AStr None; AInt flags]
  else
    let* r := fwd "dlopen" [AStr filename; AInt flags] in
    restore r.

(** *** Descriptors *)

Definition fclose (f : Z) : M Z :=
  (fun w => reset_fd_table_entry (fileno (kernel w) f) w) >>
  let* r := fwd "fclose" [APtr f] in
  restore r.

Definition closedir (dirp : Z) : M Z :=
  (fun w => reset_fd_table_entry (dirfd (kernel w) dirp) w) >>
  let* r := fwd "closedir" [APtr dirp] in
  restore r.

Definition dup3 (oldfd newfd flags : Z) : M Z :=
  reset_fd_table_entry newfd >>
  real "dup3" [AInt oldfd; AInt newfd; AInt flags].

(** *** Creating, linking, changing mode and owner *)

Definition mkdirat (dirfd : Z) (pathname : option string) (mode : Z) : M Z :=
  let* '(check, report) := report_create dirfd pathname S_IFDIR false in
  check_fwd_and_report "mkdirat" report check ERROR_RETURN_VALUE
    [AInt dirfd; AStr pathname; AInt mode].

Definition mknod (pathname : option string) (mode dev : Z) : M Z :=
  let* '(check, report) := report_create AT_FDCWD pathname S_IFREG true in
  check_fwd_and_report "mknod" report check ERROR_RETURN_VALUE
    [AStr pathname; AInt mode; AInt dev].

Definition linkat (fd1 : Z) (name1 : option string) (fd2 : Z) (name2 : option string)
    (flag : Z) : M Z :=
  let* p1 := normalize_path_at_ fd1 name1 O_NOFOLLOW in
  let* p2 := normalize_path_at_ fd2 name2 O_NOFOLLOW in
  let* '(check, report) :=
    create_access "linkat" (ReqTwoPaths ES_EVENT_TYPE_NOTIFY_LINK p1 p2) true in
  check_fwd_and_report "linkat" report check ERROR_RETURN_VALUE
    [AInt fd1; AStr name1; AInt fd2; AStr name2; AInt flag].

Definition symlinkat (target : option string) (dirfd : Z) (linkPath : option string) : M Z :=
  let* p := normalize_path_at_ dirfd linkPath O_NOFOLLOW in
  let event := IOEvent5 ES_EVENT_TYPE_NOTIFY_CREATE ES_ACTION_TYPE_NOTIFY p GetProgramPath S_IFLNK in
  let* '(check, report) := create_access "symlinkat" (ReqEvent event) true in
  check_fwd_and_report "symlinkat" report check ERROR_RETURN_VALUE
    [AStr target; AInt dirfd; AStr linkPath].

Definition fchmodat (dirfd : Z) (pathname : option string) (mode flags : Z) : M Z :=
  let oflags := if truthy (Z.land flags AT_SYMLINK_NOFOLLOW) then O_NOFOLLOW else 0 in
  let* '(check, report) :=
    create_access "fchmodat" (ReqAt ES_EVENT_TYPE_NOTIFY_SETMODE dirfd pathname oflags) true in
  check_fwd_and_report "fchmodat" report check ERROR_RETURN_VALUE
    [AInt dirfd; AStr pathname; AInt mode; AInt flags].

Definition fchownat (dirfd : Z) (pathname : option string) (owner group flags : Z) : M Z :=
  let oflags := if truthy (Z.land flags AT_SYMLINK_NOFOLLOW) then O_NOFOLLOW else 0 in
  let* '(check, report) :=
    create_access "fchownat" (ReqAt ES_EVENT_TYPE_AUTH_SETOWNER dirfd pathname oflags) true in
  check_fwd_and_report "fchownat" report check ERROR_RETURN_VALUE
    [AInt dirfd; AStr pathname; AInt owner; AInt group; AInt flags].

(** *** [BuildReport] *)

(** [%d] *)
Definition dec (z : Z) : string := NilZero.string_of_int (Z.to_int z).

Definition bar : string := "|".
Definition newline : string := String (ascii_of_nat 10) EmptyString.

(** ["%s|%d|%d|%d|%d|%d|%d|%s|%d\n"] applied to the program name, the pid,
    the fields of the report, the path and the directory flag. *)
Definition report_line (progname : string) (pid : Z) (report : AccessReport)
    (path : string) : string :=
  String.concat bar
    [progname; dec pid; dec (rep_requestedAccess report); dec (rep_status report);
     dec (rep_reportExplicitly report); dec (rep_error report); dec (rep_operation report);
     path; String.append (dec (rep_isDirectory report)) newline].

(** [snprintf(buffer, size, ...)]: the result is the length of the whole
    text; the buffer receives at most [size - 1] characters of it. *)
Definition snprintf (size : Z) (text : string) : Z * string :=
  (Z.of_nat (String.length text), String.substring 0 (Z.to_nat (size - 1)) text).

(** [BuildReport(buffer, maxMessageLength, report, path)], with [__progname]
    as a parameter: the result of [snprintf] and the contents of the
    buffer. *)
Definition BuildReport (progname : string) (maxMessageLength : Z) (report : AccessReport)
    (path : string) (w : World) : Z * string :=
  snprintf maxMessageLength
    (report_line progname
       (if rep_pid report <? 0 then getpid (kernel w) else rep_pid report)
       report path).

(** *** Shapes used in the statements *)

(** A wrapper of the [stat] family: forward, report with the errno of a
    failure, restore. *)
Definition forward_then_report (name : string) (args : list Arg) (req : AccessRequest) : M Z :=
  let* result := fwd name args in
  report_access name req (get_errno_from_result result) true >>
  restore result.

(** The fields of a line of the report file, as its reader splits them. *)
Fixpoint fields_from (current : string) (s : string) : list string :=
  match s with
  | EmptyString => [current]
  | String c rest =>
      if Ascii.eqb c "|"%char
      then current :: fields_from EmptyString rest
      else fields_from (String.append current (String c EmptyString)) rest
  end.

Definition fields (s : string) : list string := fields_from EmptyString s.

Fixpoint has_bar (s : string) : bool :=
  match s with
  | EmptyString => false
  | String c rest => Ascii.eqb c "|"%char || has_bar rest
  end.

(** Reading a decimal field back. *)
Definition parse_dec (s : string) : option Z :=
  option_map Z.of_int (NilZero.int_of_string s).

(** The characters of a mode string. *)
Fixpoint chars (s : string) : list ascii :=
  match s with
  | EmptyString => []
  | String c rest => c :: chars rest
  end.

End MoreDetours.

(** Further concrete processes. *)
Module Cases.

(** Every target of an exec is statically linked. *)
Definition static_target : Scenario.t :=
  Scenario.mk Scenario.default_observer (fun _ => true) Scenario.succeed Scenario.allow_all
     Scenario.no_file Scenario.no_listing (fun _ => true) (fun _ => None).

(** A process with descriptors 3 and 4 in the descriptor table. *)
Definition open_files : gmap Z string := <[3 := "/work/out.o"]> (<[4 := "/work/in.c"]> ∅).

Definition with_files (s : Scenario.t) (e : Z) : @World (Scenario.platform s) :=
  @mkWorld (Scenario.platform s) e [] open_files 100 0%nat [].

(** The real call returns descriptor 3 and leaves errno alone. *)
Definition returns_3 : Scenario.t :=
  Scenario.mk Scenario.default_observer (fun _ => true) (fun _ _ e => Some (3, e))
     Scenario.allow_all Scenario.no_file Scenario.no_listing (fun _ => false) (fun _ => None).

(** The real call returns 0 (a null pointer, an empty read) and leaves errno
    alone. *)
Definition returns_0 : Scenario.t := Scenario.plain.

Definition sample_report : AccessReport := mkReport (-1) 2 1 0 13 1 "/work/out.o" 0.

(** The directory [/d1] holding [a], to be renamed onto [/d2], an empty
    directory that exists. *)
Definition onto_existing : Scenario.t :=
  Scenario.mk Scenario.default_observer (fun _ => true) Scenario.succeed Scenario.allow_all
     (fun path => if String.eqb path "/d1" then Some (S_IFDIR + 493)
                  else if String.eqb path "/d1/a" then Some (S_IFREG + 420)
                  else if String.eqb path "/d2" then Some (S_IFDIR + 493)
                  else None)
     (fun root => if String.eqb root "/d1" then Some ["/d1"; "/d1/a"] else None)
     (fun _ => false) (fun _ => None).

(** The enumeration of the directory [/d1] succeeds and gives nothing. *)
Definition nothing_listed : Scenario.t :=
  Scenario.mk Scenario.default_observer (fun _ => true) Scenario.succeed Scenario.allow_all
     (fun path => if String.eqb path "/d1" then Some (S_IFDIR + 493) else None)
     (fun root => if String.eqb root "/d1" then Some [] else None)
     (fun _ => false) (fun _ => None).

(** The process that calls [clone]: the real [clone] returns the id of the
    child, 101, and leaves errno alone. *)
Definition clone_caller : Scenario.t :=
  Scenario.mk Scenario.default_observer (fun _ => true) (fun _ _ e => Some (101, e))
     Scenario.allow_all Scenario.no_file Scenario.no_listing (fun _ => false) (fun _ => None).

(** The child of that [clone]: it starts in the function given to [clone]
    and ends when the function returns, so the real [clone] never returns to
    the wrapper there. *)
Definition clone_child : Scenario.t :=
  Scenario.mk Scenario.default_observer (fun _ => true) (fun _ _ _ => None)
     Scenario.allow_all Scenario.no_file Scenario.no_listing (fun _ => false) (fun _ => None).

(** The arguments of the [clone] call. *)
Definition clone_args : list Arg :=
  [APtr 4096; APtr 8192; AInt 17; APtr 0; APtr 0; APtr 0; APtr 0].

(** Process [pid] with descriptors 3 and 4 in the descriptor table. *)
Definition process (s : Scenario.t) (pid : Z) : @World (Scenario.platform s) :=
  @mkWorld (Scenario.platform s) 0 [] open_files pid 0%nat [].

End Cases.

(** * Properties *)

Section Properties.
Context {P : Platform}.

(** ** Reading traces *)

Lemma sent_app (l1 l2 : list Action) : sent (l1 ++ l2) = sent l1 ++ sent l2.
Proof. apply omap_app. Qed.

Lemma real_calls_app (l1 l2 : list Action) :
  real_calls (l1 ++ l2) = real_calls l1 ++ real_calls l2.
Proof. apply omap_app. Qed.

Lemma checked_app (l1 l2 : list Action) : checked (l1 ++ l2) = checked l1 ++ checked l2.
Proof. apply omap_app. Qed.

Lemma SetErrno_errno (e : Z) (g : AccessReportGroup) : group_errno_is e (SetErrno e g).
Proof.
  unfold group_errno_is, SetErrno; simpl.
  induction (group_reports g) as [|r rs IH]; simpl; constructor; auto.
Qed.

(** ** The forwarding helpers *)

Lemma real_returns (name : string) (args : list Arg) (w : World) (r e : Z) (k : KState) :
  resolved name = true ->
  real_impl name args (kernel w) (errno w) = Some (r, e, k) ->
  real name args w =
    Ret r (log (AReal name args (Some (r, e))) (set_kernel k (set_errno e w))).
Proof. intros Hres Hreal. unfold real. rewrite Hres, Hreal. reflexivity. Qed.

Lemma fwd_returns (name : string) (args : list Arg) (w : World) (r e : Z) (k : KState) :
  resolved name = true ->
  real_impl name args (kernel w) (errno w) = Some (r, e, k) ->
  fwd name args w =
    Ret (mk_result_t e r)
        (log (AReal name args (Some (r, e))) (set_kernel k (set_errno e w))).
Proof.
  intros Hres Hreal. unfold fwd, bind. rewrite (real_returns _ _ _ _ _ _ Hres Hreal).
  reflexivity.
Qed.

Lemma fwd_null_handle (name : string) (args : list Arg) (w : World) :
  resolved name = false -> fwd name args w = Stop (NullCall name) w.
Proof. intros Hres. unfold fwd, bind, real. rewrite Hres. reflexivity. Qed.

Lemma should_deny_eq (check : AccessCheckResult) (w : World) :
  should_deny check w =
    Ret (IsEnabled w && ShouldDenyAccess check && IsFailingUnexpectedAccesses) w.
Proof. reflexivity. Qed.

(** What [check_fwd_and_report] does when the call is denied. *)
Lemma check_fwd_and_report_deny (name : string) (report : AccessReportGroup)
    (check : AccessCheckResult) (error_val : Z) (args : list Arg) (w : World) :
  IsEnabled w && ShouldDenyAccess check && IsFailingUnexpectedAccesses = true ->
  check_fwd_and_report name report check error_val args w =
    Ret error_val (set_errno EPERM (log (ASend (SetErrno EPERM report)) w)).
Proof.
  intros Hdeny. unfold check_fwd_and_report, bind.
  rewrite should_deny_eq, Hdeny. unfold ret, result_t_with, get, get_errno; simpl.
  rewrite Z.eqb_refl. reflexivity.
Qed.

(** What it does when the call is forwarded and the real call returns. *)
Lemma check_fwd_and_report_forward (name : string) (report : AccessReportGroup)
    (check : AccessCheckResult) (error_val : Z) (args : list Arg) (w : World)
    (r e : Z) (k : KState) :
  IsEnabled w && ShouldDenyAccess check && IsFailingUnexpectedAccesses = false ->
  resolved name = true ->
  real_impl name args (kernel w) (errno w) = Some (r, e, k) ->
  check_fwd_and_report name report check error_val args w =
    Ret r (set_errno e
             (log (ASend (SetErrno (if r =? error_val then e else 0) report))
                (log (AReal name args (Some (r, e))) (set_kernel k w)))).
Proof.
  intros Hdeny Hres Hreal. unfold check_fwd_and_report, bind.
  rewrite should_deny_eq, Hdeny, (fwd_returns _ _ _ _ _ _ Hres Hreal).
  reflexivity.
Qed.

(** [fwd_and_report] when the real call returns: errno is whatever the
    channel write left, the captured errno travels in the result. *)
Lemma fwd_and_report_forward (name : string) (report : AccessReportGroup)
    (error_val : Z) (args : list Arg) (w : World) (r e : Z) (k : KState) :
  resolved name = true ->
  real_impl name args (kernel w) (errno w) = Some (r, e, k) ->
  fwd_and_report name report error_val args w =
    Ret (mk_result_t e r)
        (set_errno (channel_errno k (SetErrno (if r =? error_val then e else 0) report) e)
           (log (ASend (SetErrno (if r =? error_val then e else 0) report))
              (log (AReal name args (Some (r, e))) (set_kernel k (set_errno e w))))).
Proof.
  intros Hres Hreal. unfold fwd_and_report, bind.
  rewrite (fwd_returns _ _ _ _ _ _ Hres Hreal). reflexivity.
Qed.

(** C1 (as amended). Whenever the observer is enabled, the access check says
    that the access should be denied and the policy fails unexpected
    accesses, [check_fwd_and_report] skips the real call (the only step it
    adds to the trace is the report), sends the report with errno [EPERM]
    and returns the configured error value with errno equal to [EPERM]. *)
Theorem denied_call_is_short_circuited (name : string) (report : AccessReportGroup)
    (check : AccessCheckResult) (error_val : Z) (args : list Arg) (w : World) :
  IsEnabled w = true ->
  ShouldDenyAccess check = true ->
  IsFailingUnexpectedAccesses = true ->
  exists w',
    check_fwd_and_report name report check error_val args w = Ret error_val w' /\
    errno w' = EPERM /\
    trace w' = trace w ++ [ASend (SetErrno EPERM report)] /\
    real_calls (trace w') = real_calls (trace w) /\
    group_errno_is EPERM (SetErrno EPERM report) /\
    kernel w' = kernel w.
Proof.
  intros Hen Hdeny Hfail.
  eexists. split.
  - apply check_fwd_and_report_deny. rewrite Hen, Hdeny, Hfail. reflexivity.
  - simpl. repeat split.
    + rewrite real_calls_app. simpl. apply app_nil_r.
    + apply SetErrno_errno.
Qed.

(** C7 (as amended). A forwarded call leaves in errno the value that errno
    held when the real call returned, whether the call succeeded or failed:
    the value captured by [result_t] right after the real call is the one
    [restore] puts back, whatever the wrapper did in between ([reporting]
    stands for the steps between [fwd_NAME] and [restore()], as in the
    [stat], [exec] and [fork] wrappers). The errno from before the call
    plays no part. *)
Theorem forwarded_call_keeps_real_errno (name : string) (report : AccessReportGroup)
    (check : AccessCheckResult) (error_val : Z) (args : list Arg) (w : World)
    (r e : Z) (k : KState) :
  resolved name = true ->
  real_impl name args (kernel w) (errno w) = Some (r, e, k) ->
  (IsEnabled w && ShouldDenyAccess check && IsFailingUnexpectedAccesses = false ->
   exists w', check_fwd_and_report name report check error_val args w = Ret r w' /\
              errno w' = e) /\
  (forall reporting : result_t -> M unit,
     (forall x w1, exists w2, reporting x w1 = Ret tt w2) ->
     exists w', (let* x := fwd name args in reporting x >> restore x) w = Ret r w' /\
                errno w' = e) /\
  (exists w', (let* x := fwd_and_report name report error_val args in restore x) w = Ret r w' /\
              errno w' = e).
Proof.
  intros Hres Hreal. repeat split.
  - intros Hdeny. eexists. split.
    + apply (check_fwd_and_report_forward _ _ _ _ _ _ _ _ _ Hdeny Hres Hreal).
    + reflexivity.
  - intros reporting Hreturns.
    destruct (Hreturns (mk_result_t e r)
                (log (AReal name args (Some (r, e))) (set_kernel k (set_errno e w))))
      as [w2 Hw2].
    exists (set_errno e w2). unfold bind at 1.
    rewrite (fwd_returns _ _ _ _ _ _ Hres Hreal). unfold bind. rewrite Hw2.
    split; reflexivity.
  - eexists. unfold bind. rewrite (fwd_and_report_forward _ _ _ _ _ _ _ _ Hres Hreal).
    split; reflexivity.
Qed.

(** C8 (as amended). With an unresolved handle a forwarded call is a call
    through a null pointer: the wrapper does not return, errno is not
    touched and no report is sent. Only a denied call, which never reaches
    the handle, still returns (the error value, with [EPERM]) and reports. *)
Theorem unresolved_handle_is_called (name : string) (report : AccessReportGroup)
    (check : AccessCheckResult) (error_val : Z) (args : list Arg) (w : World) :
  resolved name = false ->
  fwd name args w = Stop (NullCall name) w /\
  (IsEnabled w && ShouldDenyAccess check && IsFailingUnexpectedAccesses = false ->
   check_fwd_and_report name report check error_val args w = Stop (NullCall name) w) /\
  fwd_and_report name report error_val args w = Stop (NullCall name) w /\
  (IsEnabled w && ShouldDenyAccess check && IsFailingUnexpectedAccesses = true ->
   check_fwd_and_report name report check error_val args w =
     Ret error_val (set_errno EPERM (log (ASend (SetErrno EPERM report)) w))).
Proof.
  intros Hres. repeat split.
  - apply fwd_null_handle, Hres.
  - intros Hdeny. unfold check_fwd_and_report, bind.
    rewrite should_deny_eq, Hdeny, (fwd_null_handle _ _ _ Hres). reflexivity.
  - unfold fwd_and_report, bind. rewrite (fwd_null_handle _ _ _ Hres). reflexivity.
  - apply check_fwd_and_report_deny.
Qed.

(** ** Wrappers that do not report *)

(** C9. [unlink] with an empty, non-null path and [unlinkat] with
    [AT_FDCWD] and an empty path go straight to the real function: no access
    check is made (the trace gains no check and the observer's cache is
    untouched) and no report is sent; the only step is the real call, whose
    result and errno the wrapper returns. *)
Theorem empty_path_unlink_is_forwarded_unreported (flags : Z) (w : World) :
  (forall r e k,
     resolved "unlink" = true ->
     real_impl "unlink" [AStr (Some "")] (kernel w) (errno w) = Some (r, e, k) ->
     exists w',
       unlink (Some "") w = Ret r w' /\
       trace w' = trace w ++ [AReal "unlink" [AStr (Some "")] (Some (r, e))] /\
       checked (trace w') = checked (trace w) /\
       sent (trace w') = sent (trace w) /\
       cache w' = cache w /\ errno w' = e) /\
  (forall r e k,
     resolved "unlinkat" = true ->
     real_impl "unlinkat" [AInt AT_FDCWD; AStr (Some ""); AInt flags] (kernel w) (errno w)
       = Some (r, e, k) ->
     exists w',
       unlinkat AT_FDCWD (Some "") flags w = Ret r w' /\
       trace w' = trace w ++
                  [AReal "unlinkat" [AInt AT_FDCWD; AStr (Some ""); AInt flags] (Some (r, e))] /\
       checked (trace w') = checked (trace w) /\
       sent (trace w') = sent (trace w) /\
       cache w' = cache w /\ errno w' = e).
Proof.
  split; intros r e k Hres Hreal; eexists.
  - unfold unlink, bind; simpl. rewrite (fwd_returns _ _ _ _ _ _ Hres Hreal).
    repeat split; simpl.
    + rewrite checked_app; simpl; apply app_nil_r.
    + rewrite sent_app; simpl; apply app_nil_r.
  - unfold unlinkat, bind; simpl. rewrite (fwd_returns _ _ _ _ _ _ Hres Hreal).
    repeat split; simpl.
    + rewrite checked_app; simpl; apply app_nil_r.
    + rewrite sent_app; simpl; apply app_nil_r.
Qed.

(** [vprintf] and [vfprintf], step by step. *)
Lemma vprintf_steps (fmt : option string) (args : Z) (w : World)
    (check : AccessCheckResult) (report : AccessReportGroup) (c : PState) (r e : Z) (k : KState) :
  policy "vprintf" (ReqFd ES_EVENT_TYPE_NOTIFY_WRITE 1) true (kernel w) (fdTable w) (cache w)
    = (check, report, c) ->
  resolved "vprintf" = true ->
  real_impl "vprintf" [AStr fmt; APtr args] (kernel w) (errno w) = Some (r, e, k) ->
  vprintf fmt args w =
    Ret r (set_errno e
             (log (AReal "vprintf" [AStr fmt; APtr args] (Some (r, e)))
                (set_kernel k
                   (log (ACheck "vprintf" (ReqFd ES_EVENT_TYPE_NOTIFY_WRITE 1) true check report)
                      (set_cache c w))))).
Proof.
  intros Hpol Hres Hreal. unfold vprintf, bind, create_access. rewrite Hpol.
  rewrite (fwd_returns _ _ _ r e k Hres) by exact Hreal. reflexivity.
Qed.

Lemma vfprintf_steps (f : Z) (fmt : option string) (args : Z) (w : World)
    (check : AccessCheckResult) (report : AccessReportGroup) (c : PState) (r e : Z) (k : KState) :
  policy "vfprintf" (ReqFd ES_EVENT_TYPE_NOTIFY_WRITE (fileno (kernel w) f)) true
         (kernel w) (fdTable w) (cache w) = (check, report, c) ->
  resolved "vfprintf" = true ->
  real_impl "vfprintf" [APtr f; AStr fmt; APtr args] (kernel w) (errno w) = Some (r, e, k) ->
  vfprintf f fmt args w =
    Ret r (set_errno e
             (log (AReal "vfprintf" [APtr f; AStr fmt; APtr args] (Some (r, e)))
                (set_kernel k
                   (log (ACheck "vfprintf"
                           (ReqFd ES_EVENT_TYPE_NOTIFY_WRITE (fileno (kernel w) f)) true
                           check report)
                      (set_cache c w))))).
Proof.
  intros Hpol Hres Hreal. unfold vfprintf, bind, create_access. rewrite Hpol.
  rewrite (fwd_returns _ _ _ r e k Hres) by exact Hreal. reflexivity.
Qed.

(** C10. [vprintf], [printf], [vfprintf] and [fprintf] build a WRITE check
    for the descriptor of the stream (descriptor 1 for the first two) and
    then forward whatever the check says: for every check result, a denying
    one under a failing policy included, the trace gains exactly the check
    and the real call, nothing is sent, and the result and errno of the real
    call are returned. ([printf] and [fprintf] call the wrappers [vprintf]
    and [vfprintf], so the real call is the one of those.) *)
Theorem printf_family_is_never_denied (f : Z) (fmt : option string) (args : Z) (w : World)
    (check : AccessCheckResult) (report : AccessReportGroup) (c : PState) (r e : Z) (k : KState) :
  (policy "vprintf" (ReqFd ES_EVENT_TYPE_NOTIFY_WRITE 1) true (kernel w) (fdTable w) (cache w)
     = (check, report, c) ->
   resolved "vprintf" = true ->
   real_impl "vprintf" [AStr fmt; APtr args] (kernel w) (errno w) = Some (r, e, k) ->
   forall wrapper, wrapper = vprintf \/ wrapper = printf ->
   exists w',
     wrapper fmt args w = Ret r w' /\
     trace w' = trace w ++
                [ACheck "vprintf" (ReqFd ES_EVENT_TYPE_NOTIFY_WRITE 1) true check report;
                 AReal "vprintf" [AStr fmt; APtr args] (Some (r, e))] /\
     sent (trace w') = sent (trace w) /\
     errno w' = e) /\
  (policy "vfprintf" (ReqFd ES_EVENT_TYPE_NOTIFY_WRITE (fileno (kernel w) f)) true
          (kernel w) (fdTable w) (cache w) = (check, report, c) ->
   resolved "vfprintf" = true ->
   real_impl "vfprintf" [APtr f; AStr fmt; APtr args] (kernel w) (errno w) = Some (r, e, k) ->
   forall wrapper, wrapper = vfprintf \/ wrapper = fprintf ->
   exists w',
     wrapper f fmt args w = Ret r w' /\
     trace w' = trace w ++
                [ACheck "vfprintf" (ReqFd ES_EVENT_TYPE_NOTIFY_WRITE (fileno (kernel w) f)) true
                        check report;
                 AReal "vfprintf" [APtr f; AStr fmt; APtr args] (Some (r, e))] /\
     sent (trace w') = sent (trace w) /\
     errno w' = e).
Proof.
  split; intros Hpol Hres Hreal wrapper [-> | ->]; eexists.
  - rewrite (vprintf_steps _ _ _ _ _ _ _ _ _ Hpol Hres Hreal). repeat split; simpl.
    + rewrite <- app_assoc. reflexivity.
    + rewrite !sent_app. simpl. rewrite !app_nil_r. reflexivity.
  - unfold printf, bind. rewrite (vprintf_steps _ _ _ _ _ _ _ _ _ Hpol Hres Hreal).
    repeat split; simpl.
    + rewrite <- app_assoc. reflexivity.
    + rewrite !sent_app. simpl. rewrite !app_nil_r. reflexivity.
  - rewrite (vfprintf_steps _ _ _ _ _ _ _ _ _ _ Hpol Hres Hreal). repeat split; simpl.
    + rewrite <- app_assoc. reflexivity.
    + rewrite !sent_app. simpl. rewrite !app_nil_r. reflexivity.
  - unfold fprintf, bind. rewrite (vfprintf_steps _ _ _ _ _ _ _ _ _ _ Hpol Hres Hreal).
    repeat split; simpl.
    + rewrite <- app_assoc. reflexivity.
    + rewrite !sent_app. simpl. rewrite !app_nil_r. reflexivity.
Qed.

(** ** Process creation *)

(** What follows a forwarded [fork] or [clone] that returned [r] with errno
    [e]: nothing in the parent, the reset of the descriptor table and the
    FORK report in the child. *)
Lemma after_fork_steps (syscall : string) (res : result_t) (w : World)
    (check : AccessCheckResult) (report : AccessReportGroup) (c : PState) :
  policy syscall
         (ReqEvent (child_process_event (getpid (kernel w)) (getppid (kernel w))))
         true (kernel w) ∅ (cache w) = (check, report, c) ->
  ((if get res =? 0
    then reset_fd_table >>
         (fun w0 => report_child_process syscall (getpid (kernel w0)) (getppid (kernel w0)) w0)
    else ret tt) >> restore res) w =
  Ret (get res)
      (if get res =? 0
       then set_errno (get_errno res)
              (log (ASend report)
                 (log (ACheck syscall
                         (ReqEvent (child_process_event (getpid (kernel w)) (getppid (kernel w))))
                         true check report)
                    (set_cache c (log AResetFdTable (set_fdTable ∅ w)))))
       else set_errno (get_errno res) w).
Proof.
  intros Hpol. unfold bind. destruct (get res =? 0).
  - unfold reset_fd_table, report_child_process, report_access_event, bind, create_access.
    simpl. rewrite Hpol. reflexivity.
  - reflexivity.
Qed.

(** ** The open policy *)













Lemma bind_ret {A B} (m : M A) (k : A -> M B) (w : World) (a : A) (w' : World) :
  m w = Ret a w' -> bind m k w = k a w'.
Proof. intros H. unfold bind. rewrite H. reflexivity. Qed.

Lemma bind_stop {A B} (m : M A) (k : A -> M B) (w : World) (h : Halt) (w' : World) :
  m w = Stop h w' -> bind m k w = Stop h w'.
Proof. intros H. unfold bind. rewrite H. reflexivity. Qed.

Lemma create_access_steps (syscallName : string) (req : AccessRequest) (checkCache : bool)
    (w : World) (check : AccessCheckResult) (report : AccessReportGroup) (c : PState) :
  policy syscallName req checkCache (kernel w) (fdTable w) (cache w) = (check, report, c) ->
  create_access syscallName req checkCache w =
    Ret (check, report) (log (ACheck syscallName req checkCache check report) (set_cache c w)).
Proof. intros H. unfold create_access. rewrite H. reflexivity. Qed.

Lemma CreateFileOpen_steps (pathStr : string) (oflag : Z) (w : World)
    (check : AccessCheckResult) (report : AccessReportGroup) (c : PState) :
  policy "CreateFileOpen"
         (ReqEvent (CreateFileOpen_event (mode_of_path w pathStr) pathStr oflag)) true
         (kernel w) (fdTable w) (cache w) = (check, report, c) ->
  CreateFileOpen pathStr oflag w =
    Ret (check, report)
        (log (ACheck "CreateFileOpen"
                (ReqEvent (CreateFileOpen_event (mode_of_path w pathStr) pathStr oflag))
                true check report)
           (set_cache c w)).
Proof.
  intros H. unfold CreateFileOpen.
  erewrite bind_ret by (unfold get_mode; reflexivity).
  apply (create_access_steps _ _ _ _ _ _ _ H).
Qed.

(** A denied call at the level of the wrappers: the plain shape (check, then
    [check_fwd_and_report]), and the two shapes that touch the descriptor
    table after it. *)
Lemma denied_statx (dirfd : Z) (pathname : option string) (flags mask statxbuf : Z)
    (w : World) (check : AccessCheckResult) (report : AccessReportGroup) (c : PState) :
  policy "statx" (ReqAt ES_EVENT_TYPE_NOTIFY_STAT dirfd pathname 0) true
         (kernel w) (fdTable w) (cache w) = (check, report, c) ->
  IsEnabled w && ShouldDenyAccess check && IsFailingUnexpectedAccesses = true ->
  statx dirfd pathname flags mask statxbuf w =
    Ret ERROR_RETURN_VALUE
        (set_errno EPERM
           (log (ASend (SetErrno EPERM report))
              (log (ACheck "statx" (ReqAt ES_EVENT_TYPE_NOTIFY_STAT dirfd pathname 0) true
                           check report)
                 (set_cache c w)))).
Proof.
  intros Hpol Hdeny. unfold statx.
  rewrite (bind_ret _ _ _ _ _ (create_access_steps _ _ _ _ _ _ _ Hpol)).
  apply check_fwd_and_report_deny. exact Hdeny.
Qed.

Lemma denied_open (path : option string) (oflag mode : Z) (w : World)
    (check : AccessCheckResult) (report : AccessReportGroup) (c : PState) :
  policy "CreateFileOpen"
         (ReqEvent (CreateFileOpen_event (mode_of_path w (normalized_path w path 0))
                                         (normalized_path w path 0) oflag)) true
         (kernel w) (fdTable w) (cache w) = (check, report, c) ->
  IsEnabled w && ShouldDenyAccess check && IsFailingUnexpectedAccesses = true ->
  exists w',
    open path oflag mode w = Ret ERROR_RETURN_VALUE w' /\
    errno w' = EPERM /\
    real_calls (trace w') = real_calls (trace w) /\
    sent (trace w') = sent (trace w) ++ [SetErrno EPERM report].
Proof.
  intros Hpol Hdeny.
  assert (Heq : open path oflag mode w =
                (let* '(check, report) := CreateFileOpen (normalized_path w path 0) oflag in
                 let* fd := check_fwd_and_report "open" report check ERROR_RETURN_VALUE
                              [AStr path; AInt oflag; AInt mode] in
                 ret_fd fd) w) by (destruct path; reflexivity).
  rewrite Heq.
  rewrite (bind_ret _ _ _ _ _ (CreateFileOpen_steps _ _ _ _ _ _ Hpol)).
  cbv beta iota.
  erewrite bind_ret by (apply check_fwd_and_report_deny; exact Hdeny).
  eexists. split; [reflexivity|]. simpl.
  rewrite !real_calls_app, !sent_app. simpl. rewrite !app_nil_r. repeat split.
Qed.

Lemma denied_fopen (pathname mode : option string) (w : World)
    (check : AccessCheckResult) (report : AccessReportGroup) (c : PState) :
  policy "fopen" (ReqPath (get_event_from_open_mode mode) pathname 0 0) true
         (kernel w) (fdTable w) (cache w) = (check, report, c) ->
  IsEnabled w && ShouldDenyAccess check && IsFailingUnexpectedAccesses = true ->
  fopen pathname mode w =
    Ret 0
        (set_errno EPERM
           (log (ASend (SetErrno EPERM report))
              (log (ACheck "fopen" (ReqPath (get_event_from_open_mode mode) pathname 0 0) true
                           check report)
                 (set_cache c w)))).
Proof.
  intros Hpol Hdeny. unfold fopen.
  rewrite (bind_ret _ _ _ _ _ (create_access_steps _ _ _ _ _ _ _ Hpol)).
  cbv beta iota.
  erewrite bind_ret by (apply check_fwd_and_report_deny; exact Hdeny).
  reflexivity.
Qed.




(** What the policy gives for the flags of [creat] and of
    [name_to_handle_at]. *)
Lemma creat_event_kind (pathMode : Z) (pathStr : string) :
  ev_type (CreateFileOpen_event pathMode pathStr (Z.lor (Z.lor O_CREAT O_WRONLY) O_TRUNC)) =
  if pathMode =? 0 then ES_EVENT_TYPE_NOTIFY_CREATE else ES_EVENT_TYPE_NOTIFY_WRITE.
Proof. unfold CreateFileOpen_event. destruct (pathMode =? 0); reflexivity. Qed.

Lemma name_to_handle_at_event_kind (pathMode : Z) (pathStr : string) (flags : Z) :
  ev_type (CreateFileOpen_event pathMode pathStr
             (if truthy (Z.land flags AT_SYMLINK_FOLLOW) then 0 else O_NOFOLLOW)) =
  ES_EVENT_TYPE_NOTIFY_OPEN.
Proof.
  unfold CreateFileOpen_event.
  destruct (truthy (Z.land flags AT_SYMLINK_FOLLOW)), (pathMode =? 0); reflexivity.
Qed.

(** ** [renameat] *)

Lemma renamed_checks_cons (w : World) (oldStr newStr e : string) (es : list string)
    (r : entry_result) (rs : list entry_result) :
  renamed_checks w oldStr newStr (e :: es) (r :: rs) =
  renamed_entry_checks w oldStr newStr e r ++ renamed_checks w oldStr newStr es rs.
Proof. reflexivity. Qed.

Lemma renamed_checks_same_kernel (w w' : World) (oldStr newStr : string)
    (es : list string) (rs : list entry_result) :
  kernel w' = kernel w ->
  renamed_checks w' oldStr newStr es rs = renamed_checks w oldStr newStr es rs.
Proof.
  intros Hk. unfold renamed_checks, renamed_entry_checks, mode_of_path.
  rewrite Hk. reflexivity.
Qed.

Lemma entry_denied_same_kernel (w w' : World) (r : entry_result) :
  kernel w' = kernel w -> entry_denied w' r = entry_denied w r.
Proof. intros Hk. unfold entry_denied, IsEnabled. rewrite Hk. reflexivity. Qed.

(** The loop over the enumerated entries: it stops after the first entry
    whose combined check is denied, and otherwise visits every entry. *)
Lemma renameat_loop_spec (oldStr newStr : string) (es : list string) :
  forall (check0 : AccessCheckResult) (acc : list AccessReportGroup) (w : World),
  exists (rs : list entry_result) (check' : AccessCheckResult) (w' : World),
    renameat_loop oldStr newStr es check0 acc w =
      Ret (check', acc ++ flat_map entry_reports rs) w' /\
    same_process w w' /\
    (length rs <= length es)%nat /\
    trace w' = trace w ++ renamed_checks w oldStr newStr (take (length rs) es) rs /\
    ((exists rs0 l, rs = rs0 ++ [l] /\ Forall (fun r => entry_denied w r = false) rs0 /\
                    entry_denied w l = true /\
                    check' = Combine (source_check l) (target_check l)) \/
     (length rs = length es /\ Forall (fun r => entry_denied w r = false) rs /\
      check' = match last rs with
               | Some l => Combine (source_check l) (target_check l)
               | None => check0
               end)).
Proof.
  induction es as [|e rest IH]; intros check0 acc w.
  - exists [], check0, w. simpl. rewrite !app_nil_r.
    split; [reflexivity|]. split; [repeat split|]. split; [reflexivity|].
    split; [reflexivity|].
    right. repeat split. constructor.
  - destruct (policy "renameat"
                (ReqPath ES_EVENT_TYPE_NOTIFY_UNLINK (Some e) 0 O_NOFOLLOW) true
                (kernel w) (fdTable w) (cache w)) as [[c1 g1] p1] eqn:Hp1.
    set (w1 := log (ACheck "renameat"
                      (ReqPath ES_EVENT_TYPE_NOTIFY_UNLINK (Some e) 0 O_NOFOLLOW) true c1 g1)
                   (set_cache p1 w)).
    set (dst := replace_prefix e oldStr newStr).
    destruct (policy "CreateFileOpen"
                (ReqEvent (CreateFileOpen_event (mode_of_path w1 dst) dst
                                                (Z.lor O_CREAT O_WRONLY))) true
                (kernel w1) (fdTable w1) (cache w1)) as [[c2 g2] p2] eqn:Hp2.
    set (w2 := log (ACheck "CreateFileOpen"
                      (ReqEvent (CreateFileOpen_event (mode_of_path w1 dst) dst
                                                      (Z.lor O_CREAT O_WRONLY)))
                      true c2 g2)
                   (set_cache p2 w1)).
    set (r := mk_entry_result c1 g1 c2 g2).
    assert (Hstep : renameat_loop oldStr newStr (e :: rest) check0 acc w =
              if entry_denied w r
              then Ret (Combine c1 c2, (acc ++ [g1]) ++ [g2]) w2
              else renameat_loop oldStr newStr rest (Combine c1 c2) ((acc ++ [g1]) ++ [g2]) w2).
    { cbn [renameat_loop].
      rewrite (bind_ret _ _ _ _ _ (create_access_steps _ _ _ _ _ _ _ Hp1)).
      fold w1. fold dst.
      rewrite (bind_ret _ _ _ _ _ (CreateFileOpen_steps _ _ _ _ _ _ Hp2)).
      fold w2. unfold bind. rewrite should_deny_eq.
      unfold entry_denied, r; cbn [source_check target_check].
      change (IsEnabled w2) with (IsEnabled w).
      destruct (IsEnabled w && ShouldDenyAccess (Combine c1 c2) && IsFailingUnexpectedAccesses);
        reflexivity. }
    rewrite Hstep. destruct (entry_denied w r) eqn:Hden.
    + exists [r], (Combine c1 c2), w2. simpl. rewrite <- app_assoc.
      split; [reflexivity|]. split; [repeat split|]. split; [lia|]. split.
      * unfold renamed_checks; simpl. rewrite <- app_assoc. reflexivity.
      * left. exists [], r. repeat split; auto.
    + destruct (IH (Combine c1 c2) ((acc ++ [g1]) ++ [g2]) w2)
        as (rs & check' & w' & Hrun & Hsame & Hle & Htr & Hcase).
      exists (r :: rs), check', w'. simpl.
      destruct Hsame as (He & Hen & Hfd & Hk).
      split; [|split; [|split; [|split]]].
      * rewrite Hrun. rewrite <- !app_assoc. reflexivity.
      * repeat split; [rewrite He | rewrite Hen | rewrite Hfd | rewrite Hk]; reflexivity.
      * lia.
      * rewrite Htr. rewrite renamed_checks_cons.
        rewrite (renamed_checks_same_kernel w w2) by reflexivity.
        simpl. rewrite <- !app_assoc. reflexivity.
      * destruct Hcase as [(rs0 & l & -> & Hall & Hl & ->) | (Hlen & Hall & ->)].
        -- left. exists (r :: rs0), l. repeat split.
           ++ constructor; [exact Hden|].
              eapply Forall_impl; [exact Hall|]. intros x Hx. exact Hx.
           ++ exact Hl.
        -- right. repeat split.
           ++ rewrite Hlen. reflexivity.
           ++ constructor; [exact Hden|]. exact Hall.
           ++ destruct rs as [|r' rs']; [reflexivity|].
              rewrite last_cons_cons.
              destruct (last (r' :: rs')) eqn:Hlast; [reflexivity|].
              apply last_None in Hlast. discriminate.
Qed.

Lemma send_all_steps (e : Z) (groups : list AccessReportGroup) :
  forall w, exists w',
    send_all e groups w = Ret tt w' /\
    trace w' = trace w ++ sends e groups /\
    kernel w' = kernel w /\ fdTable w' = fdTable w /\ environ w' = environ w.
Proof.
  induction groups as [|g gs IH]; intros w.
  - exists w. simpl. rewrite app_nil_r. repeat split.
  - destruct (IH (set_errno (channel_errno (kernel w) (SetErrno e g) (errno w))
                            (log (ASend (SetErrno e g)) w))) as (w' & Hrun & Htr & Hk & Hfd & Hen).
    exists w'. split; [|split; [|split; [|split]]].
    + cbn [send_all]. unfold bind at 1. unfold SendReport. exact Hrun.
    + rewrite Htr. simpl. rewrite <- app_assoc. reflexivity.
    + rewrite Hk. reflexivity.
    + rewrite Hfd. reflexivity.
    + rewrite Hen. reflexivity.
Qed.

Lemma renameat_unfold (olddirfd : Z) (oldpath : option string) (newdirfd : Z)
    (newpath : option string) (w : World) :
  let oldStr := normalize_path_at (kernel w) (fdTable w) olddirfd oldpath O_NOFOLLOW in
  let newStr := normalize_path_at (kernel w) (fdTable w) newdirfd newpath O_NOFOLLOW in
  S_ISDIR (mode_of_path w oldStr) = true ->
  renameat olddirfd oldpath newdirfd newpath w =
  bind (fun w0 =>
          match EnumerateDirectory (kernel w0) oldStr true with
          | Some filesAndDirectories =>
              renameat_loop oldStr newStr filesAndDirectories Invalid [] w0
          | None =>
              (let* '(check, report) :=
                 create_access "renameat" (ReqEvent (rename_event w oldStr newStr)) true in
               ret (check, [report])) w0
          end)
       (renameat_finish [AInt olddirfd; AStr oldpath; AInt newdirfd; AStr newpath]) w.
Proof.
  intros oldStr newStr Hdir.
  unfold renameat, normalize_path_at_, get_mode.
  unfold bind at 1 2 3. fold oldStr newStr.
  change (match lstat_mode (kernel w) oldStr with
          | Some st_mode => st_mode
          | None => 0
          end) with (mode_of_path w oldStr).
  rewrite Hdir. unfold bind at 1. unfold bind at 3.
  destruct (EnumerateDirectory (kernel w) oldStr true) as [es|].
  - destruct (renameat_loop oldStr newStr es Invalid [] w) as [[c a] w1 | h w1]; reflexivity.
  - reflexivity.
Qed.

(** The end of [renameat] when the gathered check is denied. *)
Lemma renameat_finish_denied (args : list Arg) (check : AccessCheckResult)
    (groups : list AccessReportGroup) (witness : AccessReportGroup) (w : World) :
  IsEnabled w && ShouldDenyAccess check && IsFailingUnexpectedAccesses = true ->
  renameat_finish args (check, groups ++ [witness]) w =
    Ret ERROR_RETURN_VALUE (set_errno EPERM (log (ASend witness) w)).
Proof.
  intros Hdeny. unfold renameat_finish, bind. rewrite should_deny_eq, Hdeny.
  rewrite map_app. simpl. rewrite List.last_last. reflexivity.
Qed.

(** The end of [renameat] when it is not denied and the real call returns. *)
Lemma renameat_finish_forward (args : list Arg) (check : AccessCheckResult)
    (groups : list AccessReportGroup) (w : World) (r e : Z) (k : KState) :
  IsEnabled w && ShouldDenyAccess check && IsFailingUnexpectedAccesses = false ->
  resolved "renameat" = true ->
  real_impl "renameat" args (kernel w) (errno w) = Some (r, e, k) ->
  exists w',
    renameat_finish args (check, groups) w = Ret r w' /\
    errno w' = e /\
    trace w' = trace w ++ [AReal "renameat" args (Some (r, e))] ++
               sends (if r =? -1 then e else 0) groups.
Proof.
  intros Hdeny Hres Hreal. unfold renameat_finish.
  rewrite (bind_ret _ _ _ _ _ (should_deny_eq check w)). rewrite Hdeny.
  rewrite (bind_ret _ _ _ _ _ (fwd_returns _ _ _ _ _ _ Hres Hreal)).
  unfold get_errno_from_result, get, get_errno. cbn [result_ my_errno_].
  destruct (send_all_steps (if r =? -1 then e else 0) groups
              (log (AReal "renameat" args (Some (r, e))) (set_kernel k (set_errno e w))))
    as (w' & Hrun & Htr & _).
  rewrite (bind_ret _ _ _ _ _ Hrun).
  eexists. split; [reflexivity|]. split; [reflexivity|].
  simpl. rewrite Htr. simpl. rewrite <- app_assoc. reflexivity.
Qed.

(** ** The report of a forwarded call *)

(** The destination report of a renamed entry is a CREATE report when the
    destination does not exist yet, a WRITE report when it does. *)
Lemma renamed_destination_kind (pathMode : Z) (destination : string) :
  ev_type (CreateFileOpen_event pathMode destination (Z.lor O_CREAT O_WRONLY)) =
  if pathMode =? 0 then ES_EVENT_TYPE_NOTIFY_CREATE else ES_EVENT_TYPE_NOTIFY_WRITE.
Proof. unfold CreateFileOpen_event. destruct (pathMode =? 0); reflexivity. Qed.

(** The helpers generated by [GEN_FN_DEF] and the wrappers that pass
    [get_errno_from_result] as the error of the report send the errno of the
    real call when it failed and [0] when it succeeded, whatever errno was
    before the call. *)
Lemma forwarded_report_carries_real_errno (name : string) (report : AccessReportGroup)
    (check : AccessCheckResult) (error_val : Z) (args : list Arg) (w : World)
    (r e : Z) (k : KState) :
  resolved name = true ->
  real_impl name args (kernel w) (errno w) = Some (r, e, k) ->
  (IsEnabled w && ShouldDenyAccess check && IsFailingUnexpectedAccesses = false ->
   sent (trace (final (check_fwd_and_report name report check error_val args w))) =
   sent (trace w) ++ [SetErrno (if r =? error_val then e else 0) report]) /\
  sent (trace (final (fwd_and_report name report error_val args w))) =
  sent (trace w) ++ [SetErrno (if r =? error_val then e else 0) report].
Proof.
  intros Hres Hreal. split.
  - intros Hdeny.
    rewrite (check_fwd_and_report_forward _ _ _ _ _ _ _ _ _ Hdeny Hres Hreal).
    simpl. rewrite !sent_app. simpl. rewrite app_nil_r. reflexivity.
  - rewrite (fwd_and_report_forward _ _ _ _ _ _ _ _ Hres Hreal).
    simpl. rewrite !sent_app. simpl. rewrite app_nil_r. reflexivity.
Qed.

(** [__lxstat] hands the errno of the real call to [report_access]. *)
Lemma lxstat_report (__ver : Z) (pathname : option string) (buf : Z) (w : World)
    (r e : Z) (k : KState) (check : AccessCheckResult) (report : AccessReportGroup) (c : PState) :
  resolved "__lxstat" = true ->
  real_impl "__lxstat" [AInt __ver; AStr pathname; APtr buf] (kernel w) (errno w)
    = Some (r, e, k) ->
  policy "__lxstat"
         (ReqPath ES_EVENT_TYPE_NOTIFY_STAT pathname 0 O_NOFOLLOW) true k (fdTable w) (cache w)
    = (check, report, c) ->
  sent (trace (final (__lxstat __ver pathname buf w))) =
  sent (trace w) ++ [SetErrno (if r =? -1 then e else 0) report].
Proof.
  intros Hres Hreal Hpol. unfold __lxstat.
  rewrite (bind_ret _ _ _ _ _ (fwd_returns _ _ _ _ _ _ Hres Hreal)).
  unfold report_access_path, report_access.
  unfold bind at 1. unfold bind at 1.
  erewrite create_access_steps by exact Hpol.
  simpl. rewrite !sent_app. simpl. rewrite !app_nil_r. reflexivity.
Qed.

(** [__xstat] hands it to the [oflags] parameter instead: the report is
    always sent with error [0]. *)
Lemma xstat_report (__ver : Z) (pathname : option string) (buf : Z) (w : World)
    (r e : Z) (k : KState) (check : AccessCheckResult) (report : AccessReportGroup) (c : PState) :
  resolved "__xstat" = true ->
  real_impl "__xstat" [AInt __ver; AStr pathname; APtr buf] (kernel w) (errno w)
    = Some (r, e, k) ->
  policy "__xstat"
         (ReqPath ES_EVENT_TYPE_NOTIFY_STAT pathname 0 (if r =? -1 then e else 0)) true
         k (fdTable w) (cache w)
    = (check, report, c) ->
  sent (trace (final (__xstat __ver pathname buf w))) = sent (trace w) ++ [SetErrno 0 report].
Proof.
  intros Hres Hreal Hpol. unfold __xstat.
  rewrite (bind_ret _ _ _ _ _ (fwd_returns _ _ _ _ _ _ Hres Hreal)).
  unfold report_access_path, report_access.
  unfold bind at 1. unfold bind at 1.
  erewrite create_access_steps by exact Hpol.
  simpl. rewrite !sent_app. simpl. rewrite !app_nil_r. reflexivity.
Qed.

(** ** The environment of a forwarded exec *)

(** The wrappers that end in [fwd_execve] pass [ensureEnvs(envp)]. *)
Lemma exec_path_environment (syscallName : string) (file : option string)
    (argv envp : list string) (mode : Z) (w : World) :
  is_statically_linked (kernel w) (cache w) (path_of file) = false ->
  resolved "execve" = true ->
  exists a rest,
    trace (final (exec_path syscallName file argv envp mode w)) = trace w ++ a :: rest /\
    exec_environment (environ w) a = Some (ensureEnvs envp).
Proof.
  intros Hstatic Hres. unfold exec_path.
  unfold bind at 1. unfold check_and_report_statically_linked_process. rewrite Hstatic.
  unfold fwd, real. unfold bind at 1. unfold bind at 1. rewrite Hres.
  destruct (real_impl "execve" [AStr file; AVec argv; AVec (ensureEnvs envp)]
                      (kernel w) (errno w)) as [[[r e] k]|].
  - exists (AReal "execve" [AStr file; AVec argv; AVec (ensureEnvs envp)] (Some (r, e))).
    unfold report_exec, report_access, create_access, SendReport, restore, result_t_of, bind.
    simpl. destruct (policy _ _ _ _ _ _) as [[ck rp] c]. simpl.
    eexists. split; [|reflexivity]. rewrite <- !app_assoc. reflexivity.
  - exists (AReal "execve" [AStr file; AVec argv; AVec (ensureEnvs envp)] None), [].
    split; reflexivity.
Qed.

(** [execlp], when the user-space PATH search fails, forwards to the real
    [execvp] with [file] and [argv] only: the new image starts from the
    process environment as it is. *)
Lemma execlp_fallback_environment (file : option string) (arg : string) (args : list string)
    (w : World) :
  (get_variadic_argc args =? -1) = false ->
  resolve_filename_with_env (kernel w) (environ w) file = None ->
  resolved "execvp" = true ->
  exists res rest,
    trace (final (execlp file arg args w)) =
      trace w ++ AReal "execvp" [AStr file; AVec (arg :: args)] res :: rest /\
    exec_environment (environ w) (AReal "execvp" [AStr file; AVec (arg :: args)] res)
      = Some (environ w).
Proof.
  intros Hargc Hsearch Hres. unfold execlp. rewrite Hargc, Hsearch.
  unfold fwd, real. unfold bind at 1. unfold bind at 1. rewrite Hres.
  destruct (real_impl "execvp" [AStr file; AVec (arg :: args)] (kernel w) (errno w))
    as [[[r e] k]|].
  - exists (Some (r, e)).
    unfold report_exec, report_access, create_access, SendReport, restore, result_t_of, bind.
    simpl. destruct (policy _ _ _ _ _ _) as [[ck rp] c]. simpl.
    eexists. split; [|reflexivity]. rewrite <- !app_assoc. reflexivity.
  - exists None, []. split; reflexivity.
Qed.

End Properties.

(** * The properties on concrete processes *)

(** ** Denied calls (C1) *)

Lemma denied_call_is_short_circuited_witness :
  IsEnabled (Scenario.world Scenario.denying 100 0 []) = true /\
  ShouldDenyAccess Scenario.deny = true /\
  @IsFailingUnexpectedAccesses (Scenario.platform Scenario.denying) = true /\
  exists w',
    check_fwd_and_report "unlink" Scenario.passwd_report Scenario.deny ERROR_RETURN_VALUE
      Scenario.passwd (Scenario.world Scenario.denying 100 0 []) = Ret ERROR_RETURN_VALUE w' /\
    errno w' = EPERM /\
    trace w' = trace (Scenario.world Scenario.denying 100 0 []) ++
               [ASend (SetErrno EPERM Scenario.passwd_report)] /\
    real_calls (trace w') = real_calls (trace (Scenario.world Scenario.denying 100 0 [])) /\
    group_errno_is EPERM (SetErrno EPERM Scenario.passwd_report) /\
    kernel w' = kernel (Scenario.world Scenario.denying 100 0 []).
Proof.
  split; [reflexivity|]. split; [reflexivity|]. split; [reflexivity|].
  apply (denied_call_is_short_circuited (P := Scenario.platform Scenario.denying));
    reflexivity.
Defined.

(** C1 as stated, without the observer being enabled, fails: in a child
    that broke away the check says deny and the policy fails unexpected
    accesses, yet the real [unlink] is called, the report carries errno 0
    and the call returns 0. *)
Lemma denied_check_is_forwarded_when_observer_is_disabled :
  ShouldDenyAccess Scenario.deny = true /\
  @IsFailingUnexpectedAccesses (Scenario.platform Scenario.breakaway_child) = true /\
  check_fwd_and_report "unlink" Scenario.passwd_report Scenario.deny ERROR_RETURN_VALUE
    Scenario.passwd (Scenario.world Scenario.breakaway_child 101 0 []) =
  Ret 0 (@mkWorld (Scenario.platform Scenario.breakaway_child) 0 [] ∅ 101 0%nat
           [AReal "unlink" Scenario.passwd (Some (0, 0));
            ASend (SetErrno 0 Scenario.passwd_report)]) /\
  ~ (exists w',
       check_fwd_and_report "unlink" Scenario.passwd_report Scenario.deny ERROR_RETURN_VALUE
         Scenario.passwd (Scenario.world Scenario.breakaway_child 101 0 []) =
       Ret ERROR_RETURN_VALUE w' /\ errno w' = EPERM).
Proof.
  split; [reflexivity|]. split; [reflexivity|]. split; [reflexivity|].
  intros (w' & Hrun & _). vm_compute in Hrun. discriminate.
Qed.

(** ** The errno of a forwarded call (C2, C7) *)

(** C2 at its failing input: [__xstat] of a missing file. The real call
    returns -1 with [ENOENT]; the wrapper returns -1 with [ENOENT], but
    [ENOENT] went to the access check as its [oflags], and the report is
    sent with error 0. *)
Theorem xstat_failure_is_reported_without_errno :
  returned (__xstat 1 (Some "/missing") 0 (Scenario.world Scenario.failing 100 0 [])) =
    Some (-1) /\
  errno (final (__xstat 1 (Some "/missing") 0 (Scenario.world Scenario.failing 100 0 []))) =
    ENOENT /\
  trace (final (__xstat 1 (Some "/missing") 0 (Scenario.world Scenario.failing 100 0 []))) =
    [AReal "__xstat" [AInt 1; AStr (Some "/missing"); APtr 0] (Some (-1, ENOENT));
     ACheck "__xstat" (ReqPath ES_EVENT_TYPE_NOTIFY_STAT (Some "/missing") 0 ENOENT) true
            (mkCheck Allow true)
            (mkGroup [mkReport 100 1 0 0 0 8 "/missing" 0]);
     ASend (mkGroup [mkReport 100 1 0 0 0 8 "/missing" 0])] /\
  group_errno_is 0 (mkGroup [mkReport 100 1 0 0 0 8 "/missing" 0]) /\
  ~ group_errno_is ENOENT (mkGroup [mkReport 100 1 0 0 0 8 "/missing" 0]).
Proof.
  split; [reflexivity|]. split; [reflexivity|]. split; [reflexivity|]. split.
  - repeat constructor.
  - intros H. inversion H as [|x l Hx Hl]; subst. discriminate Hx.
Qed.

(** The sibling [__lxstat] on the same input reports [ENOENT]. *)
Example lxstat_failure_is_reported_with_errno :
  sent (trace (final (__lxstat 1 (Some "/missing") 0
                        (Scenario.world Scenario.failing 100 0 [])))) =
  [mkGroup [mkReport 100 1 0 0 ENOENT 8 "/missing" 0]].
Proof. reflexivity. Qed.

Lemma forwarded_call_keeps_real_errno_witness :
  resolved (Platform := Scenario.platform Scenario.noisy_success) "open" = true /\
  real_impl (Platform := Scenario.platform Scenario.noisy_success) "open"
    [AStr (Some "/work/in.txt"); AInt O_RDONLY; AInt 0] 100 0 = Some (3, ENOENT, 100) /\
  IsEnabled (Scenario.world Scenario.noisy_success 100 0 []) &&
    ShouldDenyAccess (mkCheck Allow true) &&
    @IsFailingUnexpectedAccesses (Scenario.platform Scenario.noisy_success) = false /\
  (exists w',
     check_fwd_and_report "open" Scenario.passwd_report (mkCheck Allow true) ERROR_RETURN_VALUE
       [AStr (Some "/work/in.txt"); AInt O_RDONLY; AInt 0]
       (Scenario.world Scenario.noisy_success 100 0 []) = Ret 3 w' /\
     errno w' = ENOENT).
Proof.
  split; [reflexivity|]. split; [reflexivity|]. split; [reflexivity|].
  destruct (forwarded_call_keeps_real_errno (P := Scenario.platform Scenario.noisy_success)
              "open" Scenario.passwd_report (mkCheck Allow true) ERROR_RETURN_VALUE
              [AStr (Some "/work/in.txt"); AInt O_RDONLY; AInt 0]
              (Scenario.world Scenario.noisy_success 100 0 []) 3 ENOENT 100
              eq_refl eq_refl) as [Hchecked _].
  apply Hchecked. reflexivity.
Defined.

(** C7 as stated fails: [open] succeeds (it returns descriptor 3, not the
    error value) while the real call left [ENOENT] in errno; errno was 0
    before the call and is [ENOENT] after it. *)
Lemma successful_call_does_not_restore_pre_call_errno :
  errno (Scenario.world Scenario.noisy_success 100 0 []) = 0 /\
  returned (open (Some "/work/in.txt") O_RDONLY 0
              (Scenario.world Scenario.noisy_success 100 0 [])) = Some 3 /\
  3 <> ERROR_RETURN_VALUE /\
  errno (final (open (Some "/work/in.txt") O_RDONLY 0
                  (Scenario.world Scenario.noisy_success 100 0 []))) = ENOENT /\
  errno (final (open (Some "/work/in.txt") O_RDONLY 0
                  (Scenario.world Scenario.noisy_success 100 0 []))) <>
  errno (Scenario.world Scenario.noisy_success 100 0 []).
Proof.
  split; [reflexivity|]. split; [reflexivity|]. split; [discriminate|].
  split; [reflexivity|]. discriminate.
Qed.

(** ** Unresolved handles (C8) *)

Lemma unresolved_handle_is_called_witness :
  resolved (Platform := Scenario.platform Scenario.statx_missing) "statx" = false /\
  fwd "statx" [AInt AT_FDCWD; AStr (Some "/work/in.txt"); AInt 0; AInt 0; APtr 0]
      (Scenario.world Scenario.statx_missing 100 0 []) =
  Stop (NullCall "statx") (Scenario.world Scenario.statx_missing 100 0 []).
Proof.
  split; [reflexivity|].
  apply (unresolved_handle_is_called (P := Scenario.platform Scenario.statx_missing)
           "statx" Scenario.passwd_report (mkCheck Allow true) ERROR_RETURN_VALUE
           [AInt AT_FDCWD; AStr (Some "/work/in.txt"); AInt 0; AInt 0; APtr 0]
           (Scenario.world Scenario.statx_missing 100 0 [])).
  reflexivity.
Defined.

(** C8 as stated fails: with [statx] unresolved, the wrapper makes the
    access check and then calls through the null handle. It does not return
    -1, errno is still 0 (not [ENOSYS]) and no report has been sent. *)
Lemma unresolved_statx_neither_returns_nor_reports :
  resolved (Platform := Scenario.platform Scenario.statx_missing) "statx" = false /\
  returned (statx AT_FDCWD (Some "/work/in.txt") 0 0 0
              (Scenario.world Scenario.statx_missing 100 0 [])) = None /\
  errno (final (statx AT_FDCWD (Some "/work/in.txt") 0 0 0
                  (Scenario.world Scenario.statx_missing 100 0 []))) = 0 /\
  sent (trace (final (statx AT_FDCWD (Some "/work/in.txt") 0 0 0
                        (Scenario.world Scenario.statx_missing 100 0 [])))) = [] /\
  ~ (exists w',
       statx AT_FDCWD (Some "/work/in.txt") 0 0 0
             (Scenario.world Scenario.statx_missing 100 0 []) = Ret (-1) w' /\
       errno w' = ENOSYS).
Proof.
  split; [reflexivity|]. split; [reflexivity|]. split; [reflexivity|].
  split; [reflexivity|].
  intros (w' & Hrun & _). vm_compute in Hrun. discriminate.
Qed.

(** ** The environment of an exec (C6) *)

(** C6 at its failing input: [execlp("tool", "tool", "--version", NULL)] in
    a process whose environment has no [LD_PRELOAD], when the user-space
    PATH search finds nothing. The forwarded call is the real [execvp],
    which takes no environment; the new image starts from the process
    environment, in which [LD_PRELOAD] does not name the sandbox library,
    although [ensureEnvs] of that environment would. *)
Theorem execlp_fallback_forwards_unpatched_environment :
  trace (final (execlp (Some "tool") "tool" ["--version"]
                  (Scenario.world Scenario.unresolved_exec 100 0 Scenario.bare_environment))) =
    [AReal "execvp" [AStr (Some "tool"); AVec ["tool"; "--version"]] None] /\
  exec_environment Scenario.bare_environment
    (AReal "execvp" [AStr (Some "tool"); AVec ["tool"; "--version"]] None) =
    Some Scenario.bare_environment /\
  ld_preload_contains Scenario.lib Scenario.bare_environment = false /\
  ld_preload_contains Scenario.lib
    (ensureEnvs (Platform := Scenario.platform Scenario.unresolved_exec)
       Scenario.bare_environment) = true.
Proof. repeat split; reflexivity. Qed.

(** The sibling [execvp] on the same input forwards the patched
    environment. *)
Example execvp_fallback_forwards_patched_environment :
  trace (final (execvp (Some "tool") ["tool"; "--version"]
                  (Scenario.world Scenario.unresolved_exec 100 0 Scenario.bare_environment))) =
    [AReal "execvpe" [AStr (Some "tool"); AVec ["tool"; "--version"];
                      AVec ["LD_PRELOAD=/opt/bxl/libDetours.so"; "PATH=/usr/bin"]] None].
Proof. reflexivity. Qed.

(** ** Wrappers that do not report (C9, C10) *)

Lemma empty_path_unlink_is_forwarded_unreported_witness :
  resolved (Platform := Scenario.platform Scenario.failing) "unlink" = true /\
  real_impl (Platform := Scenario.platform Scenario.failing) "unlink" [AStr (Some "")] 100 0
    = Some (-1, ENOENT, 100) /\
  exists w',
    unlink (Some "") (Scenario.world Scenario.failing 100 0 []) = Ret (-1) w' /\
    trace w' = trace (Scenario.world Scenario.failing 100 0 []) ++
               [AReal "unlink" [AStr (Some "")] (Some (-1, ENOENT))] /\
    checked (trace w') = checked (trace (Scenario.world Scenario.failing 100 0 [])) /\
    sent (trace w') = sent (trace (Scenario.world Scenario.failing 100 0 [])) /\
    cache w' = cache (Scenario.world Scenario.failing 100 0 []) /\
    errno w' = ENOENT.
Proof.
  split; [reflexivity|]. split; [reflexivity|].
  destruct (empty_path_unlink_is_forwarded_unreported
              (P := Scenario.platform Scenario.failing) 0
              (Scenario.world Scenario.failing 100 0 [])) as [Hunlink _].
  apply (Hunlink (-1) ENOENT 100); reflexivity.
Defined.

(** [denying] denies the write to descriptor 1 and fails unexpected
    accesses; [printf] is forwarded all the same. *)
Lemma printf_family_is_never_denied_witness :
  IsEnabled (Scenario.world Scenario.denying 100 0 []) &&
    ShouldDenyAccess Scenario.deny &&
    @IsFailingUnexpectedAccesses (Scenario.platform Scenario.denying) = true /\
  policy (Platform := Scenario.platform Scenario.denying) "vprintf"
         (ReqFd ES_EVENT_TYPE_NOTIFY_WRITE 1) true 100 ∅ 0%nat =
    (Scenario.deny, Scenario.group_of 100 Deny (ReqFd ES_EVENT_TYPE_NOTIFY_WRITE 1), 1%nat) /\
  exists w',
    printf (Some "%d") 0 (Scenario.world Scenario.denying 100 0 []) = Ret 0 w' /\
    trace w' = trace (Scenario.world Scenario.denying 100 0 []) ++
               [ACheck "vprintf" (ReqFd ES_EVENT_TYPE_NOTIFY_WRITE 1) true Scenario.deny
                       (Scenario.group_of 100 Deny (ReqFd ES_EVENT_TYPE_NOTIFY_WRITE 1));
                AReal "vprintf" [AStr (Some "%d"); APtr 0] (Some (0, 0))] /\
    sent (trace w') = sent (trace (Scenario.world Scenario.denying 100 0 [])) /\
    errno w' = 0.
Proof.
  split; [reflexivity|]. split; [reflexivity|].
  destruct (printf_family_is_never_denied
              (P := Scenario.platform Scenario.denying) 0 (Some "%d") 0
              (Scenario.world Scenario.denying 100 0 [])
              Scenario.deny
              (Scenario.group_of 100 Deny (ReqFd ES_EVENT_TYPE_NOTIFY_WRITE 1)) 1%nat
              0 0 100) as [Hprintf _].
  apply (Hprintf eq_refl eq_refl eq_refl printf). right. reflexivity.
Defined.

(** ** [rename] of a directory *)

(** The rename of [/d1] (holding [a]) to [/d2], everything allowed: four
    checks, one real call, then the four reports. *)
Example rename_allowed_directory :
  checked (trace (final (rename (Some "/d1") (Some "/d2")
                           (Scenario.world (Scenario.tree Scenario.allow_all) 100 7 [])))) =
    [ReqPath ES_EVENT_TYPE_NOTIFY_UNLINK (Some "/d1") 0 O_NOFOLLOW;
     ReqEvent (CreateFileOpen_event (P := Scenario.platform (Scenario.tree Scenario.allow_all))
                 0 "/d2" (Z.lor O_CREAT O_WRONLY));
     ReqPath ES_EVENT_TYPE_NOTIFY_UNLINK (Some "/d1/a") 0 O_NOFOLLOW;
     ReqEvent (CreateFileOpen_event (P := Scenario.platform (Scenario.tree Scenario.allow_all))
                 0 "/d2/a" (Z.lor O_CREAT O_WRONLY))] /\
  real_calls (trace (final (rename (Some "/d1") (Some "/d2")
                              (Scenario.world (Scenario.tree Scenario.allow_all) 100 7 [])))) =
    [("renameat", Scenario.d1_d2)] /\
  map (fun g => map rep_path (group_reports g))
      (sent (trace (final (rename (Some "/d1") (Some "/d2")
                             (Scenario.world (Scenario.tree Scenario.allow_all) 100 7 []))))) =
    [["/d1"]; ["/d2"]; ["/d1/a"]; ["/d2/a"]].
Proof. repeat split; reflexivity. Qed.

(** The same rename when the creation of [/d2/a] is denied: no real call,
    and the one report sent is the one of [/d2/a]. *)
Example rename_denied_directory :
  real_calls (trace (final (rename (Some "/d1") (Some "/d2")
                              (Scenario.world (Scenario.tree Scenario.deny_d2_a) 100 7 [])))) =
    [] /\
  sent (trace (final (rename (Some "/d1") (Some "/d2")
                        (Scenario.world (Scenario.tree Scenario.deny_d2_a) 100 7 [])))) =
    [targetReport (Scenario.answers Scenario.deny_d2_a "/d1/a" "/d2/a")] /\
  returned (rename (Some "/d1") (Some "/d2")
              (Scenario.world (Scenario.tree Scenario.deny_d2_a) 100 7 [])) = Some (-1) /\
  errno (final (rename (Some "/d1") (Some "/d2")
                  (Scenario.world (Scenario.tree Scenario.deny_d2_a) 100 7 []))) = EPERM.
Proof. repeat split; reflexivity. Qed.

(** ** The open policy (C3) *)

Example open_policy_kinds :
  open_event_kind_spec false (Z.lor O_WRONLY O_CREAT) = ES_EVENT_TYPE_NOTIFY_CREATE /\
  open_event_kind_spec false (Z.lor O_RDONLY O_TRUNC) = ES_EVENT_TYPE_NOTIFY_CREATE /\
  open_event_kind_spec true (Z.lor O_WRONLY O_TRUNC) = ES_EVENT_TYPE_NOTIFY_WRITE /\
  open_event_kind_spec true (Z.lor O_RDWR O_CREAT) = ES_EVENT_TYPE_NOTIFY_WRITE /\
  open_event_kind_spec true (Z.lor O_RDONLY O_TRUNC) = ES_EVENT_TYPE_NOTIFY_OPEN /\
  open_event_kind_spec true O_WRONLY = ES_EVENT_TYPE_NOTIFY_OPEN /\
  open_event_kind_spec false O_RDONLY = ES_EVENT_TYPE_NOTIFY_OPEN.
Proof. repeat split; reflexivity. Qed.

(** The second end-to-end scenario of the specification: a denied
    [open("/etc/passwd", O_WRONLY|O_TRUNC)] of an existing file is a WRITE,
    reported with errno [EPERM]; the call returns -1 with errno [EPERM]. *)
Example denied_write_scenario :
  checked (trace (final (open (Some "/d1/a") (Z.lor O_WRONLY O_TRUNC) 0
                           (Scenario.world (Scenario.tree Scenario.deny_all) 100 0 [])))) =
    [ReqEvent (mkIOEvent None None None ES_EVENT_TYPE_NOTIFY_WRITE ES_ACTION_TYPE_NOTIFY
                 "/d1/a" "" "/usr/bin/tool" (S_IFREG + 420) false)] /\
  map (fun g => map rep_error (group_reports g))
      (sent (trace (final (open (Some "/d1/a") (Z.lor O_WRONLY O_TRUNC) 0
                             (Scenario.world (Scenario.tree Scenario.deny_all) 100 0 []))))) =
    [[EPERM]] /\
  returned (open (Some "/d1/a") (Z.lor O_WRONLY O_TRUNC) 0
              (Scenario.world (Scenario.tree Scenario.deny_all) 100 0 [])) = Some (-1) /\
  errno (final (open (Some "/d1/a") (Z.lor O_WRONLY O_TRUNC) 0
                  (Scenario.world (Scenario.tree Scenario.deny_all) 100 0 []))) = EPERM.
Proof. repeat split; reflexivity. Qed.

(** * Further properties of the wrappers *)

Section MoreProperties.
Context {P : Platform}.

(** ** [get_event_from_open_mode] *)

Lemma has_write_mode_chars (m : string) :
  has_write_mode m = true <->
  exists c, In c (chars m) /\ (c = "a" \/ c = "w" \/ c = "+")%char.
Proof.
  induction m as [|c rest IH]; simpl.
  - split; [discriminate | intros (c & [] & _)].
  - destruct (Ascii.eqb_spec c "a"%char) as [-> | Ha]; simpl.
    { split; [intros _; exists "a"%char; auto | reflexivity]. }
    destruct (Ascii.eqb_spec c "w"%char) as [-> | Hw]; simpl.
    { split; [intros _; exists "w"%char; auto | reflexivity]. }
    destruct (Ascii.eqb_spec c "+"%char) as [-> | Hp]; simpl.
    { split; [intros _; exists "+"%char; auto | reflexivity]. }
    rewrite IH. split.
    + intros (x & Hin & Hx). exists x. auto.
    + intros (x & [<- | Hin] & Hx); [|exists x; auto].
      destruct Hx as [-> | [-> | ->]]; congruence.
Qed.

(** An [fopen]-style mode string is a write exactly when it is non-null and
    holds an ['a'], a ['w'] or a ['+'] anywhere; every other mode, the null
    pointer and the empty string included, is an open. *)
Theorem open_mode_is_write_iff_it_has_a_w_or_plus (mode : option string) :
  (get_event_from_open_mode mode = ES_EVENT_TYPE_NOTIFY_WRITE <->
   exists m, mode = Some m /\
             exists c, In c (chars m) /\ (c = "a" \/ c = "w" \/ c = "+")%char) /\
  (get_event_from_open_mode mode <> ES_EVENT_TYPE_NOTIFY_WRITE <->
   get_event_from_open_mode mode = ES_EVENT_TYPE_NOTIFY_OPEN).
Proof.
  destruct mode as [m|]; simpl.
  - destruct (has_write_mode m) eqn:Hm; split; split; try congruence.
    + intros _. exists m. split; [reflexivity|]. apply has_write_mode_chars, Hm.
    + intros (m' & [= <-] & Hc). apply has_write_mode_chars in Hc. congruence.
  - split; split; try congruence. intros (m & [=] & _).
Qed.

(** ** [check_fwd_and_report] *)

(** Whatever the check, the handle and the real call do, a returning
    [check_fwd_and_report] has added to the trace either its report alone
    (the denied call, which returns the error value) or one real call
    followed by its report, never a report before the call; and when it does
    not return, it has sent nothing. *)
Theorem check_fwd_and_report_reports_once_after_the_call
    (name : string) (report : AccessReportGroup) (check : AccessCheckResult)
    (error_val : Z) (args : list Arg) (w : World) :
  match check_fwd_and_report name report check error_val args w with
  | Ret r w' =>
      (r = error_val /\ trace w' = trace w ++ [ASend (SetErrno EPERM report)]) \/
      (exists e, trace w' = trace w ++
                            [AReal name args (Some (r, e));
                             ASend (SetErrno (if r =? error_val then e else 0) report)])
  | Stop h w' =>
      sent (trace w') = sent (trace w) /\ (h = NullCall name \/ h = NoReturn name)
  end.
Proof.
  unfold check_fwd_and_report, bind. rewrite should_deny_eq.
  destruct (IsEnabled w && ShouldDenyAccess check && IsFailingUnexpectedAccesses).
  - unfold ret, result_t_with, get, get_errno. simpl. rewrite Z.eqb_refl.
    left. split; reflexivity.
  - unfold fwd, bind, real. destruct (resolved name).
    + destruct (real_impl name args (kernel w) (errno w)) as [[[r e] k]|]; simpl.
      * right. exists e. rewrite <- app_assoc. reflexivity.
      * split; [|right; reflexivity]. rewrite sent_app. simpl. apply app_nil_r.
    + simpl. split; [reflexivity | left; reflexivity].
Qed.

(** When the real call returns the error value without touching errno (the
    end of a directory for [readdir], which returns a null pointer; an empty
    read for [fread]), the report carries the errno the guest had before the
    call. *)
Theorem sentinel_without_error_reports_the_errno_before_the_call
    (dirp : Z) (w : World) (check : AccessCheckResult) (report : AccessReportGroup)
    (c : PState) (k : KState) :
  policy "readdir" (ReqFd ES_EVENT_TYPE_NOTIFY_READDIR (dirfd (kernel w) dirp)) true
         (kernel w) (fdTable w) (cache w) = (check, report, c) ->
  IsEnabled w && ShouldDenyAccess check && IsFailingUnexpectedAccesses = false ->
  resolved "readdir" = true ->
  real_impl "readdir" [APtr dirp] (kernel w) (errno w) = Some (0, errno w, k) ->
  exists w',
    readdir dirp w = Ret 0 w' /\
    errno w' = errno w /\
    sent (trace w') = sent (trace w) ++ [SetErrno (errno w) report].
Proof.
  intros Hpol Hdeny Hres Hreal. unfold readdir.
  erewrite bind_ret by (apply create_access_steps; exact Hpol).
  cbv beta iota.
  erewrite check_fwd_and_report_forward; [|exact Hdeny|exact Hres|exact Hreal].
  eexists. split; [reflexivity|]. split; [reflexivity|].
  simpl. rewrite !sent_app. simpl. rewrite !app_nil_r. reflexivity.
Qed.

(** ** Wrappers that forward before they report *)

Lemma forward_then_report_steps (name : string) (args : list Arg) (req : AccessRequest)
    (w : World) (r e : Z) (k : KState)
    (check : AccessCheckResult) (report : AccessReportGroup) (c : PState) :
  resolved name = true ->
  real_impl name args (kernel w) (errno w) = Some (r, e, k) ->
  policy name req true k (fdTable w) (cache w) = (check, report, c) ->
  forward_then_report name args req w =
    Ret r (set_errno e
             (log (ASend (SetErrno (if r =? -1 then e else 0) report))
                (log (ACheck name req true check report)
                   (set_cache c
                      (log (AReal name args (Some (r, e))) (set_kernel k w)))))).
Proof.
  intros Hres Hreal Hpol. unfold forward_then_report.
  rewrite (bind_ret _ _ _ _ _ (fwd_returns _ _ _ _ _ _ Hres Hreal)).
  unfold report_access. unfold bind at 1. unfold bind at 1.
  erewrite create_access_steps by exact Hpol.
  reflexivity.
Qed.

(** The [stat] family ([stat], [lstat], [fstat], [__lxstat], [__fxstat],
    [__fxstatat]) is never denied: the real call is made first, whatever the
    policy will answer; only then is the access checked, and the report is
    sent with the errno of the call when it returned -1 and with 0
    otherwise. The wrapper returns the result and the errno of the real
    call. *)
Theorem stat_family_forwards_then_reports
    (wrapper : M Z) (name : string) (args : list Arg) (req : AccessRequest)
    (w : World) (r e : Z) (k : KState)
    (check : AccessCheckResult) (report : AccessReportGroup) (c : PState) :
  (exists pathname statbuf,
     wrapper = stat pathname statbuf /\ name = "stat" /\
     args = [AStr pathname; APtr statbuf] /\
     req = ReqPath ES_EVENT_TYPE_NOTIFY_STAT pathname 0 O_NOFOLLOW) \/
  (exists pathname statbuf,
     wrapper = lstat pathname statbuf /\ name = "lstat" /\
     args = [AStr pathname; APtr statbuf] /\
     req = ReqPath ES_EVENT_TYPE_NOTIFY_STAT pathname 0 O_NOFOLLOW) \/
  (exists fd statbuf,
     wrapper = fstat fd statbuf /\ name = "fstat" /\
     args = [AInt fd; APtr statbuf] /\
     req = ReqFd ES_EVENT_TYPE_NOTIFY_STAT fd) \/
  (exists ver pathname buf,
     wrapper = __lxstat ver pathname buf /\ name = "__lxstat" /\
     args = [AInt ver; AStr pathname; APtr buf] /\
     req = ReqPath ES_EVENT_TYPE_NOTIFY_STAT pathname 0 O_NOFOLLOW) \/
  (exists ver fd buf,
     wrapper = __fxstat ver fd buf /\ name = "__fxstat" /\
     args = [AInt ver; AInt fd; APtr buf] /\
     req = ReqFd ES_EVENT_TYPE_NOTIFY_STAT fd) \/
  (exists ver fd pathname buf flag,
     wrapper = __fxstatat ver fd pathname buf flag /\ name = "__fxstatat" /\
     args = [AInt ver; AInt fd; AStr pathname; APtr buf; AInt flag] /\
     req = ReqAt ES_EVENT_TYPE_NOTIFY_STAT fd pathname 0) ->
  resolved name = true ->
  real_impl name args (kernel w) (errno w) = Some (r, e, k) ->
  policy name req true k (fdTable w) (cache w) = (check, report, c) ->
  exists w',
    wrapper w = Ret r w' /\
    errno w' = e /\
    trace w' = trace w ++
               [AReal name args (Some (r, e));
                ACheck name req true check report;
                ASend (SetErrno (if r =? -1 then e else 0) report)].
Proof.
  intros Hwhich Hres Hreal Hpol.
  assert (Heq : wrapper = forward_then_report name args req).
  { destruct Hwhich as [(p & s & -> & -> & -> & ->) |
                        [(p & s & -> & -> & -> & ->) |
                         [(f & s & -> & -> & -> & ->) |
                          [(v & p & b & -> & -> & -> & ->) |
                           [(v & f & b & -> & -> & -> & ->) |
                            (v & f & p & b & fl & -> & -> & -> & ->)]]]]]; reflexivity. }
  rewrite Heq, (forward_then_report_steps _ _ _ _ _ _ _ _ _ _ Hres Hreal Hpol).
  eexists. split; [reflexivity|]. split; [reflexivity|].
  simpl. rewrite <- !app_assoc. reflexivity.
Qed.

(** [vdprintf] and [dprintf] build a WRITE check for the descriptor and drop
    its answer: the real [vdprintf] is always called, and its report is sent
    afterwards with the errno of the call when it returned -1 and 0
    otherwise. *)
Theorem dprintf_is_reported_but_never_denied
    (fd : Z) (fmt : option string) (args : Z) (w : World)
    (check : AccessCheckResult) (report : AccessReportGroup) (c : PState)
    (r e : Z) (k : KState) :
  policy "vdprintf" (ReqFd ES_EVENT_TYPE_NOTIFY_WRITE fd) true (kernel w) (fdTable w) (cache w)
    = (check, report, c) ->
  resolved "vdprintf" = true ->
  real_impl "vdprintf" [AInt fd; AStr fmt; APtr args] (kernel w) (errno w) = Some (r, e, k) ->
  forall wrapper, wrapper = vdprintf \/ wrapper = dprintf ->
  exists w',
    wrapper fd fmt args w = Ret r w' /\
    errno w' = e /\
    trace w' = trace w ++
               [ACheck "vdprintf" (ReqFd ES_EVENT_TYPE_NOTIFY_WRITE fd) true check report;
                AReal "vdprintf" [AInt fd; AStr fmt; APtr args] (Some (r, e));
                ASend (SetErrno (if r =? -1 then e else 0) report)].
Proof.
  intros Hpol Hres Hreal wrapper Hw.
  assert (Hv : vdprintf fd fmt args w =
               Ret r (set_errno e
                        (log (ASend (SetErrno (if r =? -1 then e else 0) report))
                           (log (AReal "vdprintf" [AInt fd; AStr fmt; APtr args] (Some (r, e)))
                              (set_kernel k
                                 (log (ACheck "vdprintf" (ReqFd ES_EVENT_TYPE_NOTIFY_WRITE fd)
                                              true check report)
                                    (set_cache c w))))))).
  { unfold vdprintf.
    erewrite bind_ret by (apply create_access_steps; exact Hpol).
    cbv beta iota.
    erewrite bind_ret by (apply fwd_and_report_forward; [exact Hres | exact Hreal]).
    reflexivity. }
  destruct Hw as [-> | ->]; eexists.
  - rewrite Hv. split; [reflexivity|]. split; [reflexivity|].
    simpl. rewrite <- !app_assoc. reflexivity.
  - unfold dprintf, bind. rewrite Hv.
    split; [reflexivity|]. split; [reflexivity|].
    simpl. rewrite <- !app_assoc. reflexivity.
Qed.

(** ** The exec family *)

Lemma exec_path_not_static (syscallName : string) (file : option string)
    (argv envp : list string) (mode : Z) (w : World) :
  is_statically_linked (kernel w) (cache w) (path_of file) = false ->
  exec_path syscallName file argv envp mode w =
    (let* result := fwd "execve" [AStr file; AVec argv; AVec (ensureEnvs envp)] in
     report_exec syscallName (head argv) file (get_errno result) mode >>
     restore result) w.
Proof.
  intros Hstatic. unfold exec_path. unfold bind at 1.
  unfold check_and_report_statically_linked_process. rewrite Hstatic. reflexivity.
Qed.

(** An exec of a dynamically linked target ([execve]; [execv], [execl] and
    [execle] end in the same call) is forwarded to the real [execve] before
    anything is checked. If the real call does not return (the exec
    succeeded), nothing is checked or reported. If it returns, the exec is
    checked and reported with the errno of the call, and the wrapper returns
    its result and errno. A variadic wrapper whose arguments cannot be
    counted returns -1 and does nothing else. *)
Theorem exec_is_reported_only_when_it_returns
    (syscallName : string) (file : option string) (argv envp : list string) (mode : Z)
    (w : World) :
  is_statically_linked (kernel w) (cache w) (path_of file) = false ->
  resolved "execve" = true ->
  let call := AReal "execve" [AStr file; AVec argv; AVec (ensureEnvs envp)] in
  (real_impl "execve" [AStr file; AVec argv; AVec (ensureEnvs envp)] (kernel w) (errno w)
     = None ->
   exec_path syscallName file argv envp mode w =
     Stop (NoReturn "execve") (log (call None) w)) /\
  (forall r e k check report c,
     real_impl "execve" [AStr file; AVec argv; AVec (ensureEnvs envp)] (kernel w) (errno w)
       = Some (r, e, k) ->
     policy syscallName (ReqPath ES_EVENT_TYPE_NOTIFY_EXEC file mode 0) true
            k (fdTable w) (cache w) = (check, report, c) ->
     exists w',
       exec_path syscallName file argv envp mode w = Ret r w' /\
       errno w' = e /\
       trace w' = trace w ++
                  [call (Some (r, e));
                   ACheck syscallName (ReqPath ES_EVENT_TYPE_NOTIFY_EXEC file mode 0) true
                          check report;
                   ASend (SetErrno e report)]) /\
  execve file argv envp w = exec_path "execve" file argv envp 0 w /\
  execv file argv w = exec_path "execv" file argv (environ w) 0 w /\
  (forall arg args,
     (get_variadic_argc args =? -1) = false ->
     execl file arg args w = exec_path "execl" file (arg :: args) (environ w) 0 w /\
     execle file arg args envp w = exec_path "execle" file (arg :: args) envp 0 w) /\
  (forall arg args,
     (get_variadic_argc args =? -1) = true ->
     execl file arg args w = Ret (-1) w /\
     execlp file arg args w = Ret (-1) w /\
     execle file arg args envp w = Ret (-1) w).
Proof.
  intros Hstatic Hres call. split; [|split; [|split; [|split; [|split]]]].
  - intros Hreal. rewrite (exec_path_not_static _ _ _ _ _ _ Hstatic).
    unfold bind, fwd, bind, real. rewrite Hres, Hreal. reflexivity.
  - intros r e k check report c Hreal Hpol.
    rewrite (exec_path_not_static _ _ _ _ _ _ Hstatic).
    rewrite (bind_ret _ _ _ _ _ (fwd_returns _ _ _ _ _ _ Hres Hreal)).
    unfold report_exec, report_access. unfold bind at 1. unfold bind at 1.
    erewrite create_access_steps by exact Hpol.
    eexists. split; [reflexivity|]. split; [reflexivity|].
    simpl. rewrite <- !app_assoc. reflexivity.
  - reflexivity.
  - reflexivity.
  - intros arg args Hargc. unfold execl, execle. rewrite Hargc. split; reflexivity.
  - intros arg args Hargc. unfold execl, execlp, execle. rewrite Hargc.
    repeat split; reflexivity.
Qed.

(** An exec of a statically linked target is never forwarded through libc:
    the descriptor table is cleared, the ptrace sandbox is run with the
    environment that [ensureEnvs] built and [RemoveLDPreloadFromEnv] then
    stripped, with the queue name and the manifest path of the observer, and
    afterwards an [execve] report is sent with the errno the sandbox left.
    The wrapper returns the result of the sandbox; errno is not restored, it
    is whatever the reporting channel left. *)
Theorem static_exec_is_handed_to_ptrace
    (syscallName : string) (file : option string) (argv envp : list string) (mode : Z)
    (w : World) (check : AccessCheckResult) (report : AccessReportGroup) (c : PState) :
  is_statically_linked (kernel w) (cache w) (path_of file) = true ->
  let stripped := RemoveLDPreloadFromEnv (ensureEnvs envp) in
  let result := ExecuteWithPTraceSandbox (kernel w) (path_of file) argv stripped
                  getPTraceMqName getFamPath in
  policy "execve" (ReqPath ES_EVENT_TYPE_NOTIFY_EXEC (Some (path_of file)) 0 0) true
         (kernel w) ∅ (cache w) = (check, report, c) ->
  exists w',
    exec_path syscallName file argv envp mode w = Ret (fst result) w' /\
    trace w' = trace w ++
               [AStaticallyLinked (path_of file);
                AResetFdTable;
                APTrace (path_of file) argv stripped getPTraceMqName getFamPath result;
                ACheck "execve" (ReqPath ES_EVENT_TYPE_NOTIFY_EXEC (Some (path_of file)) 0 0)
                       true check report;
                ASend (SetErrno (snd result) report)] /\
    real_calls (trace w') = real_calls (trace w) /\
    fdTable w' = ∅ /\
    errno w' = channel_errno (kernel w) (SetErrno (snd result) report) (snd result).
Proof.
  intros Hstatic stripped result Hpol. unfold exec_path. unfold bind at 1.
  unfold check_and_report_statically_linked_process. rewrite Hstatic.
  unfold handle_exec_with_ptrace, reset_fd_table.
  unfold bind at 1. unfold bind at 1. fold stripped.
  change (ExecuteWithPTraceSandbox _ (path_of file) argv stripped getPTraceMqName getFamPath)
    with result.
  destruct result as [r e] eqn:Hresult. cbv beta iota.
  unfold bind at 1. unfold report_exec, report_access. unfold bind at 1.
  erewrite create_access_steps by exact Hpol.
  eexists. split; [reflexivity|]. simpl. split; [|split; [|split]].
  - rewrite <- !app_assoc. reflexivity.
  - rewrite !real_calls_app. simpl. rewrite !app_nil_r. reflexivity.
  - reflexivity.
  - reflexivity.
Qed.

(** ** [renameat] of something that is not a directory *)

(** The source is checked as an unlink, then the destination as the open
    that creates it, and the two checks are combined. When the combination
    is denied the real call is skipped and only the destination report is
    sent, as it was built; the call returns -1 with errno [EPERM].
    Otherwise the real [renameat] is called once and both reports are sent
    after it, source first, with the errno of the call when it returned -1
    and 0 otherwise. *)
Theorem renameat_of_file (olddirfd : Z) (oldpath : option string) (newdirfd : Z)
    (newpath : option string) (w : World)
    (c1 c2 : AccessCheckResult) (g1 g2 : AccessReportGroup) (p1 p2 : PState) :
  let oldStr := normalize_path_at (kernel w) (fdTable w) olddirfd oldpath O_NOFOLLOW in
  let newStr := normalize_path_at (kernel w) (fdTable w) newdirfd newpath O_NOFOLLOW in
  let args := [AInt olddirfd; AStr oldpath; AInt newdirfd; AStr newpath] in
  let source := ReqPath ES_EVENT_TYPE_NOTIFY_UNLINK (Some oldStr) 0 O_NOFOLLOW in
  let target := ReqEvent (CreateFileOpen_event (mode_of_path w newStr) newStr
                                               (Z.lor O_CREAT O_WRONLY)) in
  let checks := [ACheck "renameat" source true c1 g1;
                 ACheck "CreateFileOpen" target true c2 g2] in
  S_ISDIR (mode_of_path w oldStr) = false ->
  policy "renameat" source true (kernel w) (fdTable w) (cache w) = (c1, g1, p1) ->
  policy "CreateFileOpen" target true (kernel w) (fdTable w) p1 = (c2, g2, p2) ->
  (IsEnabled w && ShouldDenyAccess (Combine c1 c2) && IsFailingUnexpectedAccesses = true ->
   exists w',
     renameat olddirfd oldpath newdirfd newpath w = Ret ERROR_RETURN_VALUE w' /\
     errno w' = EPERM /\
     trace w' = trace w ++ checks ++ [ASend g2]) /\
  (IsEnabled w && ShouldDenyAccess (Combine c1 c2) && IsFailingUnexpectedAccesses = false ->
   forall r e k,
     resolved "renameat" = true ->
     real_impl "renameat" args (kernel w) (errno w) = Some (r, e, k) ->
     exists w',
       renameat olddirfd oldpath newdirfd newpath w = Ret r w' /\
       errno w' = e /\
       trace w' = trace w ++ checks ++
                  [AReal "renameat" args (Some (r, e));
                   ASend (SetErrno (if r =? -1 then e else 0) g1);
                   ASend (SetErrno (if r =? -1 then e else 0) g2)]).
Proof.
  intros oldStr newStr args source target checks Hfile Hp1 Hp2.
  set (w1 := log (ACheck "renameat" source true c1 g1) (set_cache p1 w)).
  set (w2 := log (ACheck "CreateFileOpen" target true c2 g2) (set_cache p2 w1)).
  assert (Hgather : renameat olddirfd oldpath newdirfd newpath w =
                    renameat_finish args (Combine c1 c2, [g1; g2]) w2).
  { unfold renameat, normalize_path_at_, get_mode.
    unfold bind at 1 2 3. fold oldStr newStr.
    change (match lstat_mode (kernel w) oldStr with
            | Some st_mode => st_mode
            | None => 0
            end) with (mode_of_path w oldStr).
    rewrite Hfile. unfold bind at 1.
    erewrite (bind_ret (create_access "renameat" source true))
      by (apply create_access_steps; exact Hp1).
    cbv beta iota. fold w1.
    erewrite (bind_ret (CreateFileOpen newStr (Z.lor O_CREAT O_WRONLY)))
      by (apply CreateFileOpen_steps; exact Hp2).
    reflexivity. }
  split.
  - intros Hdeny. eexists. split; [|split].
    + rewrite Hgather. apply (renameat_finish_denied args (Combine c1 c2) [g1] g2 w2).
      exact Hdeny.
    + reflexivity.
    + simpl. rewrite <- !app_assoc. reflexivity.
  - intros Hdeny r e k Hres Hreal.
    destruct (renameat_finish_forward args (Combine c1 c2) [g1; g2] w2 r e k
                Hdeny Hres Hreal) as (w' & Hrun & Herr & Htr).
    exists w'. split; [|split].
    + rewrite Hgather. exact Hrun.
    + exact Herr.
    + rewrite Htr. simpl. rewrite <- !app_assoc. reflexivity.
Qed.

(** ** Wrappers that check, then forward, then report *)

Lemma check_fwd_and_report_adds_no_check (name : string) (report : AccessReportGroup)
    (check : AccessCheckResult) (error_val : Z) (args : list Arg) (w : World) :
  exists rest,
    trace (final (check_fwd_and_report name report check error_val args w)) = trace w ++ rest /\
    checked rest = [].
Proof.
  unfold check_fwd_and_report, bind. rewrite should_deny_eq.
  destruct (IsEnabled w && ShouldDenyAccess check && IsFailingUnexpectedAccesses).
  - eexists. split; [reflexivity | reflexivity].
  - unfold fwd, bind, real. destruct (resolved name).
    + destruct (real_impl name args (kernel w) (errno w)) as [[[r e] k]|]; simpl.
      * eexists. split; [rewrite <- app_assoc; reflexivity | reflexivity].
      * eexists. split; [reflexivity | reflexivity].
    + exists []. simpl. split; [symmetry; apply app_nil_r | reflexivity].
Qed.

Lemma checked_call_starts_with_its_check (syscallName : string) (req : AccessRequest)
    (checkCache : bool) (name : string) (error_val : Z) (args : list Arg) (w : World) :
  exists check report rest,
    trace (final ((let* '(check, report) := create_access syscallName req checkCache in
                   check_fwd_and_report name report check error_val args) w)) =
      trace w ++ ACheck syscallName req checkCache check report :: rest /\
    checked rest = [].
Proof.
  destruct (policy syscallName req checkCache (kernel w) (fdTable w) (cache w))
    as [[check report] c] eqn:Hpol.
  rewrite (bind_ret _ _ _ _ _ (create_access_steps _ _ _ _ _ _ _ Hpol)).
  cbv beta iota.
  destruct (check_fwd_and_report_adds_no_check name report check error_val args
              (log (ACheck syscallName req checkCache check report) (set_cache c w)))
    as (rest & Htr & Hrest).
  exists check, report, rest. split; [|exact Hrest].
  rewrite Htr. simpl. rewrite <- app_assoc. reflexivity.
Qed.

Lemma land_pow2 (a n : Z) :
  0 <= n -> truthy (Z.land a (2 ^ n)) = Z.testbit a n.
Proof.
  intros Hn. unfold truthy.
  destruct (Z.testbit a n) eqn:Hbit.
  - destruct (Z.eqb_spec (Z.land a (2 ^ n)) 0) as [Hz|]; [|reflexivity].
    assert (Hc : Z.testbit (Z.land a (2 ^ n)) n = true).
    { rewrite Z.land_spec, Hbit, Z.pow2_bits_true by lia. reflexivity. }
    rewrite Hz, Z.bits_0 in Hc. discriminate.
  - assert (Hz : Z.land a (2 ^ n) = 0).
    { apply Z.bits_inj'. intros m Hm. rewrite Z.land_spec, Z.bits_0, Z.pow2_bits_eqb by lia.
      destruct (Z.eqb_spec n m) as [<-|]; [rewrite Hbit; reflexivity | apply andb_false_r]. }
    rewrite Hz. reflexivity.
Qed.

(** [mkdir], [mkdirat] and [rmdir] start by checking the access with the
    dedup cache switched off, so that every attempt is seen; [mknod] keeps
    the cache. The three that create go through [report_create], and their
    check carries the name of that helper, not their own. Nothing else in
    the call is a check. *)
Theorem directory_creation_and_removal_bypass_the_cache
    (dirfd : Z) (pathname : option string) (mode dev : Z) (w : World) :
  let created := fun (fd kind : Z) =>
    ReqEvent (IOEvent5 ES_EVENT_TYPE_NOTIFY_CREATE ES_ACTION_TYPE_NOTIFY
                (normalize_path_at (kernel w) (fdTable w) fd pathname 0) GetProgramPath kind) in
  let starts_with := fun (call : M Z) (syscallName : string) (req : AccessRequest)
                         (checkCache : bool) =>
    exists check report rest,
      trace (final (call w)) = trace w ++ ACheck syscallName req checkCache check report :: rest /\
      checked rest = [] in
  starts_with (mkdir pathname mode) "report_create" (created AT_FDCWD S_IFDIR) false /\
  starts_with (mkdirat dirfd pathname mode) "report_create" (created dirfd S_IFDIR) false /\
  starts_with (rmdir pathname) "rmdir" (ReqPath ES_EVENT_TYPE_NOTIFY_UNLINK pathname 0 0) false /\
  starts_with (mknod pathname mode dev) "report_create" (created AT_FDCWD S_IFREG) true.
Proof.
  intros created starts_with. subst starts_with created. cbv beta.
  split; [|split; [|split]].
  - apply (checked_call_starts_with_its_check "report_create" _ false "mkdir").
  - apply (checked_call_starts_with_its_check "report_create" _ false "mkdirat").
  - apply (checked_call_starts_with_its_check "rmdir" _ false "rmdir").
  - apply (checked_call_starts_with_its_check "report_create" _ true "mknod").
Qed.

(** The [*at] wrappers turn their flags into the follow-symlink choice of
    the check. For a path that is not the null pointer: [unlinkat] does not
    follow the last component unless [AT_REMOVEDIR] (bit 9) is set, and it
    checks an empty path below a directory descriptor like any other path;
    [fchmodat] and [fchownat] follow the last component unless
    [AT_SYMLINK_NOFOLLOW] (bit 8) is set. *)
Theorem at_flags_choose_whether_the_last_symlink_is_followed
    (dirfd : Z) (pathname : string) (mode owner group flags : Z) (w : World) :
  let starts_with := fun (call : M Z) (syscallName : string) (req : AccessRequest) =>
    exists check report rest,
      trace (final (call w)) = trace w ++ ACheck syscallName req true check report :: rest /\
      checked rest = [] in
  (dirfd <> AT_FDCWD \/ pathname <> "" ->
   starts_with (unlinkat dirfd (Some pathname) flags) "unlinkat"
     (ReqAt ES_EVENT_TYPE_NOTIFY_UNLINK dirfd (Some pathname)
            (if Z.testbit flags 9 then 0 else O_NOFOLLOW))) /\
  starts_with (fchmodat dirfd (Some pathname) mode flags) "fchmodat"
    (ReqAt ES_EVENT_TYPE_NOTIFY_SETMODE dirfd (Some pathname)
           (if Z.testbit flags 8 then O_NOFOLLOW else 0)) /\
  starts_with (fchownat dirfd (Some pathname) owner group flags) "fchownat"
    (ReqAt ES_EVENT_TYPE_AUTH_SETOWNER dirfd (Some pathname)
           (if Z.testbit flags 8 then O_NOFOLLOW else 0)).
Proof.
  intros starts_with. subst starts_with. cbv beta.
  split; [|split].
  - intros Hchecked. unfold unlinkat.
    assert (Hguard : (dirfd =? AT_FDCWD) && is_empty_path (Some pathname) = false).
    { destruct Hchecked as [Hfd | Hpath].
      - apply Z.eqb_neq in Hfd. rewrite Hfd. reflexivity.
      - destruct pathname as [|c rest]; simpl; try apply andb_false_r. congruence. }
    rewrite Hguard. cbv zeta.
    change AT_REMOVEDIR with (2 ^ 9). rewrite land_pow2 by lia.
    apply (checked_call_starts_with_its_check "unlinkat" _ true "unlinkat").
  - unfold fchmodat. cbv zeta.
    change AT_SYMLINK_NOFOLLOW with (2 ^ 8). rewrite land_pow2 by lia.
    apply (checked_call_starts_with_its_check "fchmodat" _ true "fchmodat").
  - unfold fchownat. cbv zeta.
    change AT_SYMLINK_NOFOLLOW with (2 ^ 8). rewrite land_pow2 by lia.
    apply (checked_call_starts_with_its_check "fchownat" _ true "fchownat").
Qed.

(** ** [readlink] and [dlopen] *)

(** [readlink] of ["/etc/malloc.conf"] is answered without the observer and
    without libc: it returns -1 with errno [ENOENT] and leaves everything
    else as it was, also when the handle of the real [readlink] is not
    resolved. Every other path that is not the null pointer is checked as a
    READLINK that does not follow the last component. *)
Theorem readlink_of_malloc_conf_is_answered_on_the_spot
    (path : string) (buf bufsize : Z) (w : World) :
  readlink (Some "/etc/malloc.conf") buf bufsize w = Ret (-1) (set_errno ENOENT w) /\
  (path <> "/etc/malloc.conf" ->
   exists check report rest,
     trace (final (readlink (Some path) buf bufsize w)) =
       trace w ++
       ACheck "readlink" (ReqPath ES_EVENT_TYPE_NOTIFY_READLINK (Some path) 0 O_NOFOLLOW) true
              check report :: rest /\
     checked rest = []).
Proof.
  split.
  - reflexivity.
  - intros Hother. unfold readlink.
    assert (Hguard : String.eqb path "/etc/malloc.conf" = false)
      by (apply String.eqb_neq; exact Hother).
    rewrite Hguard.
    apply (checked_call_starts_with_its_check "readlink" _ true "readlink").
Qed.

Lemma prefix_append (s rest : string) : String.prefix s (String.append s rest) = true.
Proof.
  induction s as [|c s IH]; simpl.
  - destruct rest; reflexivity.
  - destruct (ascii_dec c c); [exact IH | congruence].
Qed.

(** [dlopen] of a name that starts with ["libc.so.6"] never reaches the real
    [dlopen] with that name: the real call is made with a null file name
    (the main program) and the same flags. A path to libc that starts with
    anything else (a directory, say) is forwarded as it is, like every
    other name and the null pointer. Either way nothing is checked and
    nothing is reported. *)
Theorem dlopen_of_libc_opens_the_main_program
    (filename : option string) (flags : Z) (w : World) :
  let w' := final (dlopen filename flags w) in
  checked (trace w') = checked (trace w) /\
  sent (trace w') = sent (trace w) /\
  (resolved "dlopen" = true ->
   real_calls (trace w') =
     real_calls (trace w) ++
     [("dlopen", [AStr (if names_libc filename then None else filename); AInt flags])]) /\
  (forall rest, names_libc (Some (String.append LIBC_SO rest)) = true) /\
  (forall c rest, c <> "l"%char -> names_libc (Some (String c rest)) = false) /\
  names_libc None = false.
Proof.
  cbv zeta. unfold dlopen.
  assert (Hreal : forall args,
            checked (trace (final (real "dlopen" args w))) = checked (trace w) /\
            sent (trace (final (real "dlopen" args w))) = sent (trace w) /\
            (resolved "dlopen" = true ->
             real_calls (trace (final (real "dlopen" args w))) =
               real_calls (trace w) ++ [("dlopen", args)])).
  { intros args. unfold real. destruct (resolved "dlopen").
    - destruct (real_impl "dlopen" args (kernel w) (errno w)) as [[[r e] k]|]; simpl;
        rewrite checked_app, sent_app, real_calls_app; simpl; rewrite !app_nil_r; auto.
    - simpl. repeat split. discriminate. }
  assert (Hfwd : forall args,
            trace (final ((let* r := fwd "dlopen" args in restore r) w)) =
            trace (final (real "dlopen" args w))).
  { intros args. unfold bind, fwd, bind.
    destruct (real "dlopen" args w) as [r w1 | h w1]; reflexivity. }
  split; [|split; [|split; [|split; [|split]]]].
  - destruct (names_libc filename); [|rewrite Hfwd]; apply Hreal.
  - destruct (names_libc filename); [|rewrite Hfwd]; apply Hreal.
  - intros Hres. destruct (names_libc filename); [|rewrite Hfwd]; apply Hreal, Hres.
  - intros rest. apply prefix_append.
  - intros c rest Hc.
    change (names_libc (Some (String c rest)))
      with (if ascii_dec "l" c then String.prefix "ibc.so.6" rest else false).
    destruct (ascii_dec "l" c); [congruence | reflexivity].
  - reflexivity.
Qed.

(** ** The descriptor table *)

Lemma reset_fd_table_entry_steps (fd : Z) (w : World) :
  reset_fd_table_entry fd w =
    Ret tt (log (AResetFdEntry fd)
              (set_fdTable (if (0 <=? fd) && (fd <? MAX_FD)
                            then delete fd (fdTable w)
                            else fdTable w) w)).
Proof.
  unfold reset_fd_table_entry. destruct ((0 <=? fd) && (fd <? MAX_FD)); reflexivity.
Qed.

(** [close], [fclose], [closedir], [dup2] and [dup3] forget the path of the
    descriptor that is about to be closed (for the [dup]s: silently reused)
    before the real call is made, and whatever the call then returns: a
    failed call has still dropped the entry. The real call is not checked
    and not reported, and its result and errno are returned. *)
Theorem closing_forgets_the_descriptor_before_the_call
    (fd f dirp oldfd newfd flags : Z) (w : World) :
  let forgets := fun (call : M Z) (name : string) (args : list Arg) (entry : Z) =>
    forall r e k,
      resolved name = true ->
      real_impl name args (kernel w) (errno w) = Some (r, e, k) ->
      exists w',
        call w = Ret r w' /\
        errno w' = e /\
        trace w' = trace w ++ [AResetFdEntry entry; AReal name args (Some (r, e))] /\
        fdTable w' = (if (0 <=? entry) && (entry <? MAX_FD)
                      then delete entry (fdTable w)
                      else fdTable w) in
  forgets (close fd) "close" [AInt fd] fd /\
  forgets (fclose f) "fclose" [APtr f] (fileno (kernel w) f) /\
  forgets (closedir dirp) "closedir" [APtr dirp] (dirfd (kernel w) dirp) /\
  forgets (dup2 oldfd newfd) "dup2" [AInt oldfd; AInt newfd] newfd /\
  forgets (dup3 oldfd newfd flags) "dup3" [AInt oldfd; AInt newfd; AInt flags] newfd.
Proof.
  intros forgets. subst forgets. cbv beta.
  assert (Hfwd : forall entry name args r e k,
            resolved name = true ->
            real_impl name args (kernel w) (errno w) = Some (r, e, k) ->
            exists w',
              (reset_fd_table_entry entry >> let* x := fwd name args in restore x) w
                = Ret r w' /\
              errno w' = e /\
              trace w' = trace w ++ [AResetFdEntry entry; AReal name args (Some (r, e))] /\
              fdTable w' = (if (0 <=? entry) && (entry <? MAX_FD)
                            then delete entry (fdTable w)
                            else fdTable w)).
  { intros entry name args r e k Hres Hreal.
    rewrite (bind_ret _ _ _ _ _ (reset_fd_table_entry_steps entry w)).
    erewrite bind_ret by (apply fwd_returns; [exact Hres | exact Hreal]).
    eexists. split; [reflexivity|]. split; [reflexivity|]. split; [|reflexivity].
    simpl. rewrite <- app_assoc. reflexivity. }
  assert (Hreal : forall entry name args r e k,
            resolved name = true ->
            real_impl name args (kernel w) (errno w) = Some (r, e, k) ->
            exists w',
              (reset_fd_table_entry entry >> real name args) w = Ret r w' /\
              errno w' = e /\
              trace w' = trace w ++ [AResetFdEntry entry; AReal name args (Some (r, e))] /\
              fdTable w' = (if (0 <=? entry) && (entry <? MAX_FD)
                            then delete entry (fdTable w)
                            else fdTable w)).
  { intros entry name args r e k Hres Hreal.
    rewrite (bind_ret _ _ _ _ _ (reset_fd_table_entry_steps entry w)).
    erewrite real_returns by (first [exact Hres | exact Hreal]).
    eexists. split; [reflexivity|]. split; [reflexivity|]. split; [|reflexivity].
    simpl. rewrite <- app_assoc. reflexivity. }
  split; [|split; [|split; [|split]]].
  - apply Hfwd.
  - intros r e k Hres Hr.
    destruct (Hfwd (fileno (kernel w) f) _ _ _ _ _ Hres Hr) as (w' & Hrun & Hrest).
    exists w'. split; [exact Hrun | exact Hrest].
  - intros r e k Hres Hr.
    destruct (Hfwd (dirfd (kernel w) dirp) _ _ _ _ _ Hres Hr) as (w' & Hrun & Hrest).
    exists w'. split; [exact Hrun | exact Hrest].
  - apply Hreal.
  - apply Hreal.
Qed.

(** A descriptor that a wrapper hands back leaves the descriptor table,
    because its path has presumably changed. [dup] forgets the descriptor
    that the real call returned, after the call; nothing is checked or
    reported, and every other entry of the table is kept. [fopen] forgets
    the descriptor of the stream it opened, and touches no entry when the
    real call returned a null pointer. *)
Theorem returned_descriptor_is_forgotten
    (fd : Z) (pathname mode : option string) (w : World) :
  (forall r e k,
     resolved "dup" = true ->
     real_impl "dup" [AInt fd] (kernel w) (errno w) = Some (r, e, k) ->
     exists w',
       dup fd w = Ret r w' /\
       errno w' = e /\
       trace w' = trace w ++ [AReal "dup" [AInt fd] (Some (r, e)); AResetFdEntry r] /\
       fdTable w' !! r = (if (0 <=? r) && (r <? MAX_FD) then None else fdTable w !! r) /\
       (forall other, other <> r -> fdTable w' !! other = fdTable w !! other)) /\
  (forall check report c r e k,
     policy "fopen" (ReqPath (get_event_from_open_mode mode) pathname 0 0) true
            (kernel w) (fdTable w) (cache w) = (check, report, c) ->
     IsEnabled w && ShouldDenyAccess check && IsFailingUnexpectedAccesses = false ->
     resolved "fopen" = true ->
     real_impl "fopen" [AStr pathname; AStr mode] (kernel w) (errno w) = Some (r, e, k) ->
     exists w',
       fopen pathname mode w = Ret r w' /\
       errno w' = e /\
       trace w' = trace w ++
                  [ACheck "fopen" (ReqPath (get_event_from_open_mode mode) pathname 0 0)
                          true check report;
                   AReal "fopen" [AStr pathname; AStr mode] (Some (r, e));
                   ASend (SetErrno (if r =? 0 then e else 0) report)] ++
                  (if r =? 0 then [] else [AResetFdEntry (fileno k r)]) /\
       (r = 0 -> fdTable w' = fdTable w)).
Proof.
  split.
  - intros r e k Hres Hreal. unfold dup.
    erewrite bind_ret by (apply real_returns; [exact Hres | exact Hreal]).
    unfold ret_fd.
    erewrite bind_ret by apply reset_fd_table_entry_steps.
    eexists. split; [reflexivity|]. split; [reflexivity|]. split; [|split].
    + simpl. rewrite <- app_assoc. reflexivity.
    + simpl. destruct ((0 <=? r) && (r <? MAX_FD)); [apply lookup_delete_eq | reflexivity].
    + intros other Hother. simpl.
      destruct ((0 <=? r) && (r <? MAX_FD)); [|reflexivity].
      apply lookup_delete_ne. congruence.
  - intros check report c r e k Hpol Hdeny Hres Hreal. unfold fopen.
    erewrite bind_ret by (apply create_access_steps; exact Hpol).
    cbv beta iota.
    erewrite bind_ret by (apply check_fwd_and_report_forward;
                          [exact Hdeny | exact Hres | exact Hreal]).
    unfold truthy. destruct (Z.eqb_spec r 0) as [-> | Hr]; cbn [negb].
    + eexists. split; [reflexivity|]. split; [reflexivity|]. split; [|reflexivity].
      simpl. rewrite <- !app_assoc. reflexivity.
    + erewrite bind_ret by apply reset_fd_table_entry_steps.
      eexists. split; [reflexivity|]. split; [reflexivity|]. split; [|congruence].
      simpl. rewrite <- !app_assoc. reflexivity.
Qed.

(** ** Strings: the renamed entry and the report line *)

Lemma append_String (c : ascii) (a b : string) :
  String.append (String c a) b = String c (String.append a b).
Proof. reflexivity. Qed.

Lemma append_empty_l (b : string) : String.append EmptyString b = b.
Proof. reflexivity. Qed.

Lemma length_append (a b : string) :
  String.length (String.append a b) = (String.length a + String.length b)%nat.
Proof.
  induction a as [|c a IH]; [reflexivity|].
  rewrite append_String. simpl. rewrite IH. reflexivity.
Qed.

Lemma substring_whole (s : string) (n : nat) :
  (String.length s <= n)%nat -> String.substring 0 n s = s.
Proof.
  revert n. induction s as [|c s IH]; intros n Hn.
  - destruct n; reflexivity.
  - destruct n as [|n]; simpl in *; [lia|]. rewrite IH by lia. reflexivity.
Qed.

Lemma substring_after (a b : string) (n : nat) :
  String.substring (String.length a) n (String.append a b) = String.substring 0 n b.
Proof.
  induction a as [|c a IH]; [reflexivity|]. rewrite append_String. simpl. exact IH.
Qed.

Lemma substring_nothing (s : string) (n : nat) : String.substring n 0 s = EmptyString.
Proof.
  revert n. induction s as [|c s IH]; intros [|n]; simpl; try reflexivity. apply IH.
Qed.

Lemma length_substring (s : string) (n m : nat) :
  String.length (String.substring n m s) = Nat.min m (String.length s - n).
Proof.
  revert n m. induction s as [|c s IH]; intros n m.
  - destruct n, m; reflexivity.
  - destruct n as [|n].
    + destruct m as [|m]; simpl; [reflexivity|]. rewrite IH. simpl. f_equal. f_equal. lia.
    + simpl. apply IH.
Qed.

Lemma append_empty (s : string) : String.append s EmptyString = s.
Proof.
  induction s as [|c s IH]; [reflexivity|]. rewrite append_String, IH. reflexivity.
Qed.

(** [renameat] of a directory maps every enumerated entry below the
    destination by replacing its first [oldStr.length()] characters: an
    entry that is the old path followed by a rest becomes the new path
    followed by the same rest, and mapping back gives the entry again. The
    characters replaced are not compared with the old path: an entry that
    is not longer than the old path becomes the new path, and in general
    only the length of the entry decides how much of it is kept. *)
Theorem renamed_entry_keeps_what_follows_the_old_path
    (oldStr newStr rest fileOrDirectory : string) :
  replace_prefix (String.append oldStr rest) oldStr newStr = String.append newStr rest /\
  replace_prefix (replace_prefix (String.append oldStr rest) oldStr newStr) newStr oldStr
    = String.append oldStr rest /\
  ((String.length fileOrDirectory <= String.length oldStr)%nat ->
   replace_prefix fileOrDirectory oldStr newStr = newStr) /\
  String.length (replace_prefix fileOrDirectory oldStr newStr) =
    (String.length newStr + (String.length fileOrDirectory - String.length oldStr))%nat.
Proof.
  assert (Hmove : forall a b c, replace_prefix (String.append a c) a b = String.append b c).
  { intros a b c. unfold replace_prefix. rewrite length_append, substring_after.
    rewrite substring_whole by lia. reflexivity. }
  split; [apply Hmove|]. split; [rewrite Hmove; apply Hmove|]. split.
  - intros Hshort. unfold replace_prefix.
    replace (String.length fileOrDirectory - String.length oldStr)%nat with 0%nat by lia.
    rewrite substring_nothing. apply append_empty.
  - unfold replace_prefix. rewrite length_append, length_substring. lia.
Qed.

Lemma has_bar_append (a b : string) :
  has_bar (String.append a b) = has_bar a || has_bar b.
Proof.
  induction a as [|c a IH]; [reflexivity|]. rewrite append_String. simpl.
  rewrite IH. apply orb_assoc.
Qed.

Lemma has_bar_digits (d : Decimal.uint) : has_bar (NilEmpty.string_of_uint d) = false.
Proof. induction d; simpl; auto. Qed.

Lemma has_bar_dec (z : Z) : has_bar (dec z) = false.
Proof.
  unfold dec. destruct (Z.to_int z) as [d | d]; simpl.
  - destruct d; simpl; auto using has_bar_digits.
  - destruct d; simpl; auto using has_bar_digits.
Qed.

Lemma append_one (current : string) (c : ascii) (s : string) :
  String.append (String.append current (String c EmptyString)) s =
  String.append current (String c s).
Proof.
  induction current as [|x current IH]; [reflexivity|].
  rewrite !append_String, IH. reflexivity.
Qed.

Lemma fields_from_last (current s : string) :
  has_bar s = false -> fields_from current s = [String.append current s].
Proof.
  revert current. induction s as [|c s IH]; intros current Hs; simpl in *.
  - rewrite append_empty. reflexivity.
  - apply orb_false_elim in Hs. destruct Hs as [Hc Hs]. rewrite Hc, IH by exact Hs.
    rewrite append_one. reflexivity.
Qed.

Lemma fields_from_field (current s rest : string) :
  has_bar s = false ->
  fields_from current (String.append s (String "|" rest)) =
    String.append current s :: fields_from EmptyString rest.
Proof.
  revert current. induction s as [|c s IH]; intros current Hs.
  - rewrite append_empty. reflexivity.
  - simpl in Hs. apply orb_false_elim in Hs. destruct Hs as [Hc Hs].
    rewrite append_String. simpl. rewrite Hc, IH by exact Hs.
    rewrite append_one. reflexivity.
Qed.

Lemma parse_dec_dec (z : Z) : parse_dec (dec z) = Some z.
Proof.
  unfold parse_dec, dec. rewrite NilZero.isi.
  - simpl. rewrite DecimalZ.of_to. reflexivity.
  - destruct z; simpl; try discriminate. intros [= H]. revert H. apply Unsigned.to_uint_nonnil.
  - destruct z; simpl; try discriminate. intros [= H]. revert H. apply Unsigned.to_uint_nonnil.
Qed.

(** [BuildReport] returns the length of the whole line, whatever the size
    of the buffer. When the line fits, and neither the program name nor
    the path holds a ['|'], the buffer splits at ['|'] into exactly the nine
    fields that were printed, the pid field being the pid of the calling
    process when the report has a negative pid; and every number is read
    back from its field. When the line does not fit, the buffer holds
    [maxMessageLength - 1] characters, so that the line has lost its end. *)
Theorem BuildReport_line_is_split_back_into_its_fields
    (progname path : string) (maxMessageLength : Z) (report : AccessReport) (w : World) :
  has_bar progname = false ->
  has_bar path = false ->
  let pid := if rep_pid report <? 0 then getpid (kernel w) else rep_pid report in
  let built := BuildReport progname maxMessageLength report path w in
  fst built = Z.of_nat (String.length (report_line progname pid report path)) /\
  (fst built < maxMessageLength ->
   fields (snd built) =
     [progname; dec pid; dec (rep_requestedAccess report); dec (rep_status report);
      dec (rep_reportExplicitly report); dec (rep_error report); dec (rep_operation report);
      path; String.append (dec (rep_isDirectory report)) newline]) /\
  (0 < maxMessageLength <= fst built ->
   Z.of_nat (String.length (snd built)) = maxMessageLength - 1) /\
  (forall z, parse_dec (dec z) = Some z).
Proof.
  intros Hprog Hpath pid built. subst built. unfold BuildReport, snprintf. fold pid.
  cbn [fst snd]. split; [reflexivity|]. split; [|split; [|exact parse_dec_dec]].
  - intros Hfits. rewrite substring_whole by lia.
    unfold report_line, bar, fields. cbn [String.concat].
    rewrite !append_String, !append_empty_l.
    rewrite !fields_from_field by first [exact Hprog | exact Hpath | apply has_bar_dec].
    rewrite fields_from_last
      by (rewrite has_bar_append, has_bar_dec; reflexivity).
    reflexivity.
  - intros Hlong. rewrite length_substring. lia.
Qed.

End MoreProperties.

(** ** The further properties at concrete processes *)

(** [readdir] at the end of a directory, with 11 in errno before the call. *)
Lemma sentinel_without_error_reports_the_errno_before_the_call_witness :
  exists w',
    readdir 7 (Scenario.world Scenario.plain 100 11 []) = Ret 0 w' /\
    errno w' = 11 /\
    sent (trace w') =
      [SetErrno 11 (Scenario.group_of 100 Allow (ReqFd ES_EVENT_TYPE_NOTIFY_READDIR 7))].
Proof.
  apply (sentinel_without_error_reports_the_errno_before_the_call
           (P := Scenario.platform Scenario.plain) 7
           (Scenario.world Scenario.plain 100 11 []) (mkCheck Allow true)
           (Scenario.group_of 100 Allow (ReqFd ES_EVENT_TYPE_NOTIFY_READDIR 7))
           1%nat 100); reflexivity.
Defined.

(** [stat] of a missing file. *)
Lemma stat_family_forwards_then_reports_witness :
  exists w',
    stat (Some "/work/missing") 0 (Scenario.world Scenario.failing 100 0 []) = Ret (-1) w' /\
    errno w' = ENOENT /\
    trace w' =
      [AReal "stat" [AStr (Some "/work/missing"); APtr 0] (Some (-1, ENOENT));
       ACheck "stat" (ReqPath ES_EVENT_TYPE_NOTIFY_STAT (Some "/work/missing") 0 O_NOFOLLOW)
              true (mkCheck Allow true)
              (Scenario.group_of 100 Allow
                 (ReqPath ES_EVENT_TYPE_NOTIFY_STAT (Some "/work/missing") 0 O_NOFOLLOW));
       ASend (SetErrno ENOENT
                (Scenario.group_of 100 Allow
                   (ReqPath ES_EVENT_TYPE_NOTIFY_STAT (Some "/work/missing") 0 O_NOFOLLOW)))].
Proof.
  apply (stat_family_forwards_then_reports (P := Scenario.platform Scenario.failing)
           (stat (Some "/work/missing") 0) "stat" [AStr (Some "/work/missing"); APtr 0]
           (ReqPath ES_EVENT_TYPE_NOTIFY_STAT (Some "/work/missing") 0 O_NOFOLLOW)
           (Scenario.world Scenario.failing 100 0 []) (-1) ENOENT 100 (mkCheck Allow true)
           (Scenario.group_of 100 Allow
              (ReqPath ES_EVENT_TYPE_NOTIFY_STAT (Some "/work/missing") 0 O_NOFOLLOW))
           1%nat).
  - left. exists (Some "/work/missing"), 0. repeat split.
  - reflexivity.
  - reflexivity.
  - reflexivity.
Defined.

(** [dprintf] to descriptor 2 under a policy that denies everything. *)
Lemma dprintf_is_reported_but_never_denied_witness :
  exists w',
    dprintf 2 (Some "%s") 0 (Scenario.world Scenario.denying 100 0 []) = Ret 0 w' /\
    errno w' = 0 /\
    trace w' =
      [ACheck "vdprintf" (ReqFd ES_EVENT_TYPE_NOTIFY_WRITE 2) true (mkCheck Deny true)
              (Scenario.group_of 100 Deny (ReqFd ES_EVENT_TYPE_NOTIFY_WRITE 2));
       AReal "vdprintf" [AInt 2; AStr (Some "%s"); APtr 0] (Some (0, 0));
       ASend (SetErrno 0 (Scenario.group_of 100 Deny (ReqFd ES_EVENT_TYPE_NOTIFY_WRITE 2)))].
Proof.
  apply (dprintf_is_reported_but_never_denied (P := Scenario.platform Scenario.denying)
           2 (Some "%s") 0 (Scenario.world Scenario.denying 100 0 []) (mkCheck Deny true)
           (Scenario.group_of 100 Deny (ReqFd ES_EVENT_TYPE_NOTIFY_WRITE 2)) 1%nat 0 0 100).
  - reflexivity.
  - reflexivity.
  - reflexivity.
  - right. reflexivity.
Defined.

(** [execve] of a missing program. *)
Lemma exec_is_reported_only_when_it_returns_witness :
  exists w',
    execve (Some "/bin/missing") ["missing"] []
           (Scenario.world Scenario.failing 100 0 []) = Ret (-1) w' /\
    errno w' = ENOENT /\
    sent (trace w') =
      [SetErrno ENOENT
         (Scenario.group_of 100 Allow
            (ReqPath ES_EVENT_TYPE_NOTIFY_EXEC (Some "/bin/missing") 0 0))].
Proof.
  destruct (exec_is_reported_only_when_it_returns (P := Scenario.platform Scenario.failing)
              "execve" (Some "/bin/missing") ["missing"] [] 0
              (Scenario.world Scenario.failing 100 0 []) eq_refl eq_refl)
    as (_ & Hreturns & _).
  destruct (Hreturns (-1) ENOENT 100 (mkCheck Allow true)
              (Scenario.group_of 100 Allow
                 (ReqPath ES_EVENT_TYPE_NOTIFY_EXEC (Some "/bin/missing") 0 0))
              1%nat eq_refl eq_refl) as (w' & Hrun & Herrno & Htrace).
  exists w'. split; [exact Hrun|]. split; [exact Herrno|].
  rewrite Htrace. reflexivity.
Defined.

(** [execve] of a statically linked program. *)
Lemma static_exec_is_handed_to_ptrace_witness :
  exists w',
    execve (Some "/bin/busybox") ["busybox"] ["LD_PRELOAD=/opt/bxl/libDetours.so"]
           (Cases.with_files Cases.static_target 0) = Ret 0 w' /\
    real_calls (trace w') = [] /\
    fdTable w' = ∅ /\
    sent (trace w') =
      [SetErrno 0
         (Scenario.group_of 100 Allow
            (ReqPath ES_EVENT_TYPE_NOTIFY_EXEC (Some "/bin/busybox") 0 0))].
Proof.
  destruct (static_exec_is_handed_to_ptrace (P := Scenario.platform Cases.static_target)
              "execve" (Some "/bin/busybox") ["busybox"]
              ["LD_PRELOAD=/opt/bxl/libDetours.so"] 0
              (Cases.with_files Cases.static_target 0) (mkCheck Allow true)
              (Scenario.group_of 100 Allow
                 (ReqPath ES_EVENT_TYPE_NOTIFY_EXEC (Some "/bin/busybox") 0 0))
              1%nat eq_refl eq_refl) as (w' & Hrun & Htrace & Hcalls & Hfd & _).
  exists w'. split; [exact Hrun|]. split; [exact Hcalls|]. split; [exact Hfd|].
  rewrite Htrace. reflexivity.
Defined.

(** [rename] of a file under a policy that denies everything. *)
Lemma renameat_of_file_witness :
  exists w',
    rename (Some "/work/a") (Some "/work/b") (Scenario.world Scenario.denying 100 0 [])
      = Ret (-1) w' /\
    errno w' = EPERM /\
    real_calls (trace w') = [] /\
    sent (trace w') =
      [Scenario.group_of 100 Deny
         (ReqEvent (CreateFileOpen_event (P := Scenario.platform Scenario.denying)
                      0 "/work/b" (Z.lor O_CREAT O_WRONLY)))].
Proof.
  edestruct (renameat_of_file (P := Scenario.platform Scenario.denying)
               AT_FDCWD (Some "/work/a") AT_FDCWD (Some "/work/b")
               (Scenario.world Scenario.denying 100 0 [])) as [Hdenied _];
    [reflexivity | reflexivity | reflexivity |].
  destruct (Hdenied eq_refl) as (w' & Hrun & Herrno & Htrace).
  exists w'. split; [exact Hrun|]. split; [exact Herrno|].
  rewrite Htrace. split; reflexivity.
Defined.

(** [unlinkat] of the empty path below descriptor 5, with [AT_REMOVEDIR]. *)
Lemma at_flags_choose_whether_the_last_symlink_is_followed_witness :
  exists check report rest,
    trace (final (unlinkat 5 (Some "") AT_REMOVEDIR (Scenario.world Scenario.plain 100 0 [])))
      = ACheck "unlinkat" (ReqAt ES_EVENT_TYPE_NOTIFY_UNLINK 5 (Some "") 0) true check report
        :: rest /\
    checked rest = [].
Proof.
  destruct (at_flags_choose_whether_the_last_symlink_is_followed
              (P := Scenario.platform Scenario.plain) 5 "" 0 0 0 AT_REMOVEDIR
              (Scenario.world Scenario.plain 100 0 [])) as (Hunlinkat & _).
  apply Hunlinkat. left. unfold AT_FDCWD. lia.
Defined.

(** [readlink] of ["/etc/malloc.conf"] and of another path under a policy
    that denies everything. *)
Lemma readlink_of_malloc_conf_is_answered_on_the_spot_witness :
  readlink (Some "/etc/malloc.conf") 0 64 (Scenario.world Scenario.denying 100 0 []) =
    Ret (-1) (set_errno ENOENT (Scenario.world Scenario.denying 100 0 [])) /\
  exists check report rest,
    trace (final (readlink (Some "/proc/self/exe") 0 64
                    (Scenario.world Scenario.denying 100 0 []))) =
      ACheck "readlink"
             (ReqPath ES_EVENT_TYPE_NOTIFY_READLINK (Some "/proc/self/exe") 0 O_NOFOLLOW) true
             check report :: rest /\
    checked rest = [].
Proof.
  destruct (readlink_of_malloc_conf_is_answered_on_the_spot
              (P := Scenario.platform Scenario.denying) "/proc/self/exe" 0 64
              (Scenario.world Scenario.denying 100 0 [])) as (Hconf & Hother).
  split; [exact Hconf|]. apply Hother. apply String.eqb_neq. reflexivity.
Defined.

(** [dlopen("libc.so.6", 2)]. *)
Lemma dlopen_of_libc_opens_the_main_program_witness :
  real_calls (trace (final (dlopen (Some "libc.so.6") 2
                              (Scenario.world Scenario.plain 100 0 [])))) =
    [("dlopen", [AStr None; AInt 2])].
Proof.
  destruct (dlopen_of_libc_opens_the_main_program (P := Scenario.platform Scenario.plain)
              (Some "libc.so.6") 2 (Scenario.world Scenario.plain 100 0 []))
    as (_ & _ & Hcalls & _).
  apply Hcalls. reflexivity.
Defined.

(** A [close] of descriptor 3 that fails. *)
Lemma closing_forgets_the_descriptor_before_the_call_witness :
  exists w',
    close 3 (Cases.with_files Scenario.failing 0) = Ret (-1) w' /\
    errno w' = ENOENT /\
    trace w' = [AResetFdEntry 3; AReal "close" [AInt 3] (Some (-1, ENOENT))] /\
    fdTable w' = delete 3 Cases.open_files.
Proof.
  destruct (closing_forgets_the_descriptor_before_the_call
              (P := Scenario.platform Scenario.failing) 3 0 0 0 0 0
              (Cases.with_files Scenario.failing 0)) as (Hclose & _).
  apply (Hclose (-1) ENOENT 100); reflexivity.
Defined.

(** [dup(4)] returns descriptor 3, which was in the table. *)
Lemma returned_descriptor_is_forgotten_witness :
  exists w',
    dup 4 (Cases.with_files Cases.returns_3 0) = Ret 3 w' /\
    fdTable w' !! 3 = None /\
    fdTable w' !! 4 = Some "/work/in.c".
Proof.
  destruct (returned_descriptor_is_forgotten (P := Scenario.platform Cases.returns_3)
              4 None None (Cases.with_files Cases.returns_3 0)) as (Hdup & _).
  destruct (Hdup 3 0 100 eq_refl eq_refl) as (w' & Hrun & _ & _ & Hreturned & Hothers).
  exists w'. split; [exact Hrun|]. split; [exact Hreturned|].
  rewrite Hothers by lia. reflexivity.
Defined.

(** An entry shorter than the old path. *)
Lemma renamed_entry_keeps_what_follows_the_old_path_witness :
  replace_prefix "/d" "/d1" "/d2" = "/d2".
Proof.
  destruct (renamed_entry_keeps_what_follows_the_old_path "/d1" "/d2" "" "/d")
    as (_ & _ & Hshort & _).
  apply Hshort. simpl. lia.
Defined.

(** The line of a denied write by process 100. *)
Lemma BuildReport_line_is_split_back_into_its_fields_witness :
  fields (snd (BuildReport (P := Scenario.platform Scenario.plain) "tool" 4096
                 Cases.sample_report "/work/out.o"
                 (Scenario.world Scenario.plain 100 0 []))) =
    ["tool"; "100"; "2"; "1"; "0"; "13"; "1"; "/work/out.o"; String.append "0" newline].
Proof.
  destruct (BuildReport_line_is_split_back_into_its_fields
              (P := Scenario.platform Scenario.plain) "tool" "/work/out.o" 4096
              Cases.sample_report (Scenario.world Scenario.plain 100 0 []) eq_refl eq_refl)
    as (_ & Hfits & _).
  rewrite Hfits; reflexivity.
Defined.

(** * [renameat] of a directory *)

Section RenameDirectory.
Context {P : Platform}.

Lemma substring_below (entry : string) (n : nat) :
  String.substring n (String.length entry - n) entry = below n entry.
Proof.
  revert n. induction entry as [|c entry IH]; intros n.
  - destruct n; reflexivity.
  - destruct n as [|n].
    + simpl. rewrite substring_whole by lia. reflexivity.
    + simpl. apply IH.
Qed.

(** [fileOrDirectory.replace(0, oldStr.length(), newStr)] gives the
    corresponding destination entry. *)
Lemma replace_prefix_destination_entry (entry oldStr newStr : string) :
  replace_prefix entry oldStr newStr = destination_entry oldStr newStr entry.
Proof. unfold replace_prefix, destination_entry. rewrite substring_below. reflexivity. Qed.

Lemma below_append (a rest : string) :
  below (String.length a) (String.append a rest) = rest.
Proof.
  induction a as [|c a IH]; [reflexivity|]. rewrite append_String. simpl. exact IH.
Qed.

(** The event that [CreateFileOpen] builds for [O_CREAT | O_WRONLY] is the
    destination event: a CREATE when the path does not exist, a WRITE when
    it does. *)
Lemma CreateFileOpen_destination_event (w : World) (destination : string) :
  CreateFileOpen_event (mode_of_path w destination) destination (Z.lor O_CREAT O_WRONLY) =
  destination_event w destination.
Proof.
  unfold CreateFileOpen_event, destination_event, destination_kind, IOEvent7.
  destruct (mode_of_path w destination =? 0); reflexivity.
Qed.

Lemma renamed_checks_directory_checks (w : World) (oldStr newStr : string)
    (es : list string) (rs : list entry_result) :
  renamed_checks w oldStr newStr es rs = directory_checks w oldStr newStr es rs.
Proof.
  unfold renamed_checks, directory_checks. f_equal.
  revert rs. induction es as [|e es IH]; intros [|r rs]; simpl; try reflexivity.
  rewrite IH. f_equal.
  unfold renamed_entry_checks, entry_checks. cbv zeta.
  rewrite replace_prefix_destination_entry, CreateFileOpen_destination_event.
  reflexivity.
Qed.

(** C4 (as amended). [renameat] of a directory ([rename] is [renameat] with
    [AT_FDCWD] twice).

    When the recursive enumeration succeeds with entries [es], the wrapper
    checks, entry by entry and in order, the unlink of the source entry and
    then the destination event of the corresponding destination entry (the
    new path followed by what the entry has below the old path): a CREATE
    when nothing exists at the destination, a WRITE when something does. It
    combines the two checks of the entry and buffers the two reports. [rs]
    are the answers for the entries it visited.
    - If the combined check of an entry is denied, that entry is the last
      one visited: the real [renameat] is not called, exactly one report is
      sent, the last one built (the destination report of the denied entry),
      and the call returns -1 with errno [EPERM].
    - Otherwise every entry is visited, the real [renameat] is called
      exactly once, after all checks, and then every buffered report is
      sent, in order, each with the errno of the real call ([e] when it
      returned -1, [0] when it succeeded); the wrapper returns the result
      and errno of the real call. An empty enumeration is forwarded in this
      way with no check and no report, unless the check that stands for no
      entry is itself denied, in which case the wrapper reads the last
      element of an empty vector.

    When the enumeration fails, a single RENAME event with the top-level
    source and destination paths is checked and reported instead. *)
Theorem renameat_of_directory (olddirfd : Z) (oldpath : option string) (newdirfd : Z)
    (newpath : option string) (w : World) :
  let oldStr := normalize_path_at (kernel w) (fdTable w) olddirfd oldpath O_NOFOLLOW in
  let newStr := normalize_path_at (kernel w) (fdTable w) newdirfd newpath O_NOFOLLOW in
  let args := [AInt olddirfd; AStr oldpath; AInt newdirfd; AStr newpath] in
  let call := renameat olddirfd oldpath newdirfd newpath in
  S_ISDIR (mode_of_path w oldStr) = true ->
  (forall es,
     EnumerateDirectory (kernel w) oldStr true = Some es ->
     renames_enumerated_directory call w oldStr newStr args es) /\
  (EnumerateDirectory (kernel w) oldStr true = None ->
   renames_unlisted_directory call w oldStr newStr args) /\
  (olddirfd = AT_FDCWD -> newdirfd = AT_FDCWD -> rename oldpath newpath w = call w) /\
  (forall rest,
     destination_entry oldStr newStr (String.append oldStr rest) = String.append newStr rest) /\
  (forall destination,
     ev_src_path (destination_event w destination) = destination /\
     (mode_of_path w destination = 0 ->
      ev_type (destination_event w destination) = ES_EVENT_TYPE_NOTIFY_CREATE) /\
     (mode_of_path w destination <> 0 ->
      ev_type (destination_event w destination) = ES_EVENT_TYPE_NOTIFY_WRITE)).
Proof.
  intros oldStr newStr args call Hdir.
  pose proof (renameat_unfold olddirfd oldpath newdirfd newpath w Hdir) as Hun.
  fold oldStr newStr args call in Hun.
  split; [|split; [|split; [|split]]].
  - intros es Henum.
    destruct (renameat_loop_spec oldStr newStr es Invalid [] w)
      as (rs & check' & w1 & Hloop & (He1 & Hen1 & Hfd1 & Hk1) & Hle & Htr1 & Hcase).
    rewrite renamed_checks_directory_checks in Htr1.
    unfold renames_enumerated_directory.
    exists rs. split; [exact Hle|]. cbv zeta.
    assert (Hgather : call w =
              renameat_finish args (check', flat_map entry_reports rs) w1).
    { rewrite Hun. unfold bind at 1. rewrite Henum, Hloop. reflexivity. }
    assert (Hen : IsEnabled w1 = IsEnabled w) by (unfold IsEnabled; rewrite Hk1; reflexivity).
    destruct Hcase as [(rs0 & l & -> & Hall & Hl & ->) | (Hlen & Hall & ->)].
    + left. exists rs0, l. repeat split; auto.
      eexists. split; [|split].
      * assert (Hfm : flat_map entry_reports (rs0 ++ [l]) =
                      (flat_map entry_reports rs0 ++ [sourceReport l]) ++ [targetReport l])
          by (rewrite flat_map_app; simpl; rewrite <- app_assoc; reflexivity).
        rewrite Hgather, Hfm.
        apply renameat_finish_denied. rewrite Hen. exact Hl.
      * reflexivity.
      * simpl. rewrite Htr1. rewrite <- app_assoc. reflexivity.
    + destruct (last rs) as [l|] eqn:Hlast.
      * right. left. split; [exact Hlen|]. split; [exact Hall|].
        apply last_Some in Hlast. destruct Hlast as [rs' ->].
        split.
        { intros ->. rewrite length_app in Hlen. simpl in Hlen. lia. }
        intros r e k Hres Hreal.
        assert (Hnd : IsEnabled w1 &&
                      ShouldDenyAccess (Combine (source_check l) (target_check l)) &&
                      IsFailingUnexpectedAccesses = false).
        { rewrite Hen. apply Forall_app in Hall. destruct Hall as [_ Hl].
          inversion Hl; subst. assumption. }
        rewrite <- Hk1, <- He1 in Hreal.
        destruct (renameat_finish_forward args _ (flat_map entry_reports (rs' ++ [l])) w1
                    r e k Hnd Hres Hreal) as (w' & Hrun & Herr & Htr).
        exists w'. split; [|split].
        -- rewrite Hgather. exact Hrun.
        -- exact Herr.
        -- rewrite Htr, Htr1. rewrite <- !app_assoc. reflexivity.
      * apply last_None in Hlast. subst rs.
        assert (Hes : es = []) by (destruct es; [reflexivity | discriminate]).
        destruct (IsEnabled w && ShouldDenyAccess Invalid && IsFailingUnexpectedAccesses)
          eqn:Hinvalid.
        -- right. right. split; [exact Hes|]. split; [reflexivity|].
           exists w1. split.
           ++ rewrite Hgather. unfold renameat_finish, bind.
              rewrite should_deny_eq, Hen, Hinvalid. reflexivity.
           ++ rewrite Htr1. subst es. apply app_nil_r.
        -- right. left. split; [exact Hlen|]. split; [exact Hall|].
           split; [intros _; reflexivity|].
           intros r e k Hres Hreal.
           rewrite <- Hen in Hinvalid.
           rewrite <- Hk1, <- He1 in Hreal.
           destruct (renameat_finish_forward args Invalid (flat_map entry_reports []) w1
                       r e k Hinvalid Hres Hreal) as (w' & Hrun & Herr & Htr).
           exists w'. split; [|split].
           ++ rewrite Hgather. exact Hrun.
           ++ exact Herr.
           ++ rewrite Htr, Htr1. rewrite <- !app_assoc. reflexivity.
  - intros Henum check report c Hpol the_check.
    assert (Hgather : call w =
              renameat_finish args (check, [report]) (log the_check (set_cache c w))).
    { rewrite Hun. unfold bind at 1. rewrite Henum.
      rewrite (bind_ret _ _ _ _ _ (create_access_steps _ _ _ _ _ _ _ Hpol)). reflexivity. }
    split; [reflexivity|]. split; [reflexivity|]. split; [reflexivity|]. split.
    + intros Hdeny. eexists. split; [|split].
      * rewrite Hgather. apply (renameat_finish_denied args check [] report). exact Hdeny.
      * reflexivity.
      * simpl. rewrite <- app_assoc. reflexivity.
    + intros Hdeny r e k Hres Hreal.
      destruct (renameat_finish_forward args check [report] (log the_check (set_cache c w))
                  r e k Hdeny Hres Hreal) as (w' & Hrun & Herr & Htr).
      exists w'. split; [|split].
      * rewrite Hgather. exact Hrun.
      * exact Herr.
      * rewrite Htr. simpl. rewrite <- app_assoc. reflexivity.
  - intros -> ->. reflexivity.
  - intros rest. unfold destination_entry. rewrite below_append. reflexivity.
  - intros destination. unfold destination_event, destination_kind. cbn [ev_src_path ev_type].
    split; [reflexivity|]. split.
    + intros ->. reflexivity.
    + intros Hexists. apply Z.eqb_neq in Hexists. rewrite Hexists. reflexivity.
Qed.

End RenameDirectory.

(** The rename of [/d1] (holding [a]) to [/d2]: when the creation of
    [/d2/a] is denied, when the enumeration gives nothing, and when the
    enumeration fails. *)
Lemma renameat_of_directory_witness :
  renames_enumerated_directory
    (renameat AT_FDCWD (Some "/d1") AT_FDCWD (Some "/d2"))
    (Scenario.world (Scenario.tree Scenario.deny_d2_a) 100 7 [])
    "/d1" "/d2" Scenario.d1_d2 ["/d1"; "/d1/a"] /\
  renames_enumerated_directory
    (renameat AT_FDCWD (Some "/d1") AT_FDCWD (Some "/d2"))
    (Scenario.world Cases.nothing_listed 100 7 [])
    "/d1" "/d2" Scenario.d1_d2 [] /\
  renames_unlisted_directory
    (renameat AT_FDCWD (Some "/d1") AT_FDCWD (Some "/d2"))
    (Scenario.world Scenario.unlisted 100 7 [])
    "/d1" "/d2" Scenario.d1_d2 /\
  rename (Some "/d1") (Some "/d2") (Scenario.world (Scenario.tree Scenario.allow_all) 100 7 []) =
  renameat AT_FDCWD (Some "/d1") AT_FDCWD (Some "/d2")
           (Scenario.world (Scenario.tree Scenario.allow_all) 100 7 []) /\
  destination_entry "/d1" "/d2" "/d1/a" = "/d2/a".
Proof.
  split; [|split; [|split; [|split]]].
  - destruct (renameat_of_directory (P := Scenario.platform (Scenario.tree Scenario.deny_d2_a))
                AT_FDCWD (Some "/d1") AT_FDCWD (Some "/d2")
                (Scenario.world (Scenario.tree Scenario.deny_d2_a) 100 7 []) eq_refl)
      as (Hlisted & _).
    apply (Hlisted ["/d1"; "/d1/a"] eq_refl).
  - destruct (renameat_of_directory (P := Scenario.platform Cases.nothing_listed)
                AT_FDCWD (Some "/d1") AT_FDCWD (Some "/d2")
                (Scenario.world Cases.nothing_listed 100 7 []) eq_refl)
      as (Hlisted & _).
    apply (Hlisted [] eq_refl).
  - destruct (renameat_of_directory (P := Scenario.platform Scenario.unlisted)
                AT_FDCWD (Some "/d1") AT_FDCWD (Some "/d2")
                (Scenario.world Scenario.unlisted 100 7 []) eq_refl)
      as (_ & Hunlisted & _).
    apply (Hunlisted eq_refl).
  - destruct (renameat_of_directory (P := Scenario.platform (Scenario.tree Scenario.allow_all))
                AT_FDCWD (Some "/d1") AT_FDCWD (Some "/d2")
                (Scenario.world (Scenario.tree Scenario.allow_all) 100 7 []) eq_refl)
      as (_ & _ & Hrename & _).
    apply Hrename; reflexivity.
  - destruct (renameat_of_directory (P := Scenario.platform (Scenario.tree Scenario.allow_all))
                AT_FDCWD (Some "/d1") AT_FDCWD (Some "/d2")
                (Scenario.world (Scenario.tree Scenario.allow_all) 100 7 []) eq_refl)
      as (_ & _ & _ & Hdestination & _).
    apply (Hdestination "/a").
Defined.

(** The rename of [/d1] (holding [a]) onto the empty directory [/d2], which
    exists: the report for the destination entry [/d2] is a WRITE
    (operation 1), not a CREATE (operation 2); only [/d2/a], which does not
    exist, is reported as created. *)
Lemma rename_onto_existing_directory_reports_a_write :
  returned (rename (Some "/d1") (Some "/d2") (Scenario.world Cases.onto_existing 100 7 []))
    = Some 0 /\
  map Scenario.request_path
      (checked (trace (final (rename (Some "/d1") (Some "/d2")
                                (Scenario.world Cases.onto_existing 100 7 []))))) =
    ["/d1"; "/d2"; "/d1/a"; "/d2/a"] /\
  map Scenario.request_kind
      (checked (trace (final (rename (Some "/d1") (Some "/d2")
                                (Scenario.world Cases.onto_existing 100 7 []))))) =
    [ES_EVENT_TYPE_NOTIFY_UNLINK; ES_EVENT_TYPE_NOTIFY_WRITE;
     ES_EVENT_TYPE_NOTIFY_UNLINK; ES_EVENT_TYPE_NOTIFY_CREATE] /\
  real_calls (trace (final (rename (Some "/d1") (Some "/d2")
                              (Scenario.world Cases.onto_existing 100 7 [])))) =
    [("renameat", Scenario.d1_d2)] /\
  map (fun g => map (fun r => (rep_path r, rep_operation r)) (group_reports g))
      (sent (trace (final (rename (Some "/d1") (Some "/d2")
                             (Scenario.world Cases.onto_existing 100 7 []))))) =
    [[("/d1", 3)]; [("/d2", 1)]; [("/d1/a", 3)]; [("/d2/a", 2)]].
Proof. repeat split; reflexivity. Qed.

(** * [fork] and [clone] *)

Section ProcessCreation.
Context {P : Platform}.

(** [fork] forwards the real call first. When it returned 0 (the child),
    the descriptor table is cleared, and then the creation record of the
    child is checked and its report sent before the wrapper returns: a FORK
    event whose child id is the id of the calling process, the child, and
    whose process id is the id of its parent. When the real call returned
    anything else (the parent, or a failure), nothing is reset and nothing
    is sent. [k] is the kernel state of the process in which the real call
    returned. *)
Lemma fork_reports_its_creation_from_the_child
    (w : World) (r e : Z) (k : KState)
    (check : AccessCheckResult) (report : AccessReportGroup) (c : PState) :
  let creation :=
    mkIOEvent (Some (getppid k)) (Some (getpid k)) (Some 0)
              ES_EVENT_TYPE_NOTIFY_FORK ES_ACTION_TYPE_NOTIFY
              GetProgramPath "" GetProgramPath 0 false in
  resolved "fork" = true ->
  real_impl "fork" [] (kernel w) (errno w) = Some (r, e, k) ->
  policy "fork" (ReqEvent creation) true k ∅ (cache w) = (check, report, c) ->
  exists w',
    fork w = Ret r w' /\ errno w' = e /\
    (r = 0 ->
       trace w' = trace w ++
         [AReal "fork" [] (Some (r, e));
          AResetFdTable;
          ACheck "fork" (ReqEvent creation) true check report;
          ASend report] /\
       fdTable w' = ∅ /\
       sent (trace w') = sent (trace w) ++ [report]) /\
    (r <> 0 ->
       trace w' = trace w ++ [AReal "fork" [] (Some (r, e))] /\
       fdTable w' = fdTable w /\
       sent (trace w') = sent (trace w)).
Proof.
  intros creation Hres Hreal Hpol.
  unfold fork. unfold bind at 1. rewrite (fwd_returns _ _ _ _ _ _ Hres Hreal).
  rewrite (after_fork_steps "fork" (mk_result_t e r) _ check report c) by exact Hpol.
  unfold get, get_errno; simpl.
  eexists. split; [reflexivity|]. destruct (Z.eqb_spec r 0) as [-> | Hne]; simpl.
  - repeat split; try congruence.
    + rewrite <- !app_assoc. reflexivity.
    + rewrite !sent_app. simpl. rewrite !app_nil_r. reflexivity.
  - repeat split; try congruence.
    rewrite sent_app. simpl. apply app_nil_r.
Qed.

(** [clone] has the body of [fork], so it clears the table and sends the
    creation record only after a real call that returned 0. After a real
    call that returned anything else (the id of the child, in the caller,
    or -1) nothing is reset and nothing is sent; and where the real call
    does not return (the child, which starts in the function given to
    [clone]), the wrapper has made the call and nothing else. *)
Lemma clone_reports_only_after_the_real_call_returned_0
    (fn child_stack flags arg ptid newtls ctid : Z) (w : World) :
  let args := [APtr fn; APtr child_stack; AInt flags; APtr arg;
               APtr ptid; APtr newtls; APtr ctid] in
  let call := clone fn child_stack flags arg ptid newtls ctid in
  resolved "clone" = true ->
  (real_impl "clone" args (kernel w) (errno w) = None ->
   call w = Stop (NoReturn "clone") (log (AReal "clone" args None) w)) /\
  (forall r e k,
     real_impl "clone" args (kernel w) (errno w) = Some (r, e, k) ->
     r <> 0 ->
     exists w',
       call w = Ret r w' /\ errno w' = e /\
       trace w' = trace w ++ [AReal "clone" args (Some (r, e))] /\
       fdTable w' = fdTable w) /\
  (forall e k check report c,
     real_impl "clone" args (kernel w) (errno w) = Some (0, e, k) ->
     policy "clone"
            (ReqEvent (mkIOEvent (Some (getppid k)) (Some (getpid k)) (Some 0)
                                 ES_EVENT_TYPE_NOTIFY_FORK ES_ACTION_TYPE_NOTIFY
                                 GetProgramPath "" GetProgramPath 0 false))
            true k ∅ (cache w) = (check, report, c) ->
     exists w',
       call w = Ret 0 w' /\ errno w' = e /\
       trace w' = trace w ++
         [AReal "clone" args (Some (0, e));
          AResetFdTable;
          ACheck "clone"
                 (ReqEvent (mkIOEvent (Some (getppid k)) (Some (getpid k)) (Some 0)
                                      ES_EVENT_TYPE_NOTIFY_FORK ES_ACTION_TYPE_NOTIFY
                                      GetProgramPath "" GetProgramPath 0 false))
                 true check report;
          ASend report] /\
       fdTable w' = ∅).
Proof.
  intros args call Hres. subst call. split; [|split].
  - intros Hreal. unfold clone, bind, fwd, bind, real. fold args.
    rewrite Hres, Hreal. reflexivity.
  - intros r e k Hreal Hne. unfold clone. fold args. unfold bind at 1.
    rewrite (fwd_returns _ _ _ _ _ _ Hres Hreal).
    unfold bind, get. cbn [result_]. apply Z.eqb_neq in Hne. rewrite Hne.
    eexists. split; [reflexivity|]. repeat split.
  - intros e k check report c Hreal Hpol. unfold clone. fold args. unfold bind at 1.
    rewrite (fwd_returns _ _ _ _ _ _ Hres Hreal).
    rewrite (after_fork_steps "clone" (mk_result_t e 0) _ check report c) by exact Hpol.
    eexists. split; [reflexivity|]. split; [reflexivity|]. split; [|reflexivity].
    simpl. rewrite <- !app_assoc. reflexivity.
Qed.

End ProcessCreation.

(** The child of a [fork] (process 101, child of 100): its creation record
    is the first thing it sends. *)
Example fork_child_sends_its_creation_record :
  returned (fork (Cases.process Scenario.in_child 100)) = Some 0 /\
  checked (trace (final (fork (Cases.process Scenario.in_child 100)))) =
    [ReqEvent (mkIOEvent (Some 100) (Some 101) (Some 0)
                         ES_EVENT_TYPE_NOTIFY_FORK ES_ACTION_TYPE_NOTIFY
                         "/usr/bin/tool" "" "/usr/bin/tool" 0 false)] /\
  map (fun g => map (fun r => (rep_pid r, rep_operation r)) (group_reports g))
      (sent (trace (final (fork (Cases.process Scenario.in_child 100))))) = [[(101, 14)]] /\
  fdTable (final (fork (Cases.process Scenario.in_child 100))) = ∅.
Proof. repeat split; reflexivity. Qed.

(** C5. A process created through [clone] sends no creation record. In the
    caller (process 100) the real [clone] returns the id of the child, 101,
    which is not 0: the wrapper returns it and has reset and sent nothing.
    In the child (process 101) the real [clone] does not return to the
    wrapper: the call is the last thing the wrapper did, the descriptor
    table the child got from its parent is not cleared, and nothing is
    checked or sent. *)
Theorem clone_child_sends_no_creation_record :
  (returned (clone 4096 8192 17 0 0 0 0 (Cases.process Cases.clone_caller 100)) = Some 101 /\
   trace (final (clone 4096 8192 17 0 0 0 0 (Cases.process Cases.clone_caller 100))) =
     [AReal "clone" Cases.clone_args (Some (101, 0))]) /\
  (returned (clone 4096 8192 17 0 0 0 0 (Cases.process Cases.clone_child 101)) = None /\
   trace (final (clone 4096 8192 17 0 0 0 0 (Cases.process Cases.clone_child 101))) =
     [AReal "clone" Cases.clone_args None] /\
   fdTable (final (clone 4096 8192 17 0 0 0 0 (Cases.process Cases.clone_child 101))) =
     Cases.open_files /\
   sent (trace (final (clone 4096 8192 17 0 0 0 0 (Cases.process Cases.clone_child 101)))) =
     []).
Proof. repeat split; reflexivity. Qed.
